(** * sntpex-ti : an SNTP client on the TI SimpleLink socket layer

    A shallow embedding of [src/src/sntp_ex_lib_ti.c] and
    [src/include/sntp_ex_lib_ti.h]: the timestamp converter, the packet
    codec, the asynchronous event bridge and the protocol state machine,
    followed by the properties of the specification that concern them.

    C integers are [Z] with their wrap-around written out; the payload
    buffer is a list of bytes; the transport and the time source are
    scripts indexed by the number of calls made so far. *)

From Stdlib Require Import ZArith List Bool Lia.
Import ListNotations.
Open Scope Z_scope.

(* ================================================================== *)
(** * Machine integers *)
(* ================================================================== *)

Module CInt.

Definition u8  (x : Z) : Z := x mod 2 ^ 8.
Definition u32 (x : Z) : Z := x mod 2 ^ 32.
Definition u64 (x : Z) : Z := x mod 2 ^ 64.

(** Two's complement reading of the low [w] bits. *)
Definition signed (w : Z) (x : Z) : Z :=
  (x + 2 ^ (w - 1)) mod 2 ^ w - 2 ^ (w - 1).

Definition s16 : Z -> Z := signed 16.
Definition s32 : Z -> Z := signed 32.
Definition s64 : Z -> Z := signed 64.

(** C's [a && b] on integers. *)
Definition logical_and (a b : Z) : bool :=
  negb (a =? 0) && negb (b =? 0).

End CInt.
Import CInt.

(* ================================================================== *)
(** * Configuration constants ([sntp_ex_lib_ti.h]) *)
(* ================================================================== *)

Definition exlibSNTP_CLIENT_DEFAULT_TIMEOUT : Z := 3000.
Definition exlibSNTP_TIME_MESSAGE_MAX_SIZE : Z := 68.
Definition exlibDIFF_SEC_1900_1970 : Z := 2208988800.
Definition exlibSNTP_SOFTSR_RECV_BIT : Z := Z.shiftl 1 0.
Definition exlibSNTP_SOFTSR_SEND_BIT : Z := Z.shiftl 1 1.
Definition exlibPOLLIN_EVENT : Z := 0.

Definition specNTP_VERSION_V4 : Z := 4.
Definition specNTP_MODE_CLIENT : Z := 3.
Definition specNTP_MODE_SERVER : Z := 4.
Definition specNTP_MODE_BROADCAST : Z := 5.

(* ================================================================== *)
(** * Timestamp converter *)
(* ================================================================== *)

(** One iteration of the body of the [for] loop of
    [prv_utility_frac_to_usecs], in [uint32_t] arithmetic. *)
Definition frac_body (fraction index value : Z) : Z :=
  let segment := Z.land (Z.shiftr fraction index) 0x3F in
  if 32 <=? Z.land value 0x3F
  then u32 (Z.shiftr value 6 + segment * 15625 + 1)
  else u32 (Z.shiftr value 6 + segment * 15625).

(** [for( index = 2; index < 32; index += 6 )]; the fuel bounds the number
    of iterations, the test [index < 32] is the one of the source. *)
Fixpoint frac_loop (fuel : nat) (fraction index value : Z) : Z :=
  match fuel with
  | O => value
  | S fuel' =>
      if index <? 32
      then frac_loop fuel' fraction (index + 6) (frac_body fraction index value)
      else value
  end.

Definition prv_utility_frac_to_usecs (fraction : Z) : Z :=
  frac_loop 32 fraction 2 0.

(** The conversion as the specification words it: five six-bit chunks at
    the shift offsets 2, 8, 14, 20, 26, the accumulator shifted right by
    six, plus the chunk times 15625, plus one when the low six bits of the
    accumulator before the shift are at least 32. *)
Definition spec_chunk_offsets : list Z := [2; 8; 14; 20; 26].

Definition spec_frac_step (fraction acc offset : Z) : Z :=
  let chunk := Z.land (Z.shiftr fraction offset) 63 in
  Z.shiftr acc 6 + chunk * 15625 + (if 32 <=? Z.land acc 63 then 1 else 0).

Definition spec_frac_to_usecs (fraction : Z) : Z :=
  fold_left (spec_frac_step fraction) spec_chunk_offsets 0.

(** [prv_utility_ntp_to_epoch].  The constant [2208988800] does not fit
    [int], so in C99 it has a signed 64-bit type ([long] or [long long]):
    [ulSeconds] is converted to that type, the subtraction and the product
    are signed 64-bit, and the casts to [uint64_t] wrap modulo [2^64]. *)
Definition prv_utility_ntp_to_epoch (ulSeconds ulFraction : Z) : Z :=
  u64 (u64 (s64 (s64 (ulSeconds - exlibDIFF_SEC_1900_1970) * 1000000))
       + u64 (prv_utility_frac_to_usecs ulFraction)).

(* ================================================================== *)
(** * Byte order and the wire record *)
(* ================================================================== *)

(** Byte [i] of a 32-bit value, least significant first. *)
Definition byte_of (v i : Z) : Z := (v / 2 ^ (8 * i)) mod 256.

(** [SlNetUtil_htonl] and [SlNetUtil_ntohl] of the SimpleLink SDK on the
    little-endian host of the build (no [_CPU_BIG_ENDIAN]): the four bytes
    of the value in the opposite order. *)
Definition SlNetUtil_htonl (v : Z) : Z :=
  byte_of v 3 + byte_of v 2 * 2 ^ 8 + byte_of v 1 * 2 ^ 16 + byte_of v 0 * 2 ^ 24.

Definition SlNetUtil_ntohl (v : Z) : Z := SlNetUtil_htonl v.

Definition exlibSLNETUTIL_NTOHL := SlNetUtil_ntohl.
Definition exlibSLNETUTIL_HTONL := SlNetUtil_htonl.

(** The buffer [payload[exlibSNTP_TIME_MESSAGE_MAX_SIZE]]. *)
Definition buffer := list Z.

Definition byte_at (p : buffer) (off : nat) : Z := u8 (nth off p 0).

(** Host (little-endian) loads of the packed fields. *)
Definition load32 (p : buffer) (off : nat) : Z :=
  byte_at p off + byte_at p (off + 1) * 2 ^ 8
  + byte_at p (off + 2) * 2 ^ 16 + byte_at p (off + 3) * 2 ^ 24.

Definition load64 (p : buffer) (off : nat) : Z :=
  load32 p off + load32 p (off + 4) * 2 ^ 32.

(** The value of four wire bytes read big-endian. *)
Definition be32 (p : buffer) (off : nat) : Z :=
  byte_at p off * 2 ^ 24 + byte_at p (off + 1) * 2 ^ 16
  + byte_at p (off + 2) * 2 ^ 8 + byte_at p (off + 3).

Fixpoint store8 (p : buffer) (off : nat) (v : Z) : buffer :=
  match p, off with
  | [], _ => []
  | _ :: q, O => u8 v :: q
  | b :: q, S off' => b :: store8 q off' v
  end.

Definition store32 (p : buffer) (off : nat) (v : Z) : buffer :=
  store8 (store8 (store8 (store8 p off (byte_of v 0))
                         (off + 1) (byte_of v 1))
                 (off + 2) (byte_of v 2))
         (off + 3) (byte_of v 3).

(** [memset( p, 0, n )] on the first [n] bytes of a buffer. *)
Definition memset0 (p : buffer) (n : nat) : buffer :=
  repeat 0 (Nat.min n (length p)) ++ skipn n p.

(** The fields of [__packed struct x_sntp_request], by offset. *)
Module Wire.

Definition off_flags : nat := 0.
Definition off_stratum : nat := 1.
Definition off_poll : nat := 2.
Definition off_precision : nat := 3.
Definition off_rootDelay : nat := 4.
Definition off_rootDispersion : nat := 8.
Definition off_referenceId : nat := 12.
Definition off_referenceTimestamp : nat := 16.
Definition off_originateTimestamp : nat := 24.
Definition off_receiveTimestamp : nat := 32.
Definition off_transmitTimestamp : nat := 40.

(** [sizeof( struct x_sntp_request )]: four one-byte fields, three
    32-bit fields and four 64-bit timestamps. *)
Definition sizeof_x_sntp_request : Z := 4 * 1 + 3 * 4 + 4 * 8.

(** First byte: [mode : 3] in the low bits, then [vn : 3], then [li : 2]. *)
Definition mode (p : buffer) : Z := Z.land (byte_at p off_flags) 7.
Definition vn (p : buffer) : Z := Z.land (Z.shiftr (byte_at p off_flags) 3) 7.
Definition li (p : buffer) : Z := Z.land (Z.shiftr (byte_at p off_flags) 6) 3.
Definition stratum (p : buffer) : Z := byte_at p off_stratum.
Definition referenceId (p : buffer) : Z := load32 p off_referenceId.

(** An [NtpTimestamp] at [off]: [seconds] first, [fraction] next, [val]
    the union of both. *)
Definition seconds (p : buffer) (off : nat) : Z := load32 p off.
Definition fraction (p : buffer) (off : nat) : Z := load32 p (off + 4).
Definition val (p : buffer) (off : nat) : Z := load64 p off.

(** Stores to the bit-fields of the first byte. *)
Definition set_vn (p : buffer) (v : Z) : buffer :=
  store8 p off_flags
    (Z.lor (Z.land (byte_at p off_flags) (Z.lnot (Z.shiftl 7 3)))
           (Z.shiftl (Z.land v 7) 3)).

Definition set_mode (p : buffer) (v : Z) : buffer :=
  store8 p off_flags
    (Z.lor (Z.land (byte_at p off_flags) (Z.lnot 7)) (Z.land v 7)).

End Wire.

(* ================================================================== *)
(** * Data model *)
(* ================================================================== *)

Inductive sntp_ud_t : Type :=
| SNTPEX_SUCCESS
| SNTPEX_ERROR
| SNTPEX_ERR_SOCKET_CREATE
| SNTPEX_ERR_SOCKET_SET_OPT
| SNTPEX_ERR_FAULT_INIT
| SNTPEX_ERR_DNS_RESOLVE
| SNTPEX_ERR_NULL_PTR
| SNTPEX_ERR_RX
| SNTPEX_ERR_TX
| SNTPEX_ERR_REQUEST_REJECTED
| SNTPEX_ERR_INVALID_MESSAGE
| SNTPEX_ERR_TIMEOUT.

Inductive udSntpClientState : Type :=
| UD_SNTP_CLIENT_STATE_OPEN
| UD_SNTP_CLIENT_STATE_SENDING
| UD_SNTP_CLIENT_STATE_RECEIVING
| UD_SNTP_CLIENT_STATE_HANDLING_RSP
| UD_SNTP_CLIENT_STATE_CLOSE
| UD_SNTP_CLIENT_STATE_COMPLETE.

Definition is_success (r : sntp_ud_t) : bool :=
  match r with SNTPEX_SUCCESS => true | _ => false end.

Definition is_complete (s : udSntpClientState) : bool :=
  match s with UD_SNTP_CLIENT_STATE_COMPLETE => true | _ => false end.

Record NtpTimestamp : Type := mkNtp { seconds : Z; fraction : Z }.

Record xTimestampCtx_t : Type := mkCtx {
  referenceTimestamp : NtpTimestamp;
  originateTimestamp : NtpTimestamp;
  receiveTimestamp : NtpTimestamp;
  transmitTimestamp : NtpTimestamp;
  originate64_ts : Z;
  reference64_ts : Z;
  receive64_ts : Z;
  transmit64_ts : Z }.

(** [struct vsocket], the descriptor flattened. *)
Record vsocket : Type := mkSock {
  d_event : Z;
  d_type : Z;
  d_protocol : Z;
  tv_sec : Z;
  tv_usec : Z;
  sa_family : Z;
  InAddLength : Z;
  fd : Z }.

(** [struct ud_op_vtable]: the time source of the caller.  Each function is
    given the number of calls made to it so far.  [get_sntp_time] is left
    out: the library never calls it. *)
Record ud_op_vtable : Type := mkVtable {
  get_unix_timestamp : nat -> Z;
  get_os_tick : nat -> Z }.

(** [sntpex_client_handle_t].  [sock] is [NULL] or the address of the one
    virtual socket [uvirtual_sock], held here with the handle.
    [xTimestampList] is the address of the caller's record, which the
    memory below holds next to the handle. *)
Record sntpex_client_handle_t : Type := mkHandle {
  sock : option vsocket;
  vtable_api : ud_op_vtable;
  timeout : Z;
  interface : Z;
  startTime : Z;
  state : udSntpClientState;
  payload : buffer;
  payloadLen : Z;
  kissCode : Z;
  expected_orig_ts : Z }.

(** [struct ux_sntpAsynchEvent]; [event_cb] is [NULL] or a callback of the
    application, named by a number. *)
Record ux_sntpAsynchEvent : Type := mkEvent {
  timestamp : Z;
  event_cb : option nat;
  SR : Z }.

(** What one receive call of the transport does: its return code, the
    datagram it copies into the buffer when it returns a length, and
    whether the spawn task ran [sntpex_eventTriggingFromISR] meanwhile. *)
Record recv_result : Type := mkRecv {
  recv_code : Z;
  recv_data : list Z;
  recv_isr : bool }.

Record send_result : Type := mkSend {
  send_code : Z;
  send_isr : bool }.

(** The transport collaborator ([SlNetSock_*]), scripted by call number. *)
Record Transport : Type := mkTransport {
  SlNetSock_create : nat -> Z;
  SlNetSock_setOpt : nat -> Z;
  SlNetSock_sendTo : nat -> send_result;
  SlNetSock_recvFrom : nat -> recv_result }.

(** Call counters of the collaborators and the observable history: the
    descriptors passed to [SlNetSock_close], the callback invocations and
    the entries of [sntp_sapi] executed with their return codes, each
    oldest first. *)
Record World : Type := mkWorld {
  n_unix : nat;
  n_tick : nat;
  n_create : nat;
  n_setopt : nat;
  n_send : nat;
  n_recv : nat;
  closed : list Z;
  cb_calls : list (nat * Z);
  trace : list (udSntpClientState * sntp_ud_t) }.

(** The memory of the program: one client handle, the caller's timestamp
    record, the global event slot, the global [pg_vtable_api] and the
    world. *)
Record Memory : Type := mkMem {
  client : sntpex_client_handle_t;
  ts : xTimestampCtx_t;
  xsntpAsynchEvent : ux_sntpAsynchEvent;
  pg_vtable_api : option ud_op_vtable;
  world : World }.

(** A pointer argument of the public functions: [NULL], or the address of
    the object of that type in the memory. *)
Inductive pointer : Type := NULL | ADDR.

Definition SLNETERR_RET_CODE_OK : Z := 0.
(** [SLNETERR_BSD_EAGAIN] of [ti/net/slneterr.h]. *)
Definition SLNETERR_BSD_EAGAIN : Z := -11.
(** [SLNETSOCK_SOCK_DGRAM] and [SLNETSOCK_PROTO_UDP] of [ti/net/slnetsock.h]. *)
Definition SLNETSOCK_SOCK_DGRAM : Z := 2.
Definition SLNETSOCK_PROTO_UDP : Z := 17.

(* ================================================================== *)
(** * Field updates *)
(* ================================================================== *)

Definition set_fd (s : vsocket) (v : Z) : vsocket :=
  mkSock (d_event s) (d_type s) (d_protocol s) (tv_sec s) (tv_usec s)
         (sa_family s) (InAddLength s) v.

Definition set_sock (c : sntpex_client_handle_t) (v : option vsocket) :=
  mkHandle v (vtable_api c) (timeout c) (interface c) (startTime c) (state c)
           (payload c) (payloadLen c) (kissCode c) (expected_orig_ts c).

Definition set_startTime (c : sntpex_client_handle_t) (v : Z) :=
  mkHandle (sock c) (vtable_api c) (timeout c) (interface c) v (state c)
           (payload c) (payloadLen c) (kissCode c) (expected_orig_ts c).

Definition set_state (c : sntpex_client_handle_t) (v : udSntpClientState) :=
  mkHandle (sock c) (vtable_api c) (timeout c) (interface c) (startTime c) v
           (payload c) (payloadLen c) (kissCode c) (expected_orig_ts c).

Definition set_payload (c : sntpex_client_handle_t) (v : buffer) :=
  mkHandle (sock c) (vtable_api c) (timeout c) (interface c) (startTime c)
           (state c) v (payloadLen c) (kissCode c) (expected_orig_ts c).

Definition set_payloadLen (c : sntpex_client_handle_t) (v : Z) :=
  mkHandle (sock c) (vtable_api c) (timeout c) (interface c) (startTime c)
           (state c) (payload c) v (kissCode c) (expected_orig_ts c).

Definition set_kissCode (c : sntpex_client_handle_t) (v : Z) :=
  mkHandle (sock c) (vtable_api c) (timeout c) (interface c) (startTime c)
           (state c) (payload c) (payloadLen c) v (expected_orig_ts c).

Definition set_expected_orig_ts (c : sntpex_client_handle_t) (v : Z) :=
  mkHandle (sock c) (vtable_api c) (timeout c) (interface c) (startTime c)
           (state c) (payload c) (payloadLen c) (kissCode c) v.

Definition set_client (m : Memory) (c : sntpex_client_handle_t) : Memory :=
  mkMem c (ts m) (xsntpAsynchEvent m) (pg_vtable_api m) (world m).

Definition set_ts (m : Memory) (t : xTimestampCtx_t) : Memory :=
  mkMem (client m) t (xsntpAsynchEvent m) (pg_vtable_api m) (world m).

Definition set_event (m : Memory) (e : ux_sntpAsynchEvent) : Memory :=
  mkMem (client m) (ts m) e (pg_vtable_api m) (world m).

Definition set_world (m : Memory) (w : World) : Memory :=
  mkMem (client m) (ts m) (xsntpAsynchEvent m) (pg_vtable_api m) w.

(* ================================================================== *)
(** * Collaborators *)
(* ================================================================== *)

Module Env.

Definition bump_unix (w : World) : World :=
  mkWorld (S (n_unix w)) (n_tick w) (n_create w) (n_setopt w) (n_send w)
          (n_recv w) (closed w) (cb_calls w) (trace w).

Definition bump_tick (w : World) : World :=
  mkWorld (n_unix w) (S (n_tick w)) (n_create w) (n_setopt w) (n_send w)
          (n_recv w) (closed w) (cb_calls w) (trace w).

Definition bump_create (w : World) : World :=
  mkWorld (n_unix w) (n_tick w) (S (n_create w)) (n_setopt w) (n_send w)
          (n_recv w) (closed w) (cb_calls w) (trace w).

Definition bump_setopt (w : World) : World :=
  mkWorld (n_unix w) (n_tick w) (n_create w) (S (n_setopt w)) (n_send w)
          (n_recv w) (closed w) (cb_calls w) (trace w).

Definition bump_send (w : World) : World :=
  mkWorld (n_unix w) (n_tick w) (n_create w) (n_setopt w) (S (n_send w))
          (n_recv w) (closed w) (cb_calls w) (trace w).

Definition bump_recv (w : World) : World :=
  mkWorld (n_unix w) (n_tick w) (n_create w) (n_setopt w) (n_send w)
          (S (n_recv w)) (closed w) (cb_calls w) (trace w).

Definition log_close (w : World) (d : Z) : World :=
  mkWorld (n_unix w) (n_tick w) (n_create w) (n_setopt w) (n_send w)
          (n_recv w) (closed w ++ [d]) (cb_calls w) (trace w).

Definition log_cb (w : World) (cb : nat) (e : Z) : World :=
  mkWorld (n_unix w) (n_tick w) (n_create w) (n_setopt w) (n_send w)
          (n_recv w) (closed w) (cb_calls w ++ [(cb, e)]) (trace w).

Definition log_trace (w : World) (s : udSntpClientState) (r : sntp_ud_t) : World :=
  mkWorld (n_unix w) (n_tick w) (n_create w) (n_setopt w) (n_send w)
          (n_recv w) (closed w) (cb_calls w) (trace w ++ [(s, r)]).

(** [v->get_unix_timestamp()], a [uint64_t]. *)
Definition unix_timestamp (v : ud_op_vtable) (m : Memory) : Z * Memory :=
  (u64 (get_unix_timestamp v (n_unix (world m))),
   set_world m (bump_unix (world m))).

(** [v->get_os_tick()], a [uint32_t]. *)
Definition os_tick (v : ud_op_vtable) (m : Memory) : Z * Memory :=
  (u32 (get_os_tick v (n_tick (world m))),
   set_world m (bump_tick (world m))).

(** [SlNetSock_close( d )]. *)
Definition close (d : Z) (m : Memory) : Memory :=
  set_world m (log_close (world m) d).

(** A registered callback called with an event bit. *)
Definition invoke (cb : option nat) (e : Z) (m : Memory) : Memory :=
  match cb with
  | Some k => set_world m (log_cb (world m) k e)
  | None => m
  end.

End Env.

(* ================================================================== *)
(** * Asynchronous event bridge *)
(* ================================================================== *)

(** [prv_utility_register_event]. *)
Definition prv_utility_register_event
  (eventbitField : Z) (cb : option nat) (m : Memory) : Memory :=
  let e := xsntpAsynchEvent m in
  set_event m (mkEvent (timestamp e) cb (u8 (Z.lor (SR e) eventbitField))).

(** [prv_utility_unregister_event]. *)
Definition prv_utility_unregister_event (eventbitField : Z) (m : Memory) : Memory :=
  let e := xsntpAsynchEvent m in
  set_event m (mkEvent 0 None (u8 (Z.land (SR e) (Z.lnot eventbitField)))).

(** The body shared by the two branches of [sntpex_eventTriggingFromISR]:
    clear [bit] in the soft status register, store the time of the time
    source, call the callback, when there is one, with [bit]. *)
Definition drain_event (v : ud_op_vtable) (bit : Z) (m : Memory) : Memory :=
  let e := xsntpAsynchEvent m in
  let m1 := set_event m (mkEvent (timestamp e) (event_cb e)
                                 (u8 (Z.land (SR e) (Z.lnot bit)))) in
  let '(t, m2) := Env.unix_timestamp v m1 in
  let e2 := xsntpAsynchEvent m2 in
  let m3 := set_event m2 (mkEvent t (event_cb e2) (SR e2)) in
  Env.invoke (event_cb (xsntpAsynchEvent m3)) bit m3.

(** [sntpex_eventTriggingFromISR].  The two tests on the status register
    are written with [&&] in the source. *)
Definition sntpex_eventTriggingFromISR (m : Memory) : sntp_ud_t * Memory :=
  match pg_vtable_api m with
  | None => (SNTPEX_ERR_FAULT_INIT, m)
  | Some v =>
      if SR (xsntpAsynchEvent m) =? 0 then (SNTPEX_ERR_FAULT_INIT, m)
      else if logical_and (SR (xsntpAsynchEvent m)) exlibSNTP_SOFTSR_RECV_BIT
      then (SNTPEX_SUCCESS, drain_event v exlibSNTP_SOFTSR_RECV_BIT m)
      else if logical_and (SR (xsntpAsynchEvent m)) exlibSNTP_SOFTSR_SEND_BIT
      then (SNTPEX_SUCCESS, drain_event v exlibSNTP_SOFTSR_SEND_BIT m)
      else (SNTPEX_SUCCESS, m)
  end.

(** The spawn task running the hook while a transport call is pending. *)
Definition spawn_task (fires : bool) (m : Memory) : Memory :=
  if fires then snd (sntpex_eventTriggingFromISR m) else m.

(* ================================================================== *)
(** * Packet codec: the request *)
(* ================================================================== *)

(** [prv_utility_build_request( p_client, p_client->payload )]. *)
Definition prv_utility_build_request (m : Memory) : sntp_ud_t * Memory :=
  let c := client m in
  let r0 := memset0 (payload c) (Z.to_nat Wire.sizeof_x_sntp_request) in
  let r1 := Wire.set_vn r0 specNTP_VERSION_V4 in
  let r2 := Wire.set_mode r1 specNTP_MODE_CLIENT in
  let r3 := store8 r2 Wire.off_stratum 2 in
  let r4 := store8 r3 Wire.off_poll 0x06 in
  let r5 := store8 r4 Wire.off_precision 0xec in
  let '(tick, m1) := Env.os_tick (vtable_api c) m in
  let r6 := store32 r5 Wire.off_transmitTimestamp 0 in
  let r7 := store32 r6 (Wire.off_transmitTimestamp + 4)
                    (exlibSLNETUTIL_HTONL tick) in
  let c1 := set_expected_orig_ts c tick in
  let c2 := set_payload c1 r7 in
  let c3 := set_payloadLen c2 Wire.sizeof_x_sntp_request in
  (SNTPEX_SUCCESS, set_client m1 c3).

(* ================================================================== *)
(** * Protocol state machine *)
(* ================================================================== *)

(** Bytes written by a receive call that returned a length: the datagram,
    cut to the length asked for and to the buffer. *)
Definition copy_in (p : buffer) (data : list Z) (len : Z) : buffer :=
  let k := Nat.min (Nat.min (length data) (Z.to_nat len)) (length p) in
  firstn k data ++ skipn k p.

(** [sFct_sntp_CloseConnection]. *)
Definition sFct_sntp_CloseConnection (m : Memory) : sntp_ud_t * Memory :=
  match sock (client m) with
  | None => (SNTPEX_ERR_NULL_PTR, m)
  | Some p_socket =>
      let m1 :=
        if negb (fd p_socket =? -1)
        then set_client (Env.close (fd p_socket) m)
                        (set_sock (client m) (Some (set_fd p_socket (-1))))
        else m in
      (SNTPEX_SUCCESS,
       set_client m1 (set_state (client m1) UD_SNTP_CLIENT_STATE_OPEN))
  end.

(** The timestamps [sFct_sntp_HandlingResponse] exports from a reply. *)
Definition export_timestamps (responce : buffer) (x : xTimestampCtx_t)
  : xTimestampCtx_t :=
  let ntoh_seconds off := exlibSLNETUTIL_NTOHL (Wire.seconds responce off) in
  let ntoh_fraction off := exlibSLNETUTIL_NTOHL (Wire.fraction responce off) in
  mkCtx
    (mkNtp (ntoh_seconds Wire.off_referenceTimestamp)
           (ntoh_fraction Wire.off_referenceTimestamp))
    (originateTimestamp x)
    (mkNtp (ntoh_seconds Wire.off_receiveTimestamp)
           (ntoh_fraction Wire.off_receiveTimestamp))
    (mkNtp (ntoh_seconds Wire.off_transmitTimestamp)
           (ntoh_fraction Wire.off_transmitTimestamp))
    (originate64_ts x)
    (reference64_ts x)
    (prv_utility_ntp_to_epoch (ntoh_seconds Wire.off_receiveTimestamp)
                              (ntoh_fraction Wire.off_receiveTimestamp))
    (prv_utility_ntp_to_epoch (ntoh_seconds Wire.off_transmitTimestamp)
                              (ntoh_fraction Wire.off_transmitTimestamp)).

(** [sFct_sntp_HandlingResponse]. *)
Definition sFct_sntp_HandlingResponse (m : Memory) : sntp_ud_t * Memory :=
  let c := client m in
  let responce := payload c in
  if payloadLen c <? Wire.sizeof_x_sntp_request
  then (SNTPEX_ERR_INVALID_MESSAGE, m)
  else if Wire.vn responce =? 0
  then (SNTPEX_ERR_INVALID_MESSAGE, m)
  else if Wire.val responce Wire.off_transmitTimestamp =? 0
  then (SNTPEX_ERR_INVALID_MESSAGE, m)
  else if negb (Wire.mode responce =? specNTP_MODE_SERVER)
          && negb (Wire.mode responce =? specNTP_MODE_BROADCAST)
  then (SNTPEX_ERR_INVALID_MESSAGE, m)
  else if negb (Wire.seconds responce Wire.off_originateTimestamp =? 0)
          || negb (Wire.fraction responce Wire.off_originateTimestamp
                   =? exlibSLNETUTIL_NTOHL (expected_orig_ts c))
  then (SNTPEX_ERR_INVALID_MESSAGE, m)
  else
    let m1 := set_client m (set_kissCode c 0) in
    if Wire.stratum responce =? 0
    then (SNTPEX_ERR_REQUEST_REJECTED,
          set_client m1 (set_kissCode (client m1)
                           (exlibSLNETUTIL_NTOHL (Wire.referenceId responce))))
    else
      let m2 := set_ts m1 (export_timestamps responce (ts m1)) in
      (SNTPEX_SUCCESS,
       set_client m2 (set_state (client m2) UD_SNTP_CLIENT_STATE_COMPLETE)).

Section StateMachine.

Variable net : Transport.

(** [SlNetSock_create], an [int16_t]. *)
Definition net_create (m : Memory) : Z * Memory :=
  (s16 (SlNetSock_create net (n_create (world m))),
   set_world m (Env.bump_create (world m))).

(** [SlNetSock_setOpt], an [int32_t]. *)
Definition net_setOpt (m : Memory) : Z * Memory :=
  (s32 (SlNetSock_setOpt net (n_setopt (world m))),
   set_world m (Env.bump_setopt (world m))).

(** [SlNetSock_sendTo], an [int32_t]. *)
Definition net_sendTo (m : Memory) : Z * Memory :=
  let r := SlNetSock_sendTo net (n_send (world m)) in
  (s32 (send_code r),
   spawn_task (send_isr r) (set_world m (Env.bump_send (world m)))).

(** [SlNetSock_recvFrom] into [p_client->payload], an [int32_t]. *)
Definition net_recvFrom (m : Memory) : Z * Memory :=
  let r := SlNetSock_recvFrom net (n_recv (world m)) in
  let rc := s32 (recv_code r) in
  let m1 := set_world m (Env.bump_recv (world m)) in
  let c := client m1 in
  let m2 := if 0 <? rc
            then set_client m1
                   (set_payload c (copy_in (payload c) (recv_data r) (payloadLen c)))
            else m1 in
  (rc, spawn_task (recv_isr r) m2).

(** [sFct_sntp_OpenConnection]. *)
Definition sFct_sntp_OpenConnection (m : Memory) : sntp_ud_t * Memory :=
  match sock (client m) with
  | None => (SNTPEX_ERR_NULL_PTR, m)
  | Some p_socket =>
      let m1 :=
        if negb (fd p_socket =? -1)
        then set_client (Env.close (fd p_socket) m)
                        (set_sock (client m) (Some (set_fd p_socket (-1))))
        else m in
      let '(d, m2) := net_create m1 in
      let m3 := set_client m2 (set_sock (client m2) (Some (set_fd p_socket d))) in
      if d <? 0 then (SNTPEX_ERR_SOCKET_CREATE, m3)
      else
        let '(rc, m4) := net_setOpt m3 in
        if rc <? 0 then (SNTPEX_ERR_SOCKET_SET_OPT, m4)
        else (SNTPEX_SUCCESS,
              set_client m4 (set_state (client m4) UD_SNTP_CLIENT_STATE_SENDING))
  end.

(** The [do ... while] of [sFct_sntp_SendRequest] (build with
    [exlibSNTP_CLIENT_USE_NONBLOCKING_TIMEOUT_OPTION]); the tick is read
    only after a would-block result.  [None]: the polling is not over
    within [fuel] rounds. *)
Fixpoint send_poll (fuel : nat) (ulTickStart : Z) (m : Memory)
  : option (Z * Memory) :=
  match fuel with
  | O => None
  | S fuel' =>
      let '(rc, m1) := net_sendTo m in
      if rc =? SLNETERR_BSD_EAGAIN then
        let '(now, m2) := Env.os_tick (vtable_api (client m1)) m1 in
        if u32 (now - ulTickStart) <? timeout (client m2)
        then send_poll fuel' ulTickStart m2
        else Some (rc, m2)
      else Some (rc, m1)
  end.

(** [sFct_sntp_SendRequest].  [None] also stands for the undefined
    behaviour of a [NULL] socket. *)
Definition sFct_sntp_SendRequest (fuel : nat) (m : Memory)
  : option (sntp_ud_t * Memory) :=
  match sock (client m) with
  | None => None
  | Some _ =>
      let '(_, m1) := prv_utility_build_request m in
      let '(t1, m2) := Env.unix_timestamp (vtable_api (client m1)) m1 in
      let x := ts m2 in
      let m3 := set_ts m2 (mkCtx (referenceTimestamp x) (originateTimestamp x)
                                 (receiveTimestamp x) (transmitTimestamp x)
                                 t1 (reference64_ts x) (receive64_ts x)
                                 (transmit64_ts x)) in
      let '(ulTickStart, m4) := Env.os_tick (vtable_api (client m3)) m3 in
      match send_poll fuel ulTickStart m4 with
      | None => None
      | Some (rc, m5) =>
          let c := client m5 in
          if SLNETERR_BSD_EAGAIN =? rc then Some (SNTPEX_ERR_TIMEOUT, m5)
          else if (rc <? 0) || negb (rc =? payloadLen c)
          then Some (SNTPEX_ERR_TX, m5)
          else
            let c1 := set_payload c (memset0 (payload c) (Z.to_nat (payloadLen c))) in
            Some (SNTPEX_SUCCESS,
                  set_client m5 (set_state c1 UD_SNTP_CLIENT_STATE_RECEIVING))
      end
  end.

(** The [do ... while] of [sFct_sntp_ReceiveResponse]. *)
Fixpoint recv_poll (fuel : nat) (ulTickStart : Z) (m : Memory)
  : option (Z * Memory) :=
  match fuel with
  | O => None
  | S fuel' =>
      let '(rc, m1) := net_recvFrom m in
      if rc =? SLNETERR_BSD_EAGAIN then
        let '(now, m2) := Env.os_tick (vtable_api (client m1)) m1 in
        if u32 (now - ulTickStart) <? timeout (client m2)
        then recv_poll fuel' ulTickStart m2
        else Some (rc, m2)
      else Some (rc, m1)
  end.

(** [sFct_sntp_ReceiveResponse]. *)
Definition sFct_sntp_ReceiveResponse (fuel : nat) (m : Memory)
  : option (sntp_ud_t * Memory) :=
  match sock (client m) with
  | None => None
  | Some _ =>
      let m1 := prv_utility_register_event exlibSNTP_SOFTSR_RECV_BIT None m in
      let '(ulTickStart, m2) := Env.os_tick (vtable_api (client m1)) m1 in
      match recv_poll fuel ulTickStart m2 with
      | None => None
      | Some (rc, m3) =>
          if SLNETERR_BSD_EAGAIN =? rc then Some (SNTPEX_ERR_TIMEOUT, m3)
          else if rc <? 0 then Some (SNTPEX_ERR_RX, m3)
          else if negb (rc =? payloadLen (client m3))
          then Some (SNTPEX_ERR_INVALID_MESSAGE, m3)
          else if timestamp (xsntpAsynchEvent m3) =? 0
          then Some (SNTPEX_ERR_INVALID_MESSAGE, m3)
          else
            let x := ts m3 in
            let m4 := set_ts m3 (mkCtx (referenceTimestamp x) (originateTimestamp x)
                                       (receiveTimestamp x) (transmitTimestamp x)
                                       (originate64_ts x)
                                       (timestamp (xsntpAsynchEvent m3))
                                       (receive64_ts x) (transmit64_ts x)) in
            let m5 := prv_utility_unregister_event exlibSNTP_SOFTSR_RECV_BIT m4 in
            Some (SNTPEX_SUCCESS,
                  set_client m5 (set_state (client m5)
                                           UD_SNTP_CLIENT_STATE_HANDLING_RSP))
      end
  end.

End StateMachine.

(** The table [sntp_sapi]: one entry per state below
    [UD_SNTP_CLIENT_STATE_COMPLETE]. *)
Definition sntp_sapi (net : Transport) (s : udSntpClientState)
  : option (nat -> Memory -> option (sntp_ud_t * Memory)) :=
  match s with
  | UD_SNTP_CLIENT_STATE_OPEN =>
      Some (fun _ m => Some (sFct_sntp_OpenConnection net m))
  | UD_SNTP_CLIENT_STATE_SENDING => Some (sFct_sntp_SendRequest net)
  | UD_SNTP_CLIENT_STATE_RECEIVING => Some (sFct_sntp_ReceiveResponse net)
  | UD_SNTP_CLIENT_STATE_HANDLING_RSP =>
      Some (fun _ m => Some (sFct_sntp_HandlingResponse m))
  | UD_SNTP_CLIENT_STATE_CLOSE =>
      Some (fun _ m => Some (sFct_sntp_CloseConnection m))
  | UD_SNTP_CLIENT_STATE_COMPLETE => None
  end.

(** [sntp_sapi[ s ].execFuntion( p_client )], recorded in the history. *)
Definition execFuntion (net : Transport) (s : udSntpClientState)
  (fuel : nat) (m : Memory) : option (sntp_ud_t * Memory) :=
  match sntp_sapi net s with
  | None => None
  | Some f =>
      match f fuel m with
      | None => None
      | Some (rc, m') => Some (rc, set_world m' (Env.log_trace (world m') s rc))
      end
  end.

(** The [while] loop of [sntpex_client_timestamp_get]. *)
Fixpoint run_fsm (net : Transport) (fuel : nat) (m : Memory)
  : option (sntp_ud_t * Memory) :=
  match fuel with
  | O => None
  | S fuel' =>
      if is_complete (state (client m)) then Some (SNTPEX_SUCCESS, m)
      else
        match execFuntion net (state (client m)) fuel' m with
        | None => None
        | Some (rc, m') =>
            if is_success rc then run_fsm net fuel' m' else Some (rc, m')
        end
  end.

(* ================================================================== *)
(** * Public functions *)
(* ================================================================== *)

(** [sntpex_client_timestamp_get]. *)
Definition sntpex_client_timestamp_get (net : Transport) (fuel : nat)
  (p_client xTimestampCtx : pointer) (m : Memory)
  : option (sntp_ud_t * Memory) :=
  match p_client, xTimestampCtx with
  | ADDR, ADDR =>
      let '(tick, m1) := Env.os_tick (vtable_api (client m)) m in
      let m2 := set_client m1 (set_startTime (client m1) tick) in
      match run_fsm net fuel m2 with
      | None => None
      | Some (xLibReturnCode, m3) =>
          if is_success xLibReturnCode
          then Some (xLibReturnCode,
                     set_client m3 (set_state (client m3)
                                              UD_SNTP_CLIENT_STATE_SENDING))
          else
            let m4 := prv_utility_unregister_event exlibSNTP_SOFTSR_RECV_BIT m3 in
            match execFuntion net UD_SNTP_CLIENT_STATE_CLOSE fuel m4 with
            | None => None
            | Some (_, m5) => Some (xLibReturnCode, m5)
            end
      end
  | _, _ => Some (SNTPEX_ERR_NULL_PTR, m)
  end.

(** [sntpex_client_Kiss_code_get]. *)
Definition sntpex_client_Kiss_code_get (p_client : pointer) (m : Memory) : Z :=
  match p_client with
  | ADDR => kissCode (client m)
  | NULL => 0
  end.

(** [sntpex_clientInitialization] with a time source [v]; both pointers
    not [NULL]. *)
Definition sntpex_clientInitialization (v : ud_op_vtable) (m : Memory)
  : sntp_ud_t * Memory :=
  let tmo := exlibSNTP_CLIENT_DEFAULT_TIMEOUT in
  let usec := (tmo mod 1000) * 1000 in
  let uvirtual_sock :=
    if 1000000 <=? usec
    then mkSock exlibPOLLIN_EVENT SLNETSOCK_SOCK_DGRAM SLNETSOCK_PROTO_UDP
                (tmo / 1000 + 1) (usec - 1000000) 0 0 (-1)
    else mkSock exlibPOLLIN_EVENT SLNETSOCK_SOCK_DGRAM SLNETSOCK_PROTO_UDP
                (tmo / 1000) usec 0 0 (-1) in
  let c := mkHandle (Some uvirtual_sock) v tmo 0 0 UD_SNTP_CLIENT_STATE_OPEN
                    (repeat 0 (Z.to_nat exlibSNTP_TIME_MESSAGE_MAX_SIZE)) 0 0 0 in
  let m1 := mkMem c (ts m) (xsntpAsynchEvent m) (Some v) (world m) in
  let m2 := prv_utility_unregister_event exlibSNTP_SOFTSR_RECV_BIT m1 in
  let m3 := prv_utility_unregister_event exlibSNTP_SOFTSR_SEND_BIT m2 in
  (SNTPEX_SUCCESS, m3).

(* ================================================================== *)
(** * Vocabulary of the properties *)
(* ================================================================== *)

(** The six fields of the caller's record that only the decoding of an
    accepted reply writes. *)
Definition decoded_fields (x : xTimestampCtx_t) :=
  (referenceTimestamp x, originateTimestamp x, receiveTimestamp x,
   transmitTimestamp x, receive64_ts x, transmit64_ts x).

(** Equality of two handles but for the payload bytes. *)
Definition same_but_payload (c c' : sntpex_client_handle_t) : Prop :=
  c' = set_payload c (payload c').

(** The part of the history that the event bridge never writes. *)
Definition same_io (w w' : World) : Prop :=
  trace w' = trace w /\ closed w' = closed w
  /\ n_recv w' = n_recv w /\ n_send w' = n_send w.

(** The state a handler leaves when it succeeds. *)
Definition next_state (s : udSntpClientState) : udSntpClientState :=
  match s with
  | UD_SNTP_CLIENT_STATE_OPEN => UD_SNTP_CLIENT_STATE_SENDING
  | UD_SNTP_CLIENT_STATE_SENDING => UD_SNTP_CLIENT_STATE_RECEIVING
  | UD_SNTP_CLIENT_STATE_RECEIVING => UD_SNTP_CLIENT_STATE_HANDLING_RSP
  | UD_SNTP_CLIENT_STATE_HANDLING_RSP => UD_SNTP_CLIENT_STATE_COMPLETE
  | UD_SNTP_CLIENT_STATE_CLOSE => UD_SNTP_CLIENT_STATE_OPEN
  | UD_SNTP_CLIENT_STATE_COMPLETE => UD_SNTP_CLIENT_STATE_COMPLETE
  end.

(** The handlers a run executes from state [s] when none fails. *)
Definition path_from (s : udSntpClientState) : list udSntpClientState :=
  match s with
  | UD_SNTP_CLIENT_STATE_OPEN =>
      [UD_SNTP_CLIENT_STATE_OPEN; UD_SNTP_CLIENT_STATE_SENDING;
       UD_SNTP_CLIENT_STATE_RECEIVING; UD_SNTP_CLIENT_STATE_HANDLING_RSP]
  | UD_SNTP_CLIENT_STATE_SENDING =>
      [UD_SNTP_CLIENT_STATE_SENDING; UD_SNTP_CLIENT_STATE_RECEIVING;
       UD_SNTP_CLIENT_STATE_HANDLING_RSP]
  | UD_SNTP_CLIENT_STATE_RECEIVING =>
      [UD_SNTP_CLIENT_STATE_RECEIVING; UD_SNTP_CLIENT_STATE_HANDLING_RSP]
  | UD_SNTP_CLIENT_STATE_HANDLING_RSP => [UD_SNTP_CLIENT_STATE_HANDLING_RSP]
  | UD_SNTP_CLIENT_STATE_CLOSE =>
      [UD_SNTP_CLIENT_STATE_CLOSE; UD_SNTP_CLIENT_STATE_OPEN;
       UD_SNTP_CLIENT_STATE_SENDING; UD_SNTP_CLIENT_STATE_RECEIVING;
       UD_SNTP_CLIENT_STATE_HANDLING_RSP]
  | UD_SNTP_CLIENT_STATE_COMPLETE => []
  end.

(** History entries of handlers that returned [SNTPEX_SUCCESS]. *)
Definition succeeded (ss : list udSntpClientState)
  : list (udSntpClientState * sntp_ud_t) :=
  map (fun s => (s, SNTPEX_SUCCESS)) ss.

(** Consecutive entries of a history follow the edges of the machine: the
    next state after a success, [Closing] after a failure. *)
Fixpoint follows_edges (l : list (udSntpClientState * sntp_ud_t)) : Prop :=
  match l with
  | (s, rc) :: (((s', _) :: _) as tl) =>
      (if is_success rc then s' = next_state s
       else s' = UD_SNTP_CLIENT_STATE_CLOSE)
      /\ follows_edges tl
  | _ => True
  end.

(** The descriptor that [Open] and [Close] pass to [SlNetSock_close]. *)
Definition pending_close (so : option vsocket) : list Z :=
  match so with
  | Some s => if fd s =? -1 then [] else [fd s]
  | None => []
  end.

(** A descriptor held by the handle stays held, or has been passed to
    [SlNetSock_close]. *)
Definition tracked (d : Z) (m : Memory) : Prop :=
  In d (closed (world m))
  \/ exists sk, sock (client m) = Some sk /\ fd sk = d.

(** A transport whose calls never report would-block. *)
Definition never_blocks (net : Transport) : Prop :=
  forall n,
    s32 (send_code (SlNetSock_sendTo net n)) <> SLNETERR_BSD_EAGAIN
    /\ s32 (recv_code (SlNetSock_recvFrom net n)) <> SLNETERR_BSD_EAGAIN.

(** The number of handlers left to run from a state. *)
Definition rank (s : udSntpClientState) : nat := length (path_from s).

(** What a caller can observe of a result. *)
Record Observation : Type := mkObs {
  o_code : sntp_ud_t;
  o_ts : xTimestampCtx_t;
  o_event : ux_sntpAsynchEvent;
  o_world : World;
  o_sock : option vsocket;
  o_state : udSntpClientState;
  o_kissCode : Z;
  o_payloadLen : Z }.

Definition observe (r : option (sntp_ud_t * Memory)) : option Observation :=
  match r with
  | None => None
  | Some (rc, m) =>
      Some (mkObs rc (ts m) (xsntpAsynchEvent m) (world m) (sock (client m))
                  (state (client m)) (kissCode (client m))
                  (payloadLen (client m)))
  end.

(* ================================================================== *)
(** * Scenarios *)
(* ================================================================== *)

Module Scenario.

Definition be_bytes (v : Z) : list Z :=
  [byte_of v 3; byte_of v 2; byte_of v 1; byte_of v 0].

(** A time source: microseconds from 2024-01-01, a tick from 1000. *)
Definition clock : ud_op_vtable :=
  mkVtable (fun n => 1704067200000000 + Z.of_nat n)
           (fun n => 1000 + Z.of_nat n).

(** A server reply of 48 bytes: version 4, mode 4, the given stratum and
    reference identifier, the nonce echoed in the originate fraction. *)
Definition reply (stratum nonce : Z) (refid : list Z) : list Z :=
  [0x24; stratum; 6; 0xEC] ++ repeat 0 8 ++ refid
  ++ be_bytes 3913055990 ++ be_bytes 0
  ++ be_bytes 0 ++ be_bytes nonce
  ++ be_bytes 3913056000 ++ be_bytes (2 ^ 31)
  ++ be_bytes 3913056000 ++ be_bytes (2 ^ 31 + 2 ^ 30).

Definition RATE : list Z := [0x52; 0x41; 0x54; 0x45].

(** Everything works; the first tick is the entry tick, the second the
    nonce. *)
Definition good_net : Transport :=
  mkTransport (fun _ => 3) (fun _ => 0) (fun _ => mkSend 48 false)
              (fun _ => mkRecv 48 (reply 2 1001 [71; 80; 83; 0]) true).

(** The transmission fails. *)
Definition tx_net : Transport :=
  mkTransport (fun _ => 3) (fun _ => 0) (fun _ => mkSend (-1) false)
              (fun _ => mkRecv (-1) [] false).

(** A Kiss-of-Death first, then 48 zero bytes. *)
Definition kod_then_garbage_net : Transport :=
  mkTransport (fun _ => 3) (fun _ => 0) (fun _ => mkSend 48 false)
              (fun n => match n with
                        | O => mkRecv 48 (reply 0 1001 RATE) true
                        | _ => mkRecv 48 (repeat 0 48) true
                        end).

Definition zero_ts : xTimestampCtx_t :=
  mkCtx (mkNtp 0 0) (mkNtp 0 0) (mkNtp 0 0) (mkNtp 0 0) 0 0 0 0.

(** The memory at start-up, then after [sntpex_clientInitialization]. *)
Definition boot : Memory :=
  mkMem (mkHandle None clock 0 0 0 UD_SNTP_CLIENT_STATE_OPEN [] 0 0 0)
        zero_ts (mkEvent 0 None 0) None (mkWorld 0 0 0 0 0 0 [] [] []).

Definition m0 : Memory := snd (sntpex_clientInitialization clock boot).

(** The memory a call leaves, [m] itself when the call has no result. *)
Definition after (r : option (sntp_ud_t * Memory)) (m : Memory) : Memory :=
  match r with
  | Some (_, m') => m'
  | None => m
  end.

Definition m_synced : Memory :=
  after (sntpex_client_timestamp_get good_net 8 ADDR ADDR m0) m0.

Definition m_kissed : Memory :=
  after (sntpex_client_timestamp_get kod_then_garbage_net 8 ADDR ADDR m0) m0.

(** An application that set the send bit of the status register and a
    callback. *)
Definition m_send_pending : Memory :=
  set_event m0 (mkEvent 0 (Some 7%nat) exlibSNTP_SOFTSR_SEND_BIT).

Definition m_recv_pending : Memory :=
  set_event m0 (mkEvent 0 (Some 7%nat) exlibSNTP_SOFTSR_RECV_BIT).

(** A buffer holding a Kiss-of-Death reply for the nonce 1001. *)
Definition m_kod_reply : Memory :=
  set_client m0
    (mkHandle (sock (client m0)) clock 3000 0 0
              UD_SNTP_CLIENT_STATE_HANDLING_RSP
              (reply 0 1001 RATE ++ repeat 0 20) 48 0 1001).

End Scenario.

(* ================================================================== *)
(** * Proof steps used throughout *)
(* ================================================================== *)

(** Unfold the field updates and compute the projections. *)
Ltac unfold_setters :=
  unfold set_client, set_ts, set_event, set_world, set_sock, set_state,
    set_payload, set_payloadLen, set_kissCode, set_expected_orig_ts,
    set_startTime, set_fd,
    Env.bump_unix, Env.bump_tick, Env.bump_create, Env.bump_setopt,
    Env.bump_send, Env.bump_recv, Env.log_close, Env.log_cb, Env.log_trace,
    Env.close in *;
  cbn [client ts xsntpAsynchEvent pg_vtable_api world
       sock vtable_api timeout interface startTime state payload payloadLen
       kissCode expected_orig_ts
       d_event d_type d_protocol tv_sec tv_usec sa_family InAddLength fd
       n_unix n_tick n_create n_setopt n_send n_recv closed cb_calls trace
       is_success next_state fst snd] in *.

(** Split a specification into its parts and close the plain ones. *)
Ltac finish_spec :=
  repeat match goal with
         | H : _ = _ |- _ => discriminate H
         | |- _ /\ _ => split
         | |- _ <-> _ => split
         | |- exists _, _ => eexists
         | |- _ -> _ => intro
         | |- _ = _ => rewrite ?app_nil_r; reflexivity
         end.

(** Enumerate the prefixes [ss] of a concrete path in [H]. *)
Ltac split_prefix H ss :=
  destruct ss as [|? ss]; cbn in H;
  [ try discriminate H
  | first [ discriminate H
          | injection H as ? H; subst; try split_prefix H ss ] ].

(* ================================================================== *)
(** * The other public functions *)
(* ================================================================== *)

(** [sntpex_SetClientTimeout]; [timeout] is a [uint32_t].  The second
    assignments of the source go through [uvirtual_sock], the object
    [p_client->sock] points to. *)
Definition sntpex_SetClientTimeout (p_client : pointer) (timeout_ms : Z)
  (m : Memory) : sntp_ud_t * Memory :=
  match p_client with
  | NULL => (SNTPEX_ERR_NULL_PTR, m)
  | ADDR =>
      let t := u32 timeout_ms in
      let c := client m in
      let c1 := mkHandle (sock c) (vtable_api c) t (interface c) (startTime c)
                         (state c) (payload c) (payloadLen c) (kissCode c)
                         (expected_orig_ts c) in
      match sock c1 with
      | None => (SNTPEX_SUCCESS, set_client m c1)
      | Some s =>
          let sec := t / 1000 in
          let usec := (t mod 1000) * 1000 in
          let s1 :=
            if 1000000 <=? usec
            then mkSock (d_event s) (d_type s) (d_protocol s)
                        (sec + 1) (usec - 1000000)
                        (sa_family s) (InAddLength s) (fd s)
            else mkSock (d_event s) (d_type s) (d_protocol s) sec usec
                        (sa_family s) (InAddLength s) (fd s) in
          (SNTPEX_SUCCESS, set_client m (set_sock c1 (Some s1)))
      end
  end.

(** [sntpex_client_bind_to_interface]. *)
Definition sntpex_client_bind_to_interface (p_client : pointer) (m : Memory)
  : sntp_ud_t * Memory :=
  match p_client with
  | NULL => (SNTPEX_ERR_NULL_PTR, m)
  | ADDR => (SNTPEX_SUCCESS, m)
  end.

(** What [SlNetUtil_getHostByName] hands back: its return value and the
    first word it left in [aHostAddress]. *)
Record resolver_result : Type := mkResolved {
  resolver_code : Z;
  resolver_addr0 : Z }.

(** The two objects [sntpex_dns_host_by_name_get] writes for an IPv4
    lookup: [*pxInterfaceIndex], an [InterfaceIndex_t], and the family and
    address of [*pxhost_address]. *)
Record dns_output : Type := mkDns {
  interface_index : Z;
  sin_family : Z;
  sin_addr : Z }.

Section Addresses.

(** Constants of [ti/net/slnetsock.h] that the sources use by name: the
    two address families and the sizes of the two address records. *)
Variable SLNETSOCK_AF_INET : Z.
Variable SLNETSOCK_AF_INET6 : Z.
Variable sizeof_SlNetSock_AddrIn_t : Z.
Variable sizeof_SlNetSock_AddrIn6_t : Z.

(** [sntpex_client_set_server_address].  [serverIpAddr] is [NULL] or points
    to an address of which the model keeps the family, as [struct vsocket]
    does here.  There is no test of [p_client->sock] before the copy:
    [None] stands for the undefined behaviour of a NULL socket. *)
Definition sntpex_client_set_server_address (p_client : pointer)
  (serverIpAddr : option Z) (m : Memory) : option (sntp_ud_t * Memory) :=
  match p_client, serverIpAddr with
  | ADDR, Some family =>
      let c := client m in
      match sock c with
      | None => None
      | Some s =>
          let s1 := mkSock (d_event s) (d_type s) (d_protocol s) (tv_sec s)
                           (tv_usec s) family (InAddLength s) (fd s) in
          let with_length len :=
            mkSock (d_event s1) (d_type s1) (d_protocol s1) (tv_sec s1)
                   (tv_usec s1) (sa_family s1) len (fd s1) in
          if family =? SLNETSOCK_AF_INET
          then Some (SNTPEX_SUCCESS,
                     set_client m
                       (set_state
                          (set_sock c (Some (with_length sizeof_SlNetSock_AddrIn_t)))
                          UD_SNTP_CLIENT_STATE_OPEN))
          else if family =? SLNETSOCK_AF_INET6
          then Some (SNTPEX_SUCCESS,
                     set_client m
                       (set_state
                          (set_sock c (Some (with_length sizeof_SlNetSock_AddrIn6_t)))
                          UD_SNTP_CLIENT_STATE_OPEN))
          else Some (SNTPEX_ERROR, set_client m (set_sock c (Some s1)))
      end
  | _, _ => Some (SNTPEX_ERR_NULL_PTR, m)
  end.

(** [sntpex_dns_host_by_name_get] with [pxInterfaceIndex] not NULL.  The
    interface index is a [uint16_t]: the resolver's return value is cut to
    16 bits by the assignment.  The IPv6 branch writes through the address
    of the pointer argument itself: [None], no defined result. *)
Definition sntpex_dns_host_by_name_get (resolved : resolver_result)
  (pcHostname pxhost_address : pointer) (Family : Z) (d : dns_output)
  : option (sntp_ud_t * dns_output) :=
  match pcHostname, pxhost_address with
  | ADDR, ADDR =>
      let idx := resolver_code resolved mod 2 ^ 16 in
      let d1 := mkDns idx (sin_family d) (sin_addr d) in
      if 0 <? idx then
        if u8 Family =? SLNETSOCK_AF_INET
        then Some (SNTPEX_SUCCESS,
                   mkDns idx SLNETSOCK_AF_INET
                         (exlibSLNETUTIL_HTONL (u32 (resolver_addr0 resolved))))
        else if u8 Family =? SLNETSOCK_AF_INET6
        then None
        else Some (SNTPEX_ERR_DNS_RESOLVE, d1)
      else Some (SNTPEX_ERR_DNS_RESOLVE, d1)
  | _, _ => Some (SNTPEX_ERR_NULL_PTR, d)
  end.

End Addresses.

(* ================================================================== *)
(** * More vocabulary *)
(* ================================================================== *)

(** The four bytes of a 32-bit value in network order. *)
Definition wire32 (v : Z) : list Z :=
  [byte_of v 3; byte_of v 2; byte_of v 1; byte_of v 0].

(** The 48 bytes of a request that carries the nonce [tick]. *)
Definition request_bytes (tick : Z) : list Z :=
  [0x23; 2; 6; 0xEC] ++ repeat 0 40 ++ wire32 tick.

(** The five checks of [sFct_sntp_HandlingResponse] on the reply in the
    buffer of a handle. *)
Definition passes_checks (c : sntpex_client_handle_t) : Prop :=
  let p := payload c in
  Wire.sizeof_x_sntp_request <= payloadLen c
  /\ Wire.vn p <> 0
  /\ ~ (be32 p Wire.off_transmitTimestamp = 0
        /\ be32 p (Wire.off_transmitTimestamp + 4) = 0)
  /\ (Wire.mode p = specNTP_MODE_SERVER \/ Wire.mode p = specNTP_MODE_BROADCAST)
  /\ be32 p Wire.off_originateTimestamp = 0
  /\ be32 p (Wire.off_originateTimestamp + 4) = u32 (expected_orig_ts c).

(** The time source registered at initialisation, if any, always reads
    zero: whenever the hook runs, the time it stores is zero. *)
Definition clock_reads_zero (pg : option ud_op_vtable) : Prop :=
  forall v, pg = Some v -> forall n, u64 (get_unix_timestamp v n) = 0.

(** What each step of a call keeps: the registered time source, and an
    empty time in the event slot when that source reads zero. *)
Definition stamp_kept (m m' : Memory) : Prop :=
  pg_vtable_api m' = pg_vtable_api m
  /\ (clock_reads_zero (pg_vtable_api m) ->
      timestamp (xsntpAsynchEvent m) = 0 ->
      timestamp (xsntpAsynchEvent m') = 0).

(** The timestamp record decoded from the reply [p], the fields of [x]
    that the decoding does not write kept. *)
Definition decoded_record (p : buffer) (x : xTimestampCtx_t) : xTimestampCtx_t :=
  mkCtx (mkNtp (be32 p 16) (be32 p 20))
        (originateTimestamp x)
        (mkNtp (be32 p 32) (be32 p 36))
        (mkNtp (be32 p 40) (be32 p 44))
        (originate64_ts x)
        (reference64_ts x)
        (prv_utility_ntp_to_epoch (be32 p 32) (be32 p 36))
        (prv_utility_ntp_to_epoch (be32 p 40) (be32 p 44)).

(** The state of the memory after an accepted reply: the buffer passes the
    checks and is not a Kiss-of-Death, the record is the one decoded from
    the buffer, with a time of reception, and the Kiss code is clear. *)
Definition accepted (m : Memory) : Prop :=
  passes_checks (client m)
  /\ Wire.stratum (payload (client m)) <> 0
  /\ ts m = decoded_record (payload (client m)) (ts m)
  /\ kissCode (client m) = 0
  /\ reference64_ts (ts m) <> 0.

Module MoreScenarios.

(** A buffer holding an acceptable reply for the nonce 1001. *)
Definition m_good_reply : Memory :=
  set_client Scenario.m0
    (mkHandle (sock (client Scenario.m0)) Scenario.clock 3000 0 0
              UD_SNTP_CLIENT_STATE_HANDLING_RSP
              (Scenario.reply 2 1001 [71; 80; 83; 0] ++ repeat 0 20) 48 0 1001).

(** The socket that [sntpex_clientInitialization] leaves. *)
Definition s0 : vsocket :=
  mkSock exlibPOLLIN_EVENT SLNETSOCK_SOCK_DGRAM SLNETSOCK_PROTO_UDP
         3 0 0 0 (-1).

(** A transport that cannot create a socket. *)
Definition create_fails_net : Transport :=
  mkTransport (fun _ => -5) (fun _ => 0) (fun _ => mkSend 48 false)
              (fun _ => mkRecv 48 [] false).

(** A transport that takes the request and never delivers a reply. *)
Definition mute_net : Transport :=
  mkTransport (fun _ => 3) (fun _ => 0) (fun _ => mkSend 48 false)
              (fun _ => mkRecv SLNETERR_BSD_EAGAIN [] false).

(** The time source of the example application: both functions return
    zero. *)
Definition stuck_clock : ud_op_vtable :=
  mkVtable (fun _ => 0) (fun _ => 0).

(** The client initialised with that time source. *)
Definition m_stuck : Memory :=
  snd (sntpex_clientInitialization stuck_clock Scenario.boot).

(** A transport on which every transfer would block. *)
Definition silent_net : Transport :=
  mkTransport (fun _ => 3) (fun _ => 0)
              (fun _ => mkSend SLNETERR_BSD_EAGAIN false)
              (fun _ => mkRecv SLNETERR_BSD_EAGAIN [] false).

(** The client after the application has set a timeout of 5 ticks. *)
Definition m_short : Memory :=
  snd (sntpex_SetClientTimeout ADDR 5 Scenario.m0).

End MoreScenarios.

(** Compute the records, their projections and updates, and the counters
    of the world, leaving the arithmetic alone. *)
Ltac run_records :=
  cbv beta iota zeta delta
    [set_client set_world set_sock set_state set_fd set_startTime set_event
     set_ts set_payload set_payloadLen set_kissCode set_expected_orig_ts
     client ts xsntpAsynchEvent pg_vtable_api world
     sock vtable_api timeout interface startTime state payload payloadLen
     kissCode expected_orig_ts
     d_event d_type d_protocol tv_sec tv_usec sa_family InAddLength fd
     referenceTimestamp originateTimestamp receiveTimestamp transmitTimestamp
     originate64_ts reference64_ts receive64_ts transmit64_ts
     n_unix n_tick n_create n_setopt n_send n_recv closed cb_calls trace
     timestamp event_cb SR
     Env.bump_unix Env.bump_tick Env.bump_create Env.bump_setopt
     Env.bump_send Env.bump_recv Env.log_close Env.log_cb Env.log_trace
     Env.os_tick Env.unix_timestamp Env.close Env.invoke
     fst snd negb is_complete is_success].

(* ================================================================== *)
(** * Properties of the timestamp converter *)
(* ================================================================== *)

Lemma land63_range (a : Z) : 0 <= Z.land a 63 < 64.
Proof.
  change 63 with (Z.ones 6). rewrite Z.land_ones by lia.
  apply Z.mod_pos_bound. reflexivity.
Qed.

Lemma signed_small (w x : Z) :
  0 < w -> - 2 ^ (w - 1) <= x < 2 ^ (w - 1) -> signed w x = x.
Proof.
  intros Hw Hx. unfold signed.
  assert (E : 2 ^ w = 2 * 2 ^ (w - 1)).
  { replace w with (Z.succ (w - 1)) at 1 by lia. apply Z.pow_succ_r. lia. }
  rewrite Z.mod_small; lia.
Qed.

Lemma s64_small (x : Z) :
  - 9223372036854775808 <= x < 9223372036854775808 -> s64 x = x.
Proof. intros Hx. apply signed_small; [lia|exact Hx]. Qed.

(** Below 1000001 the accumulator never wraps, and an iteration of the
    source is a step of the specification. *)
Lemma frac_body_spec (fraction index value : Z) :
  0 <= value <= 1000001 ->
  frac_body fraction index value = spec_frac_step fraction value index
  /\ 0 <= frac_body fraction index value <= 1000001.
Proof.
  intros Hv. unfold frac_body, spec_frac_step, u32.
  change 0x3F with 63.
  pose proof (land63_range (Z.shiftr fraction index)) as Hs.
  assert (Hq : 0 <= Z.shiftr value 6 <= 15625).
  { rewrite Z.shiftr_div_pow2 by lia. change (2 ^ 6) with 64.
    split; [apply Z.div_pos; lia|].
    apply Z.lt_succ_r. apply Z.div_lt_upper_bound; lia. }
  destruct (32 <=? Z.land value 63); rewrite Z.mod_small; lia.
Qed.

Lemma frac_to_usecs_unfold (fraction : Z) :
  prv_utility_frac_to_usecs fraction =
  frac_body fraction 26
    (frac_body fraction 20
       (frac_body fraction 14
          (frac_body fraction 8 (frac_body fraction 2 0)))).
Proof. reflexivity. Qed.

Lemma frac_to_usecs_range (fraction : Z) :
  0 <= prv_utility_frac_to_usecs fraction <= 1000001.
Proof.
  rewrite frac_to_usecs_unfold.
  repeat (apply frac_body_spec); lia.
Qed.

(** The loop stops by its own test: more fuel changes nothing. *)
Lemma frac_loop_fuel (fraction : Z) (k : nat) :
  frac_loop (5 + k) fraction 2 0 = frac_loop 5 fraction 2 0.
Proof. destruct k; reflexivity. Qed.

(** C10: the conversion of the source is the iterative approximation of
    the specification, for every fraction: five chunks of six bits at the
    offsets 2, 8, 14, 20 and 26, each step the accumulator shifted right by
    six plus the chunk times 15625, plus one when the low six bits of the
    accumulator were at least 32.  A fraction of 0 gives 0 microseconds and
    a fraction of 2^31 gives 500000. *)
Theorem frac_to_usecs_refines_spec :
  (forall fraction : Z,
      prv_utility_frac_to_usecs fraction = spec_frac_to_usecs fraction)
  /\ length spec_chunk_offsets = 5%nat
  /\ prv_utility_frac_to_usecs 0 = 0
  /\ prv_utility_frac_to_usecs (2 ^ 31) = 500000.
Proof.
  split; [|repeat split; reflexivity].
  intros fraction. rewrite frac_to_usecs_unfold.
  unfold spec_frac_to_usecs, spec_chunk_offsets. cbn [fold_left].
  assert (H0 : 0 <= 0 <= 1000001) by lia.
  destruct (frac_body_spec fraction 2 0 H0) as [E1 R1].
  destruct (frac_body_spec fraction 8 _ R1) as [E2 R2].
  destruct (frac_body_spec fraction 14 _ R2) as [E3 R3].
  destruct (frac_body_spec fraction 20 _ R3) as [E4 R4].
  destruct (frac_body_spec fraction 26 _ R4) as [E5 _].
  rewrite E5, E4, E3, E2, E1. reflexivity.
Qed.

(** C2: for 32-bit NTP seconds, the conversion is
    (seconds - 2208988800) * 1000000 plus the microseconds of the
    fraction, as a 64-bit value: the signed product never overflows, the
    result read as a signed 64-bit number is that sum, it is the sum itself
    from 1970 on and the sum plus 2^64 when the sum is negative.  The
    seconds of the result are seconds - 2208988800 plus the whole seconds
    in the microseconds of the fraction: seconds - 2208988800 when these
    microseconds are below 1000000, and one more when they are 1000000. *)
Theorem ntp_to_epoch_formula (ulSeconds ulFraction : Z) :
  0 <= ulSeconds < 2 ^ 32 ->
  let usecs := prv_utility_frac_to_usecs ulFraction in
  let unix_seconds := ulSeconds - 2208988800 in
  let r := prv_utility_ntp_to_epoch ulSeconds ulFraction in
  r = (unix_seconds * 1000000 + usecs) mod 2 ^ 64
  /\ - 2 ^ 63 <= unix_seconds * 1000000 < 2 ^ 63
  /\ s64 r = unix_seconds * 1000000 + usecs
  /\ (2208988800 <= ulSeconds -> r = unix_seconds * 1000000 + usecs)
  /\ (unix_seconds * 1000000 + usecs < 0 ->
      r = 2 ^ 64 + (unix_seconds * 1000000 + usecs))
  /\ s64 r / 1000000 = unix_seconds + usecs / 1000000
  /\ (usecs < 1000000 -> s64 r / 1000000 = unix_seconds)
  /\ (usecs = 1000000 -> s64 r / 1000000 = unix_seconds + 1).
Proof.
  intros HS usecs unix_seconds r.
  pose proof (frac_to_usecs_range ulFraction) as HF. fold usecs in HF.
  change (2 ^ 32) with 4294967296 in HS.
  assert (E : r = (unix_seconds * 1000000 + usecs) mod 2 ^ 64).
  { subst r. unfold prv_utility_ntp_to_epoch, exlibDIFF_SEC_1900_1970, s64, u64.
    fold usecs. fold unix_seconds.
    fold (s64 unix_seconds).
    rewrite (s64_small unix_seconds) by (subst unix_seconds; lia).
    fold (s64 (unix_seconds * 1000000)).
    rewrite s64_small by (subst unix_seconds; lia).
    rewrite <- Z.add_mod by discriminate. reflexivity. }
  assert (B : - 2 ^ 63 <= unix_seconds * 1000000 < 2 ^ 63)
    by (subst unix_seconds; lia).
  split; [exact E|]. split; [exact B|].
  change (2 ^ 64) with 18446744073709551616 in *.
  change (2 ^ 63) with 9223372036854775808 in *.
  assert (Hsum : - 9223372036854775808 <= unix_seconds * 1000000 + usecs
                 < 9223372036854775808) by (subst unix_seconds; lia).
  assert (Es : s64 r = unix_seconds * 1000000 + usecs).
  { rewrite E. unfold s64, signed.
    change (2 ^ (64 - 1)) with 9223372036854775808.
    change (2 ^ 64) with 18446744073709551616.
    rewrite Z.add_mod_idemp_l by discriminate.
    rewrite Z.mod_small; lia. }
  assert (Ed : s64 r / 1000000 = unix_seconds + usecs / 1000000).
  { rewrite Es. apply Z.div_add_l. discriminate. }
  split; [exact Es|]. split; [|split; [|split; [exact Ed|split]]].
  - intros Hge. rewrite E. apply Z.mod_small. subst unix_seconds. lia.
  - intros Hlt. rewrite E.
    symmetry. apply Z.mod_unique with (q := -1); subst unix_seconds; lia.
  - intros Hu. rewrite Ed, Z.div_small by lia. lia.
  - intros Hu. rewrite Ed, Hu. reflexivity.
Qed.

(** The formula at the Unix epoch and one second before it. *)
Lemma ntp_to_epoch_formula_witness :
  prv_utility_ntp_to_epoch 2208988800 (2 ^ 31) = 500000
  /\ prv_utility_ntp_to_epoch 2208988799 0 = 2 ^ 64 - 1000000
  /\ s64 (prv_utility_ntp_to_epoch 2208988799 0) = - 1000000.
Proof.
  pose proof (ntp_to_epoch_formula 2208988800 (2 ^ 31) ltac:(lia)) as H1.
  pose proof (ntp_to_epoch_formula 2208988799 0 ltac:(lia)) as H2.
  cbv zeta in H1, H2.
  destruct H1 as (_ & _ & _ & H1 & _).
  destruct H2 as (_ & _ & H2s & _ & H2 & _).
  split; [|split].
  - rewrite H1 by lia. reflexivity.
  - rewrite H2 by reflexivity. reflexivity.
  - rewrite H2s. reflexivity.
Defined.

(** C2, the case the claim as written leaves out: for the largest
    fractions the microseconds of the fraction are a full second, so the
    seconds of the result are one more than seconds - 2208988800. *)
Theorem ntp_to_epoch_seconds_carry :
  let ulSeconds := 3913056000 in
  let ulFraction := 2 ^ 32 - 1 in
  let r := prv_utility_ntp_to_epoch ulSeconds ulFraction in
  (0 <= ulSeconds < 2 ^ 32 /\ 0 <= ulFraction < 2 ^ 32)
  /\ prv_utility_frac_to_usecs ulFraction = 1000000
  /\ r = 1704067201000000
  /\ s64 r = r
  /\ r / 1000000 = 1704067201
  /\ ulSeconds - 2208988800 = 1704067200
  /\ r / 1000000 <> ulSeconds - 2208988800.
Proof.
  cbv zeta. repeat split; try (vm_compute; reflexivity);
    vm_compute; intro X; discriminate X.
Qed.

(* ================================================================== *)
(** * Properties of the byte order functions and of the buffer *)
(* ================================================================== *)

Lemma byte_of_range (v i : Z) : 0 <= byte_of v i < 256.
Proof. unfold byte_of. apply Z.mod_pos_bound. reflexivity. Qed.

Lemma byte_at_range (p : buffer) (off : nat) : 0 <= byte_at p off < 256.
Proof. unfold byte_at, u8. apply Z.mod_pos_bound. reflexivity. Qed.

(** The bytes of a value assembled from four bytes. *)
Lemma byte_of_assembled (a b c d : Z) :
  0 <= a < 256 -> 0 <= b < 256 -> 0 <= c < 256 -> 0 <= d < 256 ->
  let x := a + b * 2 ^ 8 + c * 2 ^ 16 + d * 2 ^ 24 in
  byte_of x 0 = a /\ byte_of x 1 = b /\ byte_of x 2 = c /\ byte_of x 3 = d.
Proof.
  intros Ha Hb Hc Hd x. subst x. unfold byte_of.
  change (2 ^ (8 * 0)) with 1. change (2 ^ (8 * 1)) with 256.
  change (2 ^ (8 * 2)) with 65536. change (2 ^ (8 * 3)) with 16777216.
  change (2 ^ 8) with 256. change (2 ^ 16) with 65536.
  change (2 ^ 24) with 16777216.
  repeat split; Z.div_mod_to_equations; lia.
Qed.

Lemma u32_bytes (v : Z) :
  u32 v = byte_of v 0 + byte_of v 1 * 2 ^ 8 + byte_of v 2 * 2 ^ 16
          + byte_of v 3 * 2 ^ 24.
Proof.
  unfold u32, byte_of.
  change (2 ^ (8 * 0)) with 1. change (2 ^ (8 * 1)) with 256.
  change (2 ^ (8 * 2)) with 65536. change (2 ^ (8 * 3)) with 16777216.
  change (2 ^ 8) with 256. change (2 ^ 16) with 65536.
  change (2 ^ 24) with 16777216. change (2 ^ 32) with 4294967296.
  Z.div_mod_to_equations. lia.
Qed.

Lemma htonl_assembled (a b c d : Z) :
  0 <= a < 256 -> 0 <= b < 256 -> 0 <= c < 256 -> 0 <= d < 256 ->
  SlNetUtil_htonl (a + b * 2 ^ 8 + c * 2 ^ 16 + d * 2 ^ 24)
  = d + c * 2 ^ 8 + b * 2 ^ 16 + a * 2 ^ 24.
Proof.
  intros Ha Hb Hc Hd. unfold SlNetUtil_htonl.
  destruct (byte_of_assembled a b c d Ha Hb Hc Hd) as (E0 & E1 & E2 & E3).
  cbv zeta in E0, E1, E2, E3. rewrite E0, E1, E2, E3. reflexivity.
Qed.

(** Swapping twice gives the value back, as a 32-bit number. *)
Lemma htonl_involutive (v : Z) : SlNetUtil_htonl (SlNetUtil_htonl v) = u32 v.
Proof.
  unfold SlNetUtil_htonl at 2.
  rewrite htonl_assembled by apply byte_of_range.
  rewrite u32_bytes. reflexivity.
Qed.

Lemma htonl_u32 (v : Z) : SlNetUtil_htonl (u32 v) = SlNetUtil_htonl v.
Proof.
  rewrite u32_bytes. rewrite htonl_assembled by apply byte_of_range.
  unfold SlNetUtil_htonl. lia.
Qed.

Lemma htonl_range (v : Z) : 0 <= SlNetUtil_htonl v < 2 ^ 32.
Proof.
  unfold SlNetUtil_htonl.
  pose proof (byte_of_range v 0). pose proof (byte_of_range v 1).
  pose proof (byte_of_range v 2). pose proof (byte_of_range v 3).
  change (2 ^ 8) with 256. change (2 ^ 16) with 65536.
  change (2 ^ 24) with 16777216. change (2 ^ 32) with 4294967296. lia.
Qed.

Lemma load32_range (p : buffer) (off : nat) : 0 <= load32 p off < 2 ^ 32.
Proof.
  unfold load32.
  pose proof (byte_at_range p off). pose proof (byte_at_range p (off + 1)).
  pose proof (byte_at_range p (off + 2)). pose proof (byte_at_range p (off + 3)).
  change (2 ^ 8) with 256. change (2 ^ 16) with 65536.
  change (2 ^ 24) with 16777216. change (2 ^ 32) with 4294967296. lia.
Qed.

(** A packed field read on the host and passed to [ntohl] is the
    big-endian value of its four wire bytes. *)
Lemma ntohl_load32 (p : buffer) (off : nat) :
  SlNetUtil_ntohl (load32 p off) = be32 p off.
Proof.
  unfold SlNetUtil_ntohl, load32, be32.
  rewrite htonl_assembled by apply byte_at_range. lia.
Qed.

(** The comparison of the source, a raw field against [ntohl] of the
    nonce, is the comparison of the normalised field with the nonce. *)
Lemma raw_eq_ntohl_iff (p : buffer) (off : nat) (x : Z) :
  load32 p off = SlNetUtil_ntohl x <-> be32 p off = u32 x.
Proof.
  rewrite <- ntohl_load32. unfold SlNetUtil_ntohl. split; intros E.
  - rewrite E. apply htonl_involutive.
  - apply (f_equal SlNetUtil_htonl) in E.
    rewrite htonl_involutive, htonl_u32 in E.
    unfold u32 in E. rewrite Z.mod_small in E by apply load32_range.
    exact E.
Qed.

Lemma length_store8 (p : buffer) (off : nat) (v : Z) :
  length (store8 p off v) = length p.
Proof.
  revert off. induction p as [|b q IH]; intros [|off]; simpl; auto.
Qed.

Lemma nth_store8_same (p : buffer) (off : nat) (v : Z) :
  (off < length p)%nat -> nth off (store8 p off v) 0 = u8 v.
Proof.
  revert off. induction p as [|b q IH]; intros [|off] H; simpl in *;
    try lia; auto. apply IH. lia.
Qed.

Lemma nth_store8_other (p : buffer) (off off' : nat) (v : Z) :
  off <> off' -> nth off' (store8 p off v) 0 = nth off' p 0.
Proof.
  revert off off'. induction p as [|b q IH]; intros [|off] [|off'] H; simpl;
    try reflexivity; try congruence. apply IH. congruence.
Qed.

Lemma byte_at_store8_same (p : buffer) (off : nat) (v : Z) :
  (off < length p)%nat -> byte_at (store8 p off v) off = u8 v.
Proof.
  intros H. unfold byte_at. rewrite nth_store8_same by exact H.
  unfold u8. apply Z.mod_mod. discriminate.
Qed.

Lemma byte_at_store8_other (p : buffer) (off off' : nat) (v : Z) :
  off <> off' -> byte_at (store8 p off v) off' = byte_at p off'.
Proof. intros H. unfold byte_at. rewrite nth_store8_other by exact H. reflexivity. Qed.

Lemma length_store32 (p : buffer) (off : nat) (v : Z) :
  length (store32 p off v) = length p.
Proof. unfold store32. rewrite !length_store8. reflexivity. Qed.

Lemma u8_byte_of (v i : Z) : u8 (byte_of v i) = byte_of v i.
Proof. unfold u8, byte_of. apply Z.mod_mod. discriminate. Qed.

(** A 32-bit store followed by a load of the same field. *)
Lemma load32_store32 (p : buffer) (off : nat) (v : Z) :
  (off + 3 < length p)%nat -> load32 (store32 p off v) off = u32 v.
Proof.
  intros H. unfold load32, store32.
  rewrite (byte_at_store8_same _ (off + 3)) by (rewrite !length_store8; lia).
  rewrite (byte_at_store8_other _ (off + 3) (off + 2)) by lia.
  rewrite (byte_at_store8_other _ (off + 3) (off + 1)) by lia.
  rewrite (byte_at_store8_other _ (off + 3) off) by lia.
  rewrite (byte_at_store8_same _ (off + 2)) by (rewrite !length_store8; lia).
  rewrite (byte_at_store8_other _ (off + 2) (off + 1)) by lia.
  rewrite (byte_at_store8_other _ (off + 2) off) by lia.
  rewrite (byte_at_store8_same _ (off + 1)) by (rewrite !length_store8; lia).
  rewrite (byte_at_store8_other _ (off + 1) off) by lia.
  rewrite (byte_at_store8_same _ off) by lia.
  rewrite !u8_byte_of. symmetry. apply u32_bytes.
Qed.

Lemma length_memset0 (p : buffer) (n : nat) : length (memset0 p n) = length p.
Proof.
  unfold memset0. rewrite length_app, repeat_length, length_skipn. lia.
Qed.

Lemma load32_store32_other (p : buffer) (off off' : nat) (v : Z) :
  (off' + 3 < off \/ off + 3 < off')%nat ->
  load32 (store32 p off v) off' = load32 p off'.
Proof.
  intros H. unfold load32, store32.
  rewrite !byte_at_store8_other by lia. reflexivity.
Qed.

(** The request of [prv_utility_build_request] carries the tick it read,
    big-endian, in the fraction of its transmit timestamp, and zero in the
    seconds. *)
Lemma build_request_nonce (m : Memory) :
  (Z.to_nat Wire.sizeof_x_sntp_request <= length (payload (client m)))%nat ->
  let m1 := snd (prv_utility_build_request m) in
  let request := payload (client m1) in
  expected_orig_ts (client m1)
  = u32 (get_os_tick (vtable_api (client m)) (n_tick (world m)))
  /\ Wire.seconds request Wire.off_transmitTimestamp = 0
  /\ be32 request (Wire.off_transmitTimestamp + 4) = expected_orig_ts (client m1).
Proof.
  intros Hlen. cbv zeta.
  unfold prv_utility_build_request, Env.os_tick. cbn [snd].
  set (tick := u32 (get_os_tick (vtable_api (client m)) (n_tick (world m)))).
  destruct m as [c x e pg w]; destruct c as [so vt tmo itf st0 stt pl plen kc eo].
  cbn [client payload set_client set_payloadLen set_payload
       set_expected_orig_ts expected_orig_ts sock vtable_api timeout
       interface startTime state kissCode payloadLen] in *.
  change (Z.to_nat Wire.sizeof_x_sntp_request) with 48%nat in *.
  unfold Wire.off_transmitTimestamp, Wire.seconds.
  match goal with |- context [store32 (store32 ?r 40 0) (40 + 4) ?v] =>
    set (r5 := r); set (h := v) end.
  assert (L5 : length r5 = length pl).
  { subst r5. unfold Wire.set_mode, Wire.set_vn.
    rewrite !length_store8, length_memset0. reflexivity. }
  split; [reflexivity|]. split.
  - rewrite load32_store32_other by lia.
    rewrite load32_store32 by lia. reflexivity.
  - rewrite <- ntohl_load32.
    rewrite load32_store32 by (rewrite length_store32; lia).
    subst h. unfold exlibSLNETUTIL_HTONL, SlNetUtil_ntohl.
    rewrite htonl_u32, htonl_involutive.
    subst tick. unfold u32. apply Z.mod_mod. discriminate.
Qed.

(* ================================================================== *)
(** * What each step leaves alone *)
(* ================================================================== *)

Lemma same_but_payload_refl c : same_but_payload c c.
Proof. destruct c; reflexivity. Qed.

Lemma same_but_payload_trans c1 c2 c3 :
  same_but_payload c1 c2 -> same_but_payload c2 c3 -> same_but_payload c1 c3.
Proof.
  unfold same_but_payload. intros H12 H23. rewrite H23, H12.
  destruct c1; reflexivity.
Qed.

Lemma same_io_refl w : same_io w w.
Proof. repeat split. Qed.

Lemma same_io_trans w1 w2 w3 : same_io w1 w2 -> same_io w2 w3 -> same_io w1 w3.
Proof.
  unfold same_io. intros (A1 & A2 & A3 & A4) (B1 & B2 & B3 & B4).
  repeat split; congruence.
Qed.

Create HintDb frame.
#[local] Hint Resolve same_but_payload_refl same_io_refl : frame.

Lemma drain_event_frame v bit m :
  let m' := drain_event v bit m in
  client m' = client m /\ ts m' = ts m /\ pg_vtable_api m' = pg_vtable_api m
  /\ same_io (world m) (world m').
Proof.
  unfold drain_event. destruct m as [c x e pg w]; simpl.
  destruct (event_cb e); simpl; repeat split.
Qed.

Lemma isr_frame m :
  let m' := snd (sntpex_eventTriggingFromISR m) in
  client m' = client m /\ ts m' = ts m /\ pg_vtable_api m' = pg_vtable_api m
  /\ same_io (world m) (world m').
Proof.
  unfold sntpex_eventTriggingFromISR.
  destruct (pg_vtable_api m) as [v|] eqn:Epg;
    [|cbn [snd]; rewrite Epg; auto with frame].
  destruct (SR (xsntpAsynchEvent m) =? 0);
    [cbn [snd]; rewrite Epg; auto with frame|].
  destruct (logical_and (SR (xsntpAsynchEvent m)) exlibSNTP_SOFTSR_RECV_BIT);
    [cbn [snd]; rewrite <- Epg; apply drain_event_frame|].
  destruct (logical_and (SR (xsntpAsynchEvent m)) exlibSNTP_SOFTSR_SEND_BIT);
    [cbn [snd]; rewrite <- Epg; apply drain_event_frame|].
  cbn [snd]; rewrite Epg; auto with frame.
Qed.

Lemma spawn_task_frame b m :
  let m' := spawn_task b m in
  client m' = client m /\ ts m' = ts m /\ pg_vtable_api m' = pg_vtable_api m
  /\ same_io (world m) (world m').
Proof.
  destruct b; [apply isr_frame|simpl; auto with frame].
Qed.

Section Frames.

Variable net : Transport.

Lemma net_sendTo_frame m :
  let m' := snd (net_sendTo net m) in
  client m' = client m /\ ts m' = ts m
  /\ trace (world m') = trace (world m)
  /\ closed (world m') = closed (world m)
  /\ n_recv (world m') = n_recv (world m).
Proof.
  unfold net_sendTo. cbn [snd].
  destruct (spawn_task_frame (send_isr (SlNetSock_sendTo net (n_send (world m))))
              (set_world m (Env.bump_send (world m))))
    as (Hc & Ht & _ & (W1 & W2 & W3 & _)).
  rewrite Hc, Ht, W1, W2, W3. destruct m; repeat split.
Qed.

Lemma net_recvFrom_frame m :
  let r := net_recvFrom net m in
  same_but_payload (client m) (client (snd r)) /\ ts (snd r) = ts m
  /\ trace (world (snd r)) = trace (world m)
  /\ closed (world (snd r)) = closed (world m)
  /\ n_recv (world (snd r)) = S (n_recv (world m))
  /\ fst r = s32 (recv_code (SlNetSock_recvFrom net (n_recv (world m)))).
Proof.
  unfold net_recvFrom. cbn [snd fst].
  match goal with |- context [spawn_task ?b ?x] =>
    destruct (spawn_task_frame b x) as (Hc & Ht & _ & (W1 & W2 & W3 & _)) end.
  rewrite Hc, Ht, W1, W2, W3.
  destruct (0 <? _); destruct m as [c x e pg w]; destruct c;
    repeat split.
Qed.

Lemma os_tick_frame v m :
  let m' := snd (Env.os_tick v m) in
  client m' = client m /\ ts m' = ts m
  /\ xsntpAsynchEvent m' = xsntpAsynchEvent m
  /\ trace (world m') = trace (world m)
  /\ closed (world m') = closed (world m)
  /\ n_recv (world m') = n_recv (world m).
Proof. destruct m; repeat split. Qed.

(** The send polling touches neither the handle nor the record. *)
Lemma send_poll_frame fuel : forall start m rc m',
  send_poll net fuel start m = Some (rc, m') ->
  client m' = client m /\ ts m' = ts m
  /\ trace (world m') = trace (world m)
  /\ closed (world m') = closed (world m)
  /\ n_recv (world m') = n_recv (world m).
Proof.
  induction fuel as [|fuel IH]; intros start m rc m' H; [discriminate|].
  cbn [send_poll] in H.
  pose proof (net_sendTo_frame m) as F1. cbv zeta in F1.
  destruct (net_sendTo net m) as [rc1 m1]. cbn [snd] in F1.
  destruct F1 as (C1 & T1 & W1 & W2 & W3).
  destruct (rc1 =? SLNETERR_BSD_EAGAIN).
  - pose proof (os_tick_frame (vtable_api (client m1)) m1) as F2.
    cbv zeta in F2.
    destruct (Env.os_tick (vtable_api (client m1)) m1) as [now m2].
    cbn [snd] in F2. destruct F2 as (C2 & T2 & _ & V1 & V2 & V3).
    destruct (u32 (now - start) <? timeout (client m2)).
    + apply IH in H. destruct H as (C3 & T3 & X1 & X2 & X3).
      repeat split; congruence.
    + inversion H; subst. repeat split; congruence.
  - inversion H; subst. repeat split; congruence.
Qed.

(** The receive polling writes the payload bytes only; the return code
    is the one of the last transport call. *)
Lemma recv_poll_frame fuel : forall start m rc m',
  recv_poll net fuel start m = Some (rc, m') ->
  same_but_payload (client m) (client m') /\ ts m' = ts m
  /\ trace (world m') = trace (world m)
  /\ closed (world m') = closed (world m)
  /\ exists k, n_recv (world m') = S k
       /\ rc = s32 (recv_code (SlNetSock_recvFrom net k)).
Proof.
  induction fuel as [|fuel IH]; intros start m rc m' H; [discriminate|].
  cbn [recv_poll] in H.
  pose proof (net_recvFrom_frame m) as F1. cbv zeta in F1.
  destruct (net_recvFrom net m) as [rc1 m1]. cbn [snd fst] in F1.
  destruct F1 as (C1 & T1 & W1 & W2 & W3 & R1).
  destruct (rc1 =? SLNETERR_BSD_EAGAIN).
  - pose proof (os_tick_frame (vtable_api (client m1)) m1) as F2.
    cbv zeta in F2.
    destruct (Env.os_tick (vtable_api (client m1)) m1) as [now m2].
    cbn [snd] in F2. destruct F2 as (C2 & T2 & _ & V1 & V2 & V3).
    destruct (u32 (now - start) <? timeout (client m2)).
    + apply IH in H. destruct H as (C3 & T3 & X1 & X2 & X3).
      rewrite C2 in C3.
      repeat split; try congruence.
      eapply same_but_payload_trans; eauto.
    + inversion H; subst. repeat split; try congruence.
      exists (n_recv (world m)). split; congruence.
  - inversion H; subst. repeat split; try congruence.
    exists (n_recv (world m)). split; congruence.
Qed.

End Frames.

(* ================================================================== *)
(** * The handlers, one by one *)
(* ================================================================== *)

Lemma build_request_spec m :
  let c := client m in
  let r := prv_utility_build_request m in
  let tick := u32 (get_os_tick (vtable_api c) (n_tick (world m))) in
  fst r = SNTPEX_SUCCESS
  /\ ts (snd r) = ts m
  /\ xsntpAsynchEvent (snd r) = xsntpAsynchEvent m
  /\ pg_vtable_api (snd r) = pg_vtable_api m
  /\ world (snd r) = Env.bump_tick (world m)
  /\ client (snd r)
     = mkHandle (sock c) (vtable_api c) (timeout c) (interface c) (startTime c)
                (state c) (payload (client (snd r)))
                Wire.sizeof_x_sntp_request (kissCode c) tick.
Proof. destruct m as [c x e pg w]; destruct c; repeat split. Qed.

Section Handlers.

Variable net : Transport.

Lemma OpenConnection_spec m rc m' :
  sFct_sntp_OpenConnection net m = (rc, m') ->
  let c := client m in
  ts m' = ts m
  /\ xsntpAsynchEvent m' = xsntpAsynchEvent m
  /\ trace (world m') = trace (world m)
  /\ n_recv (world m') = n_recv (world m)
  /\ exists so,
      client m' = set_state (set_sock c so)
                    (if is_success rc then UD_SNTP_CLIENT_STATE_SENDING
                     else state c)
      /\ (so = None <-> sock c = None)
      /\ closed (world m') = closed (world m) ++ pending_close (sock c)
      /\ (rc = SNTPEX_SUCCESS -> exists s, so = Some s /\ 0 <= fd s).
Proof.
  intros H. cbv zeta. unfold sFct_sntp_OpenConnection in H.
  destruct m as [c0 x e pg w]. cbn [client] in *.
  destruct c0 as [so vt tmo itf st0 stt pl plen kc eo]. cbn [sock] in *.
  destruct so as [s|].
  2:{ inversion H; subst; unfold pending_close; unfold_setters.
      rewrite app_nil_r. repeat split.
      exists None. repeat split; try discriminate. }
  destruct (fd s =? -1) eqn:Efd; cbn in H;
    match type of H with context [?d <? 0] =>
      destruct (d <? 0) eqn:Ed end;
    try match type of H with context [?r <? 0] =>
      destruct (r <? 0) eqn:Er end;
    inversion H; subst; unfold pending_close; unfold_setters;
    rewrite ?Efd; finish_spec.
  all: apply Z.ltb_ge in Ed; exact Ed.
Qed.

Lemma CloseConnection_spec m rc m' :
  sFct_sntp_CloseConnection m = (rc, m') ->
  let c := client m in
  ts m' = ts m
  /\ xsntpAsynchEvent m' = xsntpAsynchEvent m
  /\ trace (world m') = trace (world m)
  /\ n_recv (world m') = n_recv (world m)
  /\ match sock c with
     | None => rc = SNTPEX_ERR_NULL_PTR /\ m' = m
     | Some s =>
         rc = SNTPEX_SUCCESS
         /\ client m' = set_state (set_sock c (Some (set_fd s (-1))))
                                  UD_SNTP_CLIENT_STATE_OPEN
         /\ closed (world m') = closed (world m) ++ pending_close (sock c)
     end.
Proof.
  intros H. cbv zeta. unfold sFct_sntp_CloseConnection in H.
  destruct m as [c0 x e pg w]. cbn [client] in *.
  destruct c0 as [so vt tmo itf st0 stt pl plen kc eo]. cbn [sock] in *.
  destruct so as [s|]; [|inversion H; subst; cbn; repeat split].
  destruct (fd s =? -1) eqn:Efd; cbn in H; inversion H; subst;
    unfold pending_close; unfold_setters; rewrite ?Efd;
    repeat split; rewrite ?app_nil_r; try reflexivity.
  apply Z.eqb_eq in Efd. destruct s; cbn in *. subst. reflexivity.
Qed.

Lemma SendRequest_spec fuel m rc m' :
  sFct_sntp_SendRequest net fuel m = Some (rc, m') ->
  let c := client m in
  sock c <> None
  /\ (exists p' tick,
        client m' =
        mkHandle (sock c) (vtable_api c) (timeout c) (interface c)
                 (startTime c)
                 (if is_success rc then UD_SNTP_CLIENT_STATE_RECEIVING
                  else state c)
                 p' Wire.sizeof_x_sntp_request (kissCode c) tick)
  /\ decoded_fields (ts m') = decoded_fields (ts m)
  /\ reference64_ts (ts m') = reference64_ts (ts m)
  /\ trace (world m') = trace (world m)
  /\ closed (world m') = closed (world m)
  /\ n_recv (world m') = n_recv (world m)
  /\ (rc = SNTPEX_SUCCESS \/ rc = SNTPEX_ERR_TIMEOUT \/ rc = SNTPEX_ERR_TX).
Proof.
  intros H. cbv zeta. unfold sFct_sntp_SendRequest in H.
  destruct (sock (client m)) as [s|] eqn:Es; [|discriminate].
  pose proof (build_request_spec m) as B. cbv zeta in B.
  destruct (prv_utility_build_request m) as [r1 m1]. cbn [fst snd] in B.
  destruct B as (_ & B1 & B2 & B3 & B4 & B5).
  unfold Env.unix_timestamp, Env.os_tick in H.
  match type of H with context [send_poll net fuel ?st ?m4] =>
    destruct (send_poll net fuel st m4) as [[rc5 m5]|] eqn:Ep;
      [|discriminate];
    apply send_poll_frame in Ep; destruct Ep as (P1 & P2 & P3 & P4 & P5)
  end.
  unfold_setters. rewrite B4 in *. unfold_setters.
  split; [discriminate|].
  rewrite B5 in P1.
  destruct (SLNETERR_BSD_EAGAIN =? rc5);
    [|destruct ((rc5 <? 0) || negb (rc5 =? payloadLen (client m5)))];
    inversion H; subst; unfold_setters;
    rewrite ?P1, ?P2, ?P3, ?P4, ?P5, ?B1, ?Es; unfold_setters;
    (split; [eexists; eexists; reflexivity|]);
    repeat split; auto.
Qed.

Lemma ReceiveResponse_spec fuel m rc m' :
  sFct_sntp_ReceiveResponse net fuel m = Some (rc, m') ->
  let c := client m in
  sock c <> None
  /\ (exists p',
        client m' =
        set_state (set_payload c p')
                  (if is_success rc then UD_SNTP_CLIENT_STATE_HANDLING_RSP
                   else state c))
  /\ decoded_fields (ts m') = decoded_fields (ts m)
  /\ originate64_ts (ts m') = originate64_ts (ts m)
  /\ trace (world m') = trace (world m)
  /\ closed (world m') = closed (world m)
  /\ (rc = SNTPEX_SUCCESS ->
      reference64_ts (ts m') <> 0
      /\ exists k, n_recv (world m') = S k
           /\ s32 (recv_code (SlNetSock_recvFrom net k)) = payloadLen c)
  /\ (rc = SNTPEX_SUCCESS \/ rc = SNTPEX_ERR_TIMEOUT \/ rc = SNTPEX_ERR_RX
      \/ rc = SNTPEX_ERR_INVALID_MESSAGE).
Proof.
  intros H. cbv zeta. unfold sFct_sntp_ReceiveResponse in H.
  destruct (sock (client m)) as [s|] eqn:Es; [|discriminate].
  unfold Env.os_tick, prv_utility_register_event in H.
  match type of H with context [recv_poll net fuel ?st ?m2] =>
    destruct (recv_poll net fuel st m2) as [[rc3 m3]|] eqn:Ep;
      [|discriminate];
    apply recv_poll_frame in Ep;
    destruct Ep as (P1 & P2 & P3 & P4 & k & P5 & P6)
  end.
  unfold_setters. unfold same_but_payload in P1.
  remember (payload (client m3)) as p3 eqn:Ep3. clear Ep3.
  unfold_setters.
  split; [discriminate|].
  destruct (SLNETERR_BSD_EAGAIN =? rc3);
    [|destruct (rc3 <? 0);
      [|destruct (negb (rc3 =? payloadLen (client m3))) eqn:El;
        [|destruct (timestamp (xsntpAsynchEvent m3) =? 0) eqn:Et]]];
    inversion H; subst; unfold prv_utility_unregister_event; unfold_setters;
    rewrite ?P2, ?P3, ?P4; rewrite P1 in *; unfold_setters;
    (split; [eexists; reflexivity|]);
    repeat split; auto; try discriminate.
  - apply Z.eqb_neq in Et. exact Et.
  - exists k. split; [exact P5|].
    apply negb_false_iff, Z.eqb_eq in El. exact El.
Qed.

Lemma HandlingResponse_spec m rc m' :
  sFct_sntp_HandlingResponse m = (rc, m') ->
  let c := client m in
  world m' = world m
  /\ xsntpAsynchEvent m' = xsntpAsynchEvent m
  /\ (rc = SNTPEX_ERR_INVALID_MESSAGE /\ m' = m
      \/ rc = SNTPEX_ERR_REQUEST_REJECTED
         /\ Wire.stratum (payload c) = 0
         /\ ts m' = ts m
         /\ client m' = set_kissCode c
                          (exlibSLNETUTIL_NTOHL (Wire.referenceId (payload c)))
      \/ rc = SNTPEX_SUCCESS
         /\ Wire.stratum (payload c) <> 0
         /\ ts m' = export_timestamps (payload c) (ts m)
         /\ client m' = set_state (set_kissCode c 0)
                                  UD_SNTP_CLIENT_STATE_COMPLETE).
Proof.
  intros H. cbv zeta. unfold sFct_sntp_HandlingResponse in H.
  repeat match type of H with
         | context [if ?b then (SNTPEX_ERR_INVALID_MESSAGE, m) else _] =>
             destruct b;
             [inversion H; subst; repeat split; left; split; reflexivity|]
         end.
  destruct (Wire.stratum (payload (client m)) =? 0) eqn:Est;
    inversion H; subst; destruct m as [c x e pg w]; destruct c;
    unfold_setters; repeat split; right; [left|right];
    repeat split; try reflexivity.
  - apply Z.eqb_eq in Est. exact Est.
  - apply Z.eqb_neq in Est. exact Est.
Qed.

End Handlers.

(* ================================================================== *)
(** * One entry of the table, and the loop *)
(* ================================================================== *)

Section Run.

Variable net : Transport.

(** What the execution of the entry [s] of [sntp_sapi] does and does
    not do, whatever the state of the handle. *)
Lemma execFuntion_spec s fuel m rc m' :
  execFuntion net s fuel m = Some (rc, m') ->
  let c := client m in
  let c' := client m' in
  trace (world m') = trace (world m) ++ [(s, rc)]
  /\ state c' = (if is_success rc then next_state s else state c)
  /\ (sock c' = None <-> sock c = None)
  /\ originateTimestamp (ts m') = originateTimestamp (ts m)
  /\ (s <> UD_SNTP_CLIENT_STATE_HANDLING_RSP -> kissCode c' = kissCode c)
  /\ (s <> UD_SNTP_CLIENT_STATE_HANDLING_RSP \/ rc <> SNTPEX_SUCCESS ->
      decoded_fields (ts m') = decoded_fields (ts m))
  /\ (s = UD_SNTP_CLIENT_STATE_HANDLING_RSP -> rc = SNTPEX_SUCCESS ->
      ts m' = export_timestamps (payload c') (ts m) /\ kissCode c' = 0)
  /\ payloadLen c' = (match s with
                      | UD_SNTP_CLIENT_STATE_SENDING => Wire.sizeof_x_sntp_request
                      | _ => payloadLen c
                      end)
  /\ (s <> UD_SNTP_CLIENT_STATE_OPEN -> s <> UD_SNTP_CLIENT_STATE_CLOSE ->
      sock c' = sock c /\ closed (world m') = closed (world m))
  /\ (s = UD_SNTP_CLIENT_STATE_OPEN \/ s = UD_SNTP_CLIENT_STATE_CLOSE ->
      closed (world m') = closed (world m) ++ pending_close (sock c))
  /\ (s = UD_SNTP_CLIENT_STATE_CLOSE -> sock c <> None ->
      rc = SNTPEX_SUCCESS /\ exists sk, sock c' = Some sk /\ fd sk = -1)
  /\ (s = UD_SNTP_CLIENT_STATE_OPEN -> rc = SNTPEX_SUCCESS ->
      exists sk, sock c' = Some sk /\ 0 <= fd sk)
  /\ (s = UD_SNTP_CLIENT_STATE_RECEIVING -> rc = SNTPEX_SUCCESS ->
      exists k, n_recv (world m') = S k
        /\ s32 (recv_code (SlNetSock_recvFrom net k)) = payloadLen c)
  /\ (s = UD_SNTP_CLIENT_STATE_HANDLING_RSP ->
      n_recv (world m') = n_recv (world m) /\ payload c' = payload c)
  /\ (rc = SNTPEX_ERR_REQUEST_REJECTED \/ kissCode c' = kissCode c
      \/ s = UD_SNTP_CLIENT_STATE_HANDLING_RSP
         /\ rc = SNTPEX_SUCCESS /\ kissCode c' = 0)
  /\ (s = UD_SNTP_CLIENT_STATE_CLOSE ->
      xsntpAsynchEvent m' = xsntpAsynchEvent m).
Proof.
  unfold execFuntion. intros H. cbv zeta.
  destruct s; cbn [sntp_sapi] in H; try discriminate.
  - (* Open *)
    destruct (sFct_sntp_OpenConnection net m) as [r m1] eqn:E.
    inversion H; subst; clear H.
    apply OpenConnection_spec in E. cbv zeta in E.
    destruct E as (T & Ev & Tr & _ & so & Hc & Hso & Hcl & Hok).
    unfold_setters. rewrite Hc, T, Tr, Hcl. unfold_setters.
    repeat split; try tauto; try congruence; try apply Hso;
      try discriminate.
    all: try (intros _ Hr; destruct (Hok Hr) as (sk & -> & Hfd);
              exists sk; split; [reflexivity|exact Hfd]).
  - (* Sending *)
    destruct (sFct_sntp_SendRequest net fuel m) as [[r m1]|] eqn:E;
      [|discriminate].
    inversion H; subst; clear H.
    apply SendRequest_spec in E. cbv zeta in E.
    destruct E as (Hs & (p' & tick & Hc) & D & _ & Tr & Cl & _ & _).
    unfold_setters. rewrite Hc, Tr, Cl. unfold_setters.
    assert (Ho : originateTimestamp (ts m1) = originateTimestamp (ts m))
      by (unfold decoded_fields in D; congruence).
    repeat split; try tauto; try congruence; try discriminate;
      try (intros [Hx|Hx]; discriminate).
  - (* Receiving *)
    destruct (sFct_sntp_ReceiveResponse net fuel m) as [[r m1]|] eqn:E;
      [|discriminate].
    inversion H; subst; clear H.
    apply ReceiveResponse_spec in E. cbv zeta in E.
    destruct E as (Hs & (p' & Hc) & D & _ & Tr & Cl & Hk & _).
    unfold_setters. rewrite Hc, Tr, Cl. unfold_setters.
    assert (Ho : originateTimestamp (ts m1) = originateTimestamp (ts m))
      by (unfold decoded_fields in D; congruence).
    repeat split; try tauto; try congruence; try discriminate;
      try (intros [Hx|Hx]; discriminate).
  - (* HandlingResponse *)
    destruct (sFct_sntp_HandlingResponse m) as [r m1] eqn:E.
    inversion H; subst; clear H.
    apply HandlingResponse_spec in E. cbv zeta in E.
    destruct E as (W & _ & [(Hr & Hm)|[(Hr & _ & T & Hc)|(Hr & _ & T & Hc)]]);
      subst; unfold_setters; rewrite ?W, ?T, ?Hc; unfold_setters;
      repeat split; try tauto; try congruence; try discriminate;
      try (intros [Hx|Hx]; congruence).
  - (* Close *)
    destruct (sFct_sntp_CloseConnection m) as [r m1] eqn:E.
    inversion H; subst; clear H.
    apply CloseConnection_spec in E. cbv zeta in E.
    destruct E as (T & Ev & Tr & _ & Hsock).
    destruct (sock (client m)) as [sk|] eqn:Es.
    + destruct Hsock as (-> & Hc & Hcl).
      unfold_setters. rewrite Hc, T, Tr, Hcl. unfold_setters.
      repeat split; try tauto; try congruence; try discriminate.
      all: try (eexists; split; reflexivity).
    + destruct Hsock as (-> & ->).
      unfold_setters. rewrite Es. unfold pending_close. rewrite app_nil_r.
      repeat split; try tauto; try congruence; try discriminate.
Qed.

(** The rule of the loop: an invariant [P] kept by every successful
    handler gives [Q] at the exit. *)
Lemma run_fsm_rule (P : Memory -> Prop) (Q : sntp_ud_t -> Memory -> Prop) :
  (forall m, P m -> state (client m) = UD_SNTP_CLIENT_STATE_COMPLETE ->
             Q SNTPEX_SUCCESS m) ->
  (forall fuel m rc m',
      P m -> state (client m) <> UD_SNTP_CLIENT_STATE_COMPLETE ->
      execFuntion net (state (client m)) fuel m = Some (rc, m') ->
      if is_success rc then P m' else Q rc m') ->
  forall fuel m rc m',
    P m -> run_fsm net fuel m = Some (rc, m') -> Q rc m'.
Proof.
  intros Hexit Hstep.
  induction fuel as [|fuel IH]; intros m rc m' HP H; [discriminate|].
  cbn [run_fsm] in H.
  destruct (is_complete (state (client m))) eqn:Ec.
  - inversion H; subst. apply Hexit; [exact HP|].
    destruct (state (client m')); try discriminate; reflexivity.
  - destruct (execFuntion net (state (client m)) fuel m) as [[r m1]|] eqn:E;
      [|discriminate].
    assert (Hn : state (client m) <> UD_SNTP_CLIENT_STATE_COMPLETE)
      by (intros X; rewrite X in Ec; discriminate).
    pose proof (Hstep fuel m r m1 HP Hn E) as S1.
    destruct (is_success r).
    + eapply IH; eauto.
    + inversion H; subst. exact S1.
Qed.

(** More fuel never changes a result. *)
Lemma send_poll_mono fuel : forall start m r,
  send_poll net fuel start m = Some r ->
  send_poll net (S fuel) start m = Some r.
Proof.
  induction fuel as [|fuel IH]; intros start m r H; [discriminate|].
  cbn [send_poll] in H. change (send_poll net (S (S fuel)) start m) with
    (let '(rc, m1) := net_sendTo net m in
     if rc =? SLNETERR_BSD_EAGAIN then
       let '(now, m2) := Env.os_tick (vtable_api (client m1)) m1 in
       if u32 (now - start) <? timeout (client m2)
       then send_poll net (S fuel) start m2
       else Some (rc, m2)
     else Some (rc, m1)).
  destruct (net_sendTo net m) as [rc m1].
  destruct (rc =? SLNETERR_BSD_EAGAIN); [|exact H].
  destruct (Env.os_tick (vtable_api (client m1)) m1) as [now m2].
  destruct (u32 (now - start) <? timeout (client m2)); [|exact H].
  apply IH. exact H.
Qed.

Lemma recv_poll_mono fuel : forall start m r,
  recv_poll net fuel start m = Some r ->
  recv_poll net (S fuel) start m = Some r.
Proof.
  induction fuel as [|fuel IH]; intros start m r H; [discriminate|].
  cbn [recv_poll] in H. change (recv_poll net (S (S fuel)) start m) with
    (let '(rc, m1) := net_recvFrom net m in
     if rc =? SLNETERR_BSD_EAGAIN then
       let '(now, m2) := Env.os_tick (vtable_api (client m1)) m1 in
       if u32 (now - start) <? timeout (client m2)
       then recv_poll net (S fuel) start m2
       else Some (rc, m2)
     else Some (rc, m1)).
  destruct (net_recvFrom net m) as [rc m1].
  destruct (rc =? SLNETERR_BSD_EAGAIN); [|exact H].
  destruct (Env.os_tick (vtable_api (client m1)) m1) as [now m2].
  destruct (u32 (now - start) <? timeout (client m2)); [|exact H].
  apply IH. exact H.
Qed.

Lemma execFuntion_mono s fuel m r :
  execFuntion net s fuel m = Some r -> execFuntion net s (S fuel) m = Some r.
Proof.
  unfold execFuntion.
  destruct s; cbn [sntp_sapi]; try (intros H; exact H).
  - unfold sFct_sntp_SendRequest.
    destruct (sock (client m)); [|intros H; exact H].
    destruct (prv_utility_build_request m) as [r1 m1].
    destruct (Env.unix_timestamp (vtable_api (client m1)) m1) as [t1 m2].
    match goal with |- context [Env.os_tick ?v ?x] =>
      destruct (Env.os_tick v x) as [st m4] end.
    destruct (send_poll net fuel st m4) as [[rc m5]|] eqn:E;
      [|discriminate].
    rewrite (send_poll_mono _ _ _ _ E). intros H; exact H.
  - unfold sFct_sntp_ReceiveResponse.
    destruct (sock (client m)); [|intros H; exact H].
    match goal with |- context [Env.os_tick ?v ?x] =>
      destruct (Env.os_tick v x) as [st m2] end.
    destruct (recv_poll net fuel st m2) as [[rc m3]|] eqn:E;
      [|discriminate].
    rewrite (recv_poll_mono _ _ _ _ E). intros H; exact H.
Qed.

Lemma run_fsm_mono fuel : forall m r,
  run_fsm net fuel m = Some r -> run_fsm net (S fuel) m = Some r.
Proof.
  induction fuel as [|fuel IH]; intros m r H; [discriminate|].
  cbn [run_fsm] in H.
  change (run_fsm net (S (S fuel)) m) with
    (if is_complete (state (client m)) then Some (SNTPEX_SUCCESS, m)
     else
       match execFuntion net (state (client m)) (S fuel) m with
       | None => None
       | Some (rc, m') =>
           if is_success rc then run_fsm net (S fuel) m' else Some (rc, m')
       end).
  destruct (is_complete (state (client m))); [exact H|].
  destruct (execFuntion net (state (client m)) fuel m) as [[rc m1]|] eqn:E;
    [|discriminate].
  rewrite (execFuntion_mono _ _ _ _ E).
  destruct (is_success rc); [apply IH|]; exact H.
Qed.

(** The result of [sntpex_client_timestamp_get] does not depend on the
    fuel, once there is enough of it. *)
Lemma timestamp_get_mono fuel p x m r :
  sntpex_client_timestamp_get net fuel p x m = Some r ->
  sntpex_client_timestamp_get net (S fuel) p x m = Some r.
Proof.
  unfold sntpex_client_timestamp_get.
  destruct p, x; try (intros H; exact H).
  destruct (Env.os_tick (vtable_api (client m)) m) as [tick m1].
  match goal with |- context [run_fsm net fuel ?x] =>
    destruct (run_fsm net fuel x) as [[rc m3]|] eqn:E end; [|discriminate].
  rewrite (run_fsm_mono _ _ _ E).
  destruct (is_success rc); [intros H; exact H|].
  match goal with |- context [execFuntion net ?s fuel ?x] =>
    destruct (execFuntion net s fuel x) as [[rc5 m5]|] eqn:E5 end;
    [|discriminate].
  rewrite (execFuntion_mono _ _ _ _ E5). intros H; exact H.
Qed.

(** The shape of a call with both pointers valid. *)
Lemma timestamp_get_inv fuel m rc m' :
  sntpex_client_timestamp_get net fuel ADDR ADDR m = Some (rc, m') ->
  exists m2 m3,
    client m2 = set_startTime (client m) (startTime (client m2))
    /\ ts m2 = ts m
    /\ trace (world m2) = trace (world m)
    /\ closed (world m2) = closed (world m)
    /\ n_recv (world m2) = n_recv (world m)
    /\ run_fsm net fuel m2 = Some (rc, m3)
    /\ if is_success rc
       then m' = set_client m3 (set_state (client m3)
                                          UD_SNTP_CLIENT_STATE_SENDING)
       else exists rc5,
           execFuntion net UD_SNTP_CLIENT_STATE_CLOSE fuel
             (prv_utility_unregister_event exlibSNTP_SOFTSR_RECV_BIT m3)
           = Some (rc5, m').
Proof.
  unfold sntpex_client_timestamp_get. unfold Env.os_tick.
  intros H.
  match type of H with context [run_fsm net fuel ?x] =>
    exists x; destruct (run_fsm net fuel x) as [[r m3]|] eqn:E end;
    [|discriminate].
  exists m3.
  assert (Hr : r = rc).
  { destruct (is_success r).
    - inversion H; reflexivity.
    - match type of H with context [execFuntion net ?s fuel ?x] =>
        destruct (execFuntion net s fuel x) as [[rc5 m5]|] end;
        [inversion H; reflexivity|discriminate]. }
  subst r.
  do 5 (split; [destruct m as [c x e pg w]; destruct c; reflexivity|]).
  split; [reflexivity|].
  destruct (is_success rc).
  - inversion H; reflexivity.
  - match type of H with context [execFuntion net ?s fuel ?x] =>
      destruct (execFuntion net s fuel x) as [[rc5 m5]|] eqn:E5 end;
      [|discriminate].
    inversion H; subst. exists rc5. reflexivity.
Qed.

(** Termination: when the transport never reports would-block, each
    polling loop ends after one round, so every entry of the table
    returns, and the loop returns after at most one handler per state. *)
Lemma execFuntion_returns s fuel m :
  never_blocks net ->
  sock (client m) <> None ->
  s <> UD_SNTP_CLIENT_STATE_COMPLETE ->
  exists r, execFuntion net s (S fuel) m = Some r.
Proof.
  intros Hnb Hs Hc. unfold execFuntion.
  destruct s; cbn [sntp_sapi]; try congruence.
  - destruct (sFct_sntp_OpenConnection net m) as [rc m1]. eexists; reflexivity.
  - unfold sFct_sntp_SendRequest.
    destruct (sock (client m)); [|congruence].
    destruct (prv_utility_build_request m) as [r1 m1].
    destruct (Env.unix_timestamp (vtable_api (client m1)) m1) as [t1 m2].
    match goal with |- context [Env.os_tick ?v ?x] =>
      destruct (Env.os_tick v x) as [st m4] end.
    cbn [send_poll].
    pose proof (proj1 (Hnb (n_send (world m4)))) as Hne.
    unfold net_sendTo.
    apply Z.eqb_neq in Hne. rewrite Hne.
    match goal with
    | |- context [if ?b then _ else _] => destruct b
    end; [eexists; reflexivity|].
    match goal with
    | |- context [if ?b then _ else _] => destruct b
    end; eexists; reflexivity.
  - unfold sFct_sntp_ReceiveResponse.
    destruct (sock (client m)); [|congruence].
    match goal with |- context [Env.os_tick ?v ?x] =>
      destruct (Env.os_tick v x) as [st m2] end.
    cbn [recv_poll].
    pose proof (proj2 (Hnb (n_recv (world m2)))) as Hne.
    unfold net_recvFrom.
    apply Z.eqb_neq in Hne. rewrite Hne.
    repeat match goal with
           | |- context [if ?b then Some _ else _] => destruct b
           end; eexists; reflexivity.
  - destruct (sFct_sntp_HandlingResponse m) as [rc m1]. eexists; reflexivity.
  - destruct (sFct_sntp_CloseConnection m) as [rc m1]. eexists; reflexivity.
Qed.

Lemma run_fsm_returns fuel : forall m,
  never_blocks net ->
  sock (client m) <> None ->
  (rank (state (client m)) < fuel)%nat ->
  exists r, run_fsm net fuel m = Some r.
Proof.
  induction fuel as [|fuel IH]; intros m Hnb Hs Hr; [lia|].
  cbn [run_fsm].
  destruct (is_complete (state (client m))) eqn:Ec; [eexists; reflexivity|].
  assert (Hn : state (client m) <> UD_SNTP_CLIENT_STATE_COMPLETE)
    by (intros X; rewrite X in Ec; discriminate).
  destruct fuel as [|fuel];
    [destruct (state (client m)); cbn in Hr; try lia; congruence|].
  destruct (execFuntion_returns (state (client m)) fuel m Hnb Hs Hn)
    as ([rc m1] & E).
  rewrite E.
  destruct (is_success rc) eqn:Er; [|eexists; reflexivity].
  pose proof (execFuntion_spec _ _ _ _ _ E) as S1. cbv zeta in S1.
  destruct S1 as (_ & St & Hk & _). rewrite Er in St.
  apply IH; [exact Hnb|tauto|].
  rewrite St. destruct (state (client m)); cbn in *; try lia; congruence.
Qed.

(** With such a transport a call on a handle with a socket returns,
    given fuel for the seven steps it can take. *)
Lemma timestamp_get_returns fuel p x m :
  never_blocks net ->
  sock (client m) <> None ->
  exists r, sntpex_client_timestamp_get net (7 + fuel) p x m = Some r.
Proof.
  intros Hnb Hs. unfold sntpex_client_timestamp_get.
  destruct p, x; try (eexists; reflexivity).
  destruct (Env.os_tick (vtable_api (client m)) m) as [tick m1] eqn:Et.
  assert (Hc1 : client m1 = client m)
    by (unfold Env.os_tick in Et; inversion Et; destruct m; reflexivity).
  set (m2 := set_client m1 (set_startTime (client m1) tick)).
  assert (Hs2 : sock (client m2) <> None)
    by (subst m2; cbn [set_client client set_startTime sock]; congruence).
  destruct (run_fsm_returns (7 + fuel) m2 Hnb Hs2) as ([rc m3] & E).
  { destruct (state (client m2)); cbn; lia. }
  rewrite E.
  destruct (is_success rc); [eexists; reflexivity|].
  pose proof (run_fsm_rule (fun m1 => sock (client m1) <> None)
                (fun _ m1 => sock (client m1) <> None)) as R.
  assert (Hs3 : sock (client m3) <> None).
  { refine (R (fun _ H _ => H) _ _ _ _ _ Hs2 E).
    intros f ma r mb HP _ Ex. apply execFuntion_spec in Ex. cbv zeta in Ex.
    destruct Ex as (_ & _ & Hk & _). destruct (is_success r); tauto. }
  change (7 + fuel)%nat with (S (6 + fuel)).
  destruct (execFuntion_returns UD_SNTP_CLIENT_STATE_CLOSE (6 + fuel)
              (prv_utility_unregister_event exlibSNTP_SOFTSR_RECV_BIT m3)
              Hnb Hs3) as ([rc5 m5] & E5); [discriminate|].
  rewrite E5. eexists; reflexivity.
Qed.

End Run.

(* ================================================================== *)
(** * Response validation *)
(* ================================================================== *)

(** The originate check of [sFct_sntp_HandlingResponse], for any handle:
    a reply gets past it exactly when the seconds are zero and the
    normalised fraction is the stored nonce. *)
Lemma HandlingResponse_originate (m : Memory) :
  let c := client m in
  let p := payload c in
  let r := fst (sFct_sntp_HandlingResponse m) in
  (r = SNTPEX_SUCCESS \/ r = SNTPEX_ERR_REQUEST_REJECTED ->
   Wire.seconds p Wire.off_originateTimestamp = 0
   /\ exlibSLNETUTIL_NTOHL (Wire.fraction p Wire.off_originateTimestamp)
      = u32 (expected_orig_ts c))
  /\ (Wire.seconds p Wire.off_originateTimestamp <> 0
      \/ exlibSLNETUTIL_NTOHL (Wire.fraction p Wire.off_originateTimestamp)
         <> u32 (expected_orig_ts c) ->
      r = SNTPEX_ERR_INVALID_MESSAGE).
Proof.
  cbv zeta. unfold sFct_sntp_HandlingResponse.
  set (chk := negb (Wire.seconds (payload (client m)) Wire.off_originateTimestamp =? 0)
              || negb (Wire.fraction (payload (client m)) Wire.off_originateTimestamp
                       =? exlibSLNETUTIL_NTOHL (expected_orig_ts (client m)))).
  assert (Hchk : chk = false <->
                 Wire.seconds (payload (client m)) Wire.off_originateTimestamp = 0
                 /\ exlibSLNETUTIL_NTOHL
                      (Wire.fraction (payload (client m)) Wire.off_originateTimestamp)
                    = u32 (expected_orig_ts (client m))).
  { subst chk. rewrite orb_false_iff, !negb_false_iff, !Z.eqb_eq.
    unfold Wire.fraction, exlibSLNETUTIL_NTOHL.
    rewrite raw_eq_ntohl_iff, ntohl_load32. reflexivity. }
  repeat match goal with
         | |- context [if ?b then (SNTPEX_ERR_INVALID_MESSAGE, m) else _] =>
             lazymatch b with
             | chk => fail
             | _ => destruct b;
                    [cbn [fst]; split;
                     [intros [X|X]; discriminate X|intros _; reflexivity]|]
             end
         end.
  destruct chk.
  - cbn [fst]. split; [intros [X|X]; discriminate X|intros _; reflexivity].
  - destruct (proj1 Hchk eq_refl) as (Hs & Hf).
    split; [intros _; split; assumption|].
    intros [X|X]; contradiction.
Qed.

(** C6: the request encoder stores the tick it reads as the nonce and
    places it, big-endian, in the fraction of the transmit timestamp with
    the seconds left zero; whatever reply is then in the buffer, response
    handling goes past the originate check only when the originate seconds
    are zero and the originate fraction, normalised, is that nonce, and a
    mismatch in either half gives [SNTPEX_ERR_INVALID_MESSAGE]. *)
Theorem originate_nonce_check (m : Memory) (reply : buffer) :
  (Z.to_nat Wire.sizeof_x_sntp_request <= length (payload (client m)))%nat ->
  let m1 := snd (prv_utility_build_request m) in
  let request := payload (client m1) in
  let nonce := expected_orig_ts (client m1) in
  let m2 := set_client m1 (set_payload (client m1) reply) in
  let r := fst (sFct_sntp_HandlingResponse m2) in
  let orig_seconds := Wire.seconds reply Wire.off_originateTimestamp in
  let orig_fraction :=
    exlibSLNETUTIL_NTOHL (Wire.fraction reply Wire.off_originateTimestamp) in
  nonce = u32 (get_os_tick (vtable_api (client m)) (n_tick (world m)))
  /\ Wire.seconds request Wire.off_transmitTimestamp = 0
  /\ exlibSLNETUTIL_NTOHL (Wire.fraction request Wire.off_transmitTimestamp)
     = nonce
  /\ (r = SNTPEX_SUCCESS \/ r = SNTPEX_ERR_REQUEST_REJECTED ->
      orig_seconds = 0 /\ orig_fraction = nonce)
  /\ (orig_seconds <> 0 \/ orig_fraction <> nonce ->
      r = SNTPEX_ERR_INVALID_MESSAGE).
Proof.
  intros Hlen m1 request nonce m2 r orig_seconds orig_fraction.
  destruct (build_request_nonce m Hlen) as (Hn & Hsec & Hfrac).
  fold m1 in Hn, Hsec, Hfrac. fold request in Hsec, Hfrac. fold nonce in Hn, Hfrac.
  assert (Hu : u32 nonce = nonce).
  { rewrite Hn. unfold u32. apply Z.mod_mod. discriminate. }
  pose proof (HandlingResponse_originate m2) as (Hacc & Hrej).
  assert (Hp : payload (client m2) = reply) by reflexivity.
  assert (He : expected_orig_ts (client m2) = nonce) by reflexivity.
  rewrite Hp, He, Hu in Hacc, Hrej.
  split; [exact Hn|]. split; [exact Hsec|]. split.
  - unfold exlibSLNETUTIL_NTOHL, Wire.fraction. rewrite ntohl_load32. exact Hfrac.
  - split; [exact Hacc|exact Hrej].
Qed.

(** A reply that echoes the nonce 1000 passes; the same reply is refused
    once the handle expects another nonce. *)
Lemma originate_nonce_check_witness :
  let m := Scenario.m0 in
  let reply := Scenario.reply 2 1000 [71; 80; 83; 0] in
  let m1 := snd (prv_utility_build_request m) in
  (Z.to_nat Wire.sizeof_x_sntp_request <= length (payload (client m)))%nat
  /\ expected_orig_ts (client m1) = 1000
  /\ exlibSLNETUTIL_NTOHL
       (Wire.fraction (payload (client m1)) Wire.off_transmitTimestamp) = 1000
  /\ exlibSLNETUTIL_NTOHL (Wire.fraction reply Wire.off_originateTimestamp) = 1000
  /\ fst (sFct_sntp_HandlingResponse
            (set_client m1 (set_payload (client m1) reply))) = SNTPEX_SUCCESS.
Proof.
  cbv zeta.
  assert (Hlen : (Z.to_nat Wire.sizeof_x_sntp_request
                  <= length (payload (client Scenario.m0)))%nat)
    by (apply Nat.leb_le; vm_compute; reflexivity).
  pose proof (originate_nonce_check Scenario.m0
                (Scenario.reply 2 1000 [71; 80; 83; 0]) Hlen) as H.
  cbv zeta in H. destruct H as (Hn & _ & Hreq & _ & _).
  split; [exact Hlen|].
  split; [rewrite Hn; vm_compute; reflexivity|].
  split; [rewrite Hreq, Hn; vm_compute; reflexivity|].
  split; vm_compute; reflexivity.
Defined.

(** What [sFct_sntp_HandlingResponse] does to the Kiss code, by result. *)
Lemma HandlingResponse_kissCode (m : Memory) :
  let c := client m in
  let r := sFct_sntp_HandlingResponse m in
  (fst r = SNTPEX_ERR_INVALID_MESSAGE /\ kissCode (client (snd r)) = kissCode c)
  \/ (fst r = SNTPEX_ERR_REQUEST_REJECTED
      /\ Wire.stratum (payload c) = 0
      /\ kissCode (client (snd r)) = be32 (payload c) Wire.off_referenceId)
  \/ (fst r = SNTPEX_SUCCESS
      /\ Wire.stratum (payload c) <> 0
      /\ kissCode (client (snd r)) = 0).
Proof.
  cbv zeta.
  destruct (sFct_sntp_HandlingResponse m) as [rc m'] eqn:E.
  apply HandlingResponse_spec in E. cbv zeta in E. cbn [fst snd].
  destruct E as (_ & _ & [(Hr & Hm)|[(Hr & Hs & _ & Hc)|(Hr & Hs & _ & Hc)]]).
  - left. subst. split; reflexivity.
  - right; left. rewrite Hc. cbn [set_kissCode kissCode].
    unfold exlibSLNETUTIL_NTOHL, Wire.referenceId. rewrite ntohl_load32.
    repeat split; assumption.
  - right; right. rewrite Hc. repeat split; assumption.
Qed.

Lemma CloseConnection_kissCode (m : Memory) :
  kissCode (client (snd (sFct_sntp_CloseConnection m))) = kissCode (client m).
Proof.
  destruct (sFct_sntp_CloseConnection m) as [rc m'] eqn:E.
  apply CloseConnection_spec in E. cbv zeta in E. cbn [snd].
  destruct E as (_ & _ & _ & _ & H).
  destruct (sock (client m)).
  - destruct H as (_ & Hc & _). rewrite Hc. reflexivity.
  - destruct H as (_ & ->). reflexivity.
Qed.

(** C5: a reply that passes the length, version, transmit timestamp, mode
    and originate checks and has stratum 0 makes response handling store
    the reference identifier, read big-endian, as the Kiss code and return
    [SNTPEX_ERR_REQUEST_REJECTED] with the timestamp record unchanged; the
    bytes of RATE give 0x52415445; [sntpex_client_Kiss_code_get] returns the
    stored code, also after the closing of the error path, and 0 for a NULL
    handle. *)
Theorem kiss_of_death_reply (m : Memory) :
  let c := client m in
  let p := payload c in
  Wire.sizeof_x_sntp_request <= payloadLen c ->
  Wire.vn p <> 0 ->
  Wire.val p Wire.off_transmitTimestamp <> 0 ->
  Wire.mode p = specNTP_MODE_SERVER \/ Wire.mode p = specNTP_MODE_BROADCAST ->
  Wire.seconds p Wire.off_originateTimestamp = 0 ->
  exlibSLNETUTIL_NTOHL (Wire.fraction p Wire.off_originateTimestamp)
  = u32 (expected_orig_ts c) ->
  Wire.stratum p = 0 ->
  let r := sFct_sntp_HandlingResponse m in
  let code := be32 p Wire.off_referenceId in
  let closed_m :=
    snd (sFct_sntp_CloseConnection
           (prv_utility_unregister_event exlibSNTP_SOFTSR_RECV_BIT (snd r))) in
  fst r = SNTPEX_ERR_REQUEST_REJECTED
  /\ kissCode (client (snd r)) = code
  /\ ts (snd r) = ts m
  /\ sntpex_client_Kiss_code_get ADDR (snd r) = code
  /\ sntpex_client_Kiss_code_get ADDR closed_m = code
  /\ sntpex_client_Kiss_code_get NULL (snd r) = 0
  /\ (byte_at p 12 = 0x52 -> byte_at p 13 = 0x41 ->
      byte_at p 14 = 0x54 -> byte_at p 15 = 0x45 -> code = 0x52415445).
Proof.
  intros c p Hlen Hvn Htx Hmode Hsec Hfrac Hstr r code closed_m.
  assert (Hr : r = (SNTPEX_ERR_REQUEST_REJECTED,
                    set_client (set_client m (set_kissCode c 0))
                      (set_kissCode (client (set_client m (set_kissCode c 0)))
                         (exlibSLNETUTIL_NTOHL (Wire.referenceId p))))).
  { subst r. unfold sFct_sntp_HandlingResponse. fold c. fold p.
    replace (payloadLen c <? Wire.sizeof_x_sntp_request) with false
      by (symmetry; apply Z.ltb_ge; exact Hlen).
    replace (Wire.vn p =? 0) with false
      by (symmetry; apply Z.eqb_neq; exact Hvn).
    replace (Wire.val p Wire.off_transmitTimestamp =? 0) with false
      by (symmetry; apply Z.eqb_neq; exact Htx).
    replace (negb (Wire.mode p =? specNTP_MODE_SERVER)
             && negb (Wire.mode p =? specNTP_MODE_BROADCAST)) with false
      by (destruct Hmode as [-> | ->]; reflexivity).
    replace (negb (Wire.seconds p Wire.off_originateTimestamp =? 0)
             || negb (Wire.fraction p Wire.off_originateTimestamp
                      =? exlibSLNETUTIL_NTOHL (expected_orig_ts c)))
      with false.
    2:{ symmetry. rewrite orb_false_iff, !negb_false_iff, !Z.eqb_eq.
        split; [exact Hsec|].
        unfold Wire.fraction, exlibSLNETUTIL_NTOHL in *.
        apply raw_eq_ntohl_iff. rewrite <- ntohl_load32. exact Hfrac. }
    replace (Wire.stratum p =? 0) with true
      by (symmetry; apply Z.eqb_eq; exact Hstr).
    reflexivity. }
  assert (Hk : kissCode (client (snd r)) = code).
  { rewrite Hr. cbn [snd set_client client set_kissCode kissCode].
    unfold exlibSLNETUTIL_NTOHL, Wire.referenceId. apply ntohl_load32. }
  split; [rewrite Hr; reflexivity|].
  split; [exact Hk|].
  split; [rewrite Hr; destruct m; reflexivity|].
  split; [exact Hk|].
  split.
  { subst closed_m. unfold sntpex_client_Kiss_code_get.
    rewrite CloseConnection_kissCode. exact Hk. }
  split; [reflexivity|].
  intros B0 B1 B2 B3. subst code. unfold be32, Wire.off_referenceId.
  change (12 + 1)%nat with 13%nat. change (12 + 2)%nat with 14%nat.
  change (12 + 3)%nat with 15%nat.
  rewrite B0, B1, B2, B3. reflexivity.
Qed.

(** The reply RATE in the buffer of a handle that expects the nonce 1001. *)
Lemma kiss_of_death_reply_witness :
  let r := sFct_sntp_HandlingResponse Scenario.m_kod_reply in
  fst r = SNTPEX_ERR_REQUEST_REJECTED
  /\ sntpex_client_Kiss_code_get ADDR (snd r) = 0x52415445
  /\ ts (snd r) = ts Scenario.m_kod_reply.
Proof.
  pose proof (kiss_of_death_reply Scenario.m_kod_reply) as H.
  cbv zeta in H.
  assert (H' := H ltac:(vm_compute; intro X; discriminate X)
                  ltac:(vm_compute; intro X; discriminate X)
                  ltac:(vm_compute; intro X; discriminate X)
                  ltac:(left; vm_compute; reflexivity)
                  ltac:(vm_compute; reflexivity)
                  ltac:(vm_compute; reflexivity)
                  ltac:(vm_compute; reflexivity)).
  destruct H' as (H1 & _ & H3 & H4 & _ & _ & H7).
  cbv zeta. split; [exact H1|]. split; [|exact H3].
  rewrite H4. apply H7; vm_compute; reflexivity.
Defined.

(* ================================================================== *)
(** * The asynchronous event bridge *)
(* ================================================================== *)

(** With nothing pending, or before the initialisation, the hook returns
    the initialisation fault and changes nothing. *)
Lemma isr_nothing_pending (m : Memory) :
  SR (xsntpAsynchEvent m) = 0 \/ pg_vtable_api m = None ->
  sntpex_eventTriggingFromISR m = (SNTPEX_ERR_FAULT_INIT, m).
Proof.
  unfold sntpex_eventTriggingFromISR. intros [H|H]; rewrite H.
  - destruct (pg_vtable_api m); reflexivity.
  - reflexivity.
Qed.

(** Past the guard, the first test, written with [&&], always holds: the
    receive branch is taken whatever bit is pending, and the send branch
    is never reached. *)
Lemma isr_always_receive_branch (m : Memory) (v : ud_op_vtable) :
  pg_vtable_api m = Some v ->
  SR (xsntpAsynchEvent m) <> 0 ->
  sntpex_eventTriggingFromISR m
  = (SNTPEX_SUCCESS, drain_event v exlibSNTP_SOFTSR_RECV_BIT m).
Proof.
  intros Hpg Hsr. unfold sntpex_eventTriggingFromISR. rewrite Hpg.
  apply Z.eqb_neq in Hsr. rewrite Hsr.
  unfold logical_and. rewrite Hsr. reflexivity.
Qed.

(** With the receive bit alone pending, the hook clears it, stores the
    time of the time source and calls the callback with the receive
    event. *)
Lemma isr_receive_pending :
  let r := sntpex_eventTriggingFromISR Scenario.m_recv_pending in
  fst r = SNTPEX_SUCCESS
  /\ SR (xsntpAsynchEvent (snd r)) = 0
  /\ timestamp (xsntpAsynchEvent (snd r)) = 1704067200000000
  /\ cb_calls (world (snd r)) = [(7%nat, exlibSNTP_SOFTSR_RECV_BIT)].
Proof. vm_compute. repeat split. Qed.

(** C9, on the code: with the send bit alone pending and a callback
    registered, [sntpex_eventTriggingFromISR] returns success with the send
    bit still set in the status register, and the callback has been called
    with the receive event, not the send event. *)
Theorem isr_send_pending_drains_receive :
  let r := sntpex_eventTriggingFromISR Scenario.m_send_pending in
  SR (xsntpAsynchEvent Scenario.m_send_pending) = exlibSNTP_SOFTSR_SEND_BIT
  /\ fst r = SNTPEX_SUCCESS
  /\ SR (xsntpAsynchEvent (snd r)) = exlibSNTP_SOFTSR_SEND_BIT
  /\ timestamp (xsntpAsynchEvent (snd r)) = 1704067200000000
  /\ cb_calls (world (snd r)) = [(7%nat, exlibSNTP_SOFTSR_RECV_BIT)]
  /\ exlibSNTP_SOFTSR_RECV_BIT <> exlibSNTP_SOFTSR_SEND_BIT.
Proof. vm_compute. repeat split. intro X; discriminate X. Qed.

(* ================================================================== *)
(** * The length of the request *)
(* ================================================================== *)

Lemma build_request_payloadLen (m : Memory) :
  payloadLen (client (snd (prv_utility_build_request m)))
  = Wire.sizeof_x_sntp_request.
Proof.
  destruct (build_request_spec m) as (_ & _ & _ & _ & _ & Hc).
  rewrite Hc. reflexivity.
Qed.

(** The claim C4 as it is written fails: the length recorded for the
    request of an initialised handle is 48, not the 68 bytes of the
    buffer. *)
Lemma payloadLen_is_not_buffer_size :
  payloadLen (client (snd (prv_utility_build_request Scenario.m0))) = 48
  /\ exlibSNTP_TIME_MESSAGE_MAX_SIZE = 68
  /\ payloadLen (client (snd (prv_utility_build_request Scenario.m0)))
     <> exlibSNTP_TIME_MESSAGE_MAX_SIZE.
Proof.
  rewrite build_request_payloadLen.
  repeat split. intro X; discriminate X.
Qed.

(* ================================================================== *)
(** * Whole calls *)
(* ================================================================== *)

Lemma is_success_true rc : is_success rc = true -> rc = SNTPEX_SUCCESS.
Proof. destruct rc; intros H; try discriminate H; reflexivity. Qed.

Lemma is_success_false rc : is_success rc = false <-> rc <> SNTPEX_SUCCESS.
Proof.
  destruct rc; cbn; split; intros H; try reflexivity; try discriminate;
    try congruence.
Qed.

Lemma path_from_step s :
  s <> UD_SNTP_CLIENT_STATE_COMPLETE ->
  path_from s = s :: path_from (next_state s).
Proof. destruct s; intros H; try reflexivity. congruence. Qed.

Lemma succeeded_app ss s :
  succeeded (ss ++ [s]) = succeeded ss ++ [(s, SNTPEX_SUCCESS)].
Proof. unfold succeeded. rewrite map_app. reflexivity. Qed.

(** The history of a run that failed in state [s], closed by the driver:
    it follows the edges and runs no handler twice. *)
Lemma error_history_shape ss s rc rc5 s0 :
  ss ++ path_from s = path_from s0 ->
  s <> UD_SNTP_CLIENT_STATE_COMPLETE ->
  is_success rc = false ->
  follows_edges (succeeded ss ++ [(s, rc); (UD_SNTP_CLIENT_STATE_CLOSE, rc5)])
  /\ NoDup (ss ++ [s]).
Proof.
  intros H Hs Hrc.
  destruct s0, s; try congruence; cbn in H; split_prefix H ss;
    cbn; rewrite ?Hrc; (split; [repeat split|]);
    repeat constructor; cbn; intuition discriminate.
Qed.

Lemma success_history_shape s0 : follows_edges (succeeded (path_from s0)).
Proof. destruct s0; cbn; repeat split. Qed.

Section Calls.

Variable net : Transport.

(** The history of the loop: the handlers from the entry state on, all
    successful up to the exit, or up to the one that failed. *)
Lemma run_fsm_history fuel m rc m' :
  run_fsm net fuel m = Some (rc, m') ->
  let s0 := state (client m) in
  if is_success rc
  then trace (world m') = trace (world m) ++ succeeded (path_from s0)
       /\ state (client m') = UD_SNTP_CLIENT_STATE_COMPLETE
  else exists ss,
      trace (world m')
      = trace (world m) ++ succeeded ss ++ [(state (client m'), rc)]
      /\ ss ++ path_from (state (client m')) = path_from s0
      /\ state (client m') <> UD_SNTP_CLIENT_STATE_COMPLETE.
Proof.
  intros H s0.
  pose (P := fun m1 : Memory =>
               exists ss, trace (world m1) = trace (world m) ++ succeeded ss
                          /\ ss ++ path_from (state (client m1)) = path_from s0).
  pose (Q := fun (r : sntp_ud_t) (m1 : Memory) =>
               if is_success r
               then trace (world m1) = trace (world m) ++ succeeded (path_from s0)
                    /\ state (client m1) = UD_SNTP_CLIENT_STATE_COMPLETE
               else exists ss,
                   trace (world m1)
                   = trace (world m) ++ succeeded ss ++ [(state (client m1), r)]
                   /\ ss ++ path_from (state (client m1)) = path_from s0
                   /\ state (client m1) <> UD_SNTP_CLIENT_STATE_COMPLETE).
  apply (run_fsm_rule net P Q) with (fuel := fuel) (m := m); [| |exists []|exact H].
  - intros m1 (ss & Ht & Hp) Hc. unfold Q. cbn [is_success].
    rewrite Hc in Hp. cbn [path_from] in Hp. rewrite app_nil_r in Hp.
    subst ss. split; assumption.
  - intros f m1 r m2 (ss & Ht & Hp) Hn E.
    apply execFuntion_spec in E. cbv zeta in E.
    destruct E as (Tr & St & _).
    destruct (is_success r) eqn:Er.
    + apply is_success_true in Er. subst r.
      exists (ss ++ [state (client m1)]). split.
      * rewrite Tr, Ht, succeeded_app, <- app_assoc. reflexivity.
      * rewrite St, <- app_assoc. cbn [app].
        rewrite <- path_from_step by exact Hn. exact Hp.
    + unfold Q. rewrite Er. exists ss. rewrite St.
      repeat split; try assumption.
      rewrite Tr, Ht, <- app_assoc. reflexivity.
  - split; [cbn; rewrite app_nil_r; reflexivity|reflexivity].
Qed.

Lemma run_fsm_sock_attached fuel m rc m' :
  run_fsm net fuel m = Some (rc, m') ->
  sock (client m) <> None -> sock (client m') <> None.
Proof.
  intros H H0.
  apply (run_fsm_rule net (fun m1 => sock (client m1) <> None)
           (fun _ m1 => sock (client m1) <> None)) with (4 := H);
    [tauto| |exact H0].
  intros f m1 r m2 HP _ E. apply execFuntion_spec in E. cbv zeta in E.
  destruct E as (_ & _ & Hs & _). destruct (is_success r); tauto.
Qed.

(** Past [Open] the socket and the list of closed descriptors stay as
    they are, up to the exit of the loop. *)
Lemma run_fsm_socket_kept fuel m rc m' :
  run_fsm net fuel m = Some (rc, m') ->
  state (client m) <> UD_SNTP_CLIENT_STATE_OPEN ->
  state (client m) <> UD_SNTP_CLIENT_STATE_CLOSE ->
  sock (client m') = sock (client m)
  /\ closed (world m') = closed (world m).
Proof.
  intros H Ho Hc.
  pose (P := fun m1 : Memory =>
               state (client m1) <> UD_SNTP_CLIENT_STATE_OPEN
               /\ state (client m1) <> UD_SNTP_CLIENT_STATE_CLOSE
               /\ sock (client m1) = sock (client m)
               /\ closed (world m1) = closed (world m)).
  apply (run_fsm_rule net P
           (fun _ m1 => sock (client m1) = sock (client m)
                        /\ closed (world m1) = closed (world m)))
    with (4 := H); [unfold P; tauto| |unfold P; tauto].
  intros f m1 r m2 (P1 & P2 & P3 & P4) Hn E.
  apply execFuntion_spec in E. cbv zeta in E.
  destruct E as (_ & St & _ & _ & _ & _ & _ & _ & Hk & _).
  destruct (Hk P1 P2) as (K1 & K2).
  destruct (is_success r); unfold P; rewrite ?St, K1, K2;
    repeat split; try assumption;
    destruct (state (client m1)); cbn; congruence.
Qed.

(** A loop entered in [Open] that succeeds leaves a fresh descriptor. *)
Lemma run_fsm_fresh_descriptor fuel m m' :
  run_fsm net fuel m = Some (SNTPEX_SUCCESS, m') ->
  state (client m) = UD_SNTP_CLIENT_STATE_OPEN ->
  exists sk, sock (client m') = Some sk /\ 0 <= fd sk.
Proof.
  intros H Ho.
  pose (P := fun m1 : Memory =>
               state (client m1) = UD_SNTP_CLIENT_STATE_OPEN
               \/ (state (client m1) <> UD_SNTP_CLIENT_STATE_OPEN
                   /\ state (client m1) <> UD_SNTP_CLIENT_STATE_CLOSE
                   /\ exists sk, sock (client m1) = Some sk /\ 0 <= fd sk)).
  apply (run_fsm_rule net P
           (fun r m1 => r = SNTPEX_SUCCESS ->
                        exists sk, sock (client m1) = Some sk /\ 0 <= fd sk))
    with (4 := H); [| |left; exact Ho|reflexivity].
  - intros m1 [HP|(_ & _ & HP)] Hc _; [congruence|exact HP].
  - intros f m1 r m2 HP Hn E.
    apply execFuntion_spec in E. cbv zeta in E.
    destruct E as (_ & St & _ & _ & _ & _ & _ & _ & Hk & _ & _ & Hop & _).
    destruct (is_success r) eqn:Er;
      [|intros X; subst r; discriminate Er].
    apply is_success_true in Er. subst r. right.
    destruct HP as [HP|(P1 & P2 & P3)].
    + rewrite St, HP. cbn. repeat split; try discriminate.
      apply Hop; [exact HP|reflexivity].
    + destruct (Hk P1 P2) as (K1 & _). rewrite St, K1.
      repeat split; try assumption;
        destruct (state (client m1)); cbn; congruence.
Qed.

(** C3, as the code has it: the history of a call follows the edges of
    the machine; a successful call runs the handlers from its entry state
    to [HandlingResponse] in order, Open, Sending, Receiving,
    HandlingResponse from [Open], and never [Closing]: the descriptor
    stays open and the handle is left in [Sending]; [Closing] is run, by
    the driver, exactly when a handler failed. *)
Theorem successful_call_skips_closing fuel m rc m' :
  sntpex_client_timestamp_get net fuel ADDR ADDR m = Some (rc, m') ->
  let s0 := state (client m) in
  exists l,
    trace (world m') = trace (world m) ++ l
    /\ follows_edges l
    /\ (rc = SNTPEX_SUCCESS ->
        l = succeeded (path_from s0)
        /\ state (client m') = UD_SNTP_CLIENT_STATE_SENDING
        /\ (s0 = UD_SNTP_CLIENT_STATE_OPEN ->
            map fst l = [UD_SNTP_CLIENT_STATE_OPEN;
                         UD_SNTP_CLIENT_STATE_SENDING;
                         UD_SNTP_CLIENT_STATE_RECEIVING;
                         UD_SNTP_CLIENT_STATE_HANDLING_RSP]
            /\ exists sk, sock (client m') = Some sk /\ 0 <= fd sk)
        /\ (s0 = UD_SNTP_CLIENT_STATE_SENDING ->
            map fst l = [UD_SNTP_CLIENT_STATE_SENDING;
                         UD_SNTP_CLIENT_STATE_RECEIVING;
                         UD_SNTP_CLIENT_STATE_HANDLING_RSP]
            /\ sock (client m') = sock (client m)
            /\ closed (world m') = closed (world m)))
    /\ (rc <> SNTPEX_SUCCESS ->
        exists ss s rc5,
          l = succeeded ss ++ [(s, rc); (UD_SNTP_CLIENT_STATE_CLOSE, rc5)]
          /\ ss ++ path_from s = path_from s0).
Proof.
  intros H s0.
  apply timestamp_get_inv in H.
  destruct H as (m2 & m3 & Hc2 & _ & Tr2 & Cl2 & _ & Hrun & Hend).
  assert (Hs2 : state (client m2) = s0) by (rewrite Hc2; reflexivity).
  assert (Hk2 : sock (client m2) = sock (client m)) by (rewrite Hc2; reflexivity).
  pose proof (run_fsm_history _ _ _ _ Hrun) as Hh. cbv zeta in Hh.
  rewrite Hs2, Tr2 in Hh.
  destruct (is_success rc) eqn:Er.
  - apply is_success_true in Er. subst rc m'.
    destruct Hh as (Ht & Hst).
    exists (succeeded (path_from s0)).
    split; [exact Ht|]. split; [apply success_history_shape|].
    split; [|intros X; congruence].
    intros _. split; [reflexivity|]. split; [reflexivity|]. split.
    + intros E0. rewrite E0. split; [reflexivity|].
      apply (run_fsm_fresh_descriptor _ _ _ Hrun). congruence.
    + intros E0. rewrite E0. split; [reflexivity|].
      destruct (run_fsm_socket_kept _ _ _ _ Hrun) as (K1 & K2);
        try (rewrite Hs2, E0; discriminate).
      cbn [set_client client world set_state sock].
      split; congruence.
  - destruct Hh as (ss & Ht & Hp & Hn).
    destruct Hend as (rc5 & E5).
    apply execFuntion_spec in E5. cbv zeta in E5.
    destruct E5 as (Tr5 & _).
    exists (succeeded ss ++ [(state (client m3), rc);
                             (UD_SNTP_CLIENT_STATE_CLOSE, rc5)]).
    split.
    + rewrite Tr5. unfold prv_utility_unregister_event.
      cbn [set_event world]. rewrite Ht, <- !app_assoc. reflexivity.
    + split; [apply (error_history_shape ss _ rc rc5 s0 Hp Hn Er)|].
      split; [intros X; subst rc; discriminate Er|].
      intros _. exists ss, (state (client m3)), rc5.
      split; [reflexivity|exact Hp].
Qed.

Lemma unregister_clears_receive_bit (x : Z) :
  Z.testbit (u8 (Z.land x (Z.lnot exlibSNTP_SOFTSR_RECV_BIT))) 0 = false.
Proof.
  unfold u8. rewrite Z.mod_pow2_bits_low by lia.
  rewrite Z.land_spec, Z.lnot_spec by lia.
  apply andb_false_r.
Qed.

Lemma execFuntion_tracked d s fuel m rc m' :
  d <> -1 ->
  execFuntion net s fuel m = Some (rc, m') ->
  tracked d m ->
  tracked d m'
  /\ (s = UD_SNTP_CLIENT_STATE_CLOSE -> In d (closed (world m'))).
Proof.
  intros Hd E HT. apply execFuntion_spec in E. cbv zeta in E.
  destruct E as (_ & _ & _ & _ & _ & _ & _ & _ & Hk & Hcl & _).
  assert (Hclose : closed (world m')
                   = closed (world m) ++ pending_close (sock (client m)) ->
                   In d (closed (world m'))).
  { intros ->. apply in_or_app. destruct HT as [HT|(sk & Hs & Hf)].
    - left; exact HT.
    - right. rewrite Hs. unfold pending_close.
      replace (fd sk =? -1) with false
        by (symmetry; apply Z.eqb_neq; congruence).
      left. exact Hf. }
  destruct s; try (split; [|discriminate]).
  - left. apply Hclose, Hcl. left; reflexivity.
  - destruct Hk as (K1 & K2); try discriminate.
    unfold tracked. rewrite K1, K2. exact HT.
  - destruct Hk as (K1 & K2); try discriminate.
    unfold tracked. rewrite K1, K2. exact HT.
  - destruct Hk as (K1 & K2); try discriminate.
    unfold tracked. rewrite K1, K2. exact HT.
  - assert (In d (closed (world m'))) by (apply Hclose, Hcl; right; reflexivity).
    split; [left; assumption|intros _; assumption].
  - destruct Hk as (K1 & K2); try discriminate.
    unfold tracked. rewrite K1, K2. exact HT.
Qed.

Lemma run_fsm_tracked d fuel m rc m' :
  d <> -1 ->
  run_fsm net fuel m = Some (rc, m') -> tracked d m -> tracked d m'.
Proof.
  intros Hd H H0.
  apply (run_fsm_rule net (tracked d) (fun _ => tracked d)) with (4 := H);
    [tauto| |exact H0].
  intros f m1 r m2 HP _ E.
  destruct (execFuntion_tracked d _ _ _ _ _ Hd E HP) as (HT & _).
  destruct (is_success r); exact HT.
Qed.

(** C7, with the record pointer not NULL as well: when a call on a
    handle with a socket returns an error, the receive event is
    unregistered, [Closing] has run last, the descriptor of the handle is
    -1 and the one it held at entry has been passed to
    [SlNetSock_close], the state is [Open], and the code returned is the
    code of the one handler that failed, after handlers that all
    succeeded and of which none ran twice. *)
Theorem error_path_closes_transport fuel m rc m' :
  sock (client m) <> None ->
  sntpex_client_timestamp_get net fuel ADDR ADDR m = Some (rc, m') ->
  rc <> SNTPEX_SUCCESS ->
  let e' := xsntpAsynchEvent m' in
  timestamp e' = 0 /\ event_cb e' = None /\ Z.testbit (SR e') 0 = false
  /\ (exists sk, sock (client m') = Some sk /\ fd sk = -1)
  /\ state (client m') = UD_SNTP_CLIENT_STATE_OPEN
  /\ (forall sk0, sock (client m) = Some sk0 -> fd sk0 <> -1 ->
                  In (fd sk0) (closed (world m')))
  /\ exists ss s,
      trace (world m')
      = trace (world m)
        ++ succeeded ss
        ++ [(s, rc); (UD_SNTP_CLIENT_STATE_CLOSE, SNTPEX_SUCCESS)]
      /\ ss ++ path_from s = path_from (state (client m))
      /\ NoDup (ss ++ [s]).
Proof.
  intros Hsock H Hrc. cbv zeta.
  apply timestamp_get_inv in H.
  destruct H as (m2 & m3 & Hc2 & _ & Tr2 & Cl2 & _ & Hrun & Hend).
  assert (Hs2 : state (client m2) = state (client m)) by (rewrite Hc2; reflexivity).
  assert (Hk2 : sock (client m2) = sock (client m)) by (rewrite Hc2; reflexivity).
  pose proof (run_fsm_history _ _ _ _ Hrun) as Hh. cbv zeta in Hh.
  rewrite Hs2, Tr2 in Hh.
  apply is_success_false in Hrc. rewrite Hrc in Hh, Hend.
  destruct Hh as (ss & Ht & Hp & Hn). destruct Hend as (rc5 & E5).
  assert (Hs3 : sock (client m3) <> None).
  { apply (run_fsm_sock_attached _ _ _ _ Hrun). congruence. }
  set (m4 := prv_utility_unregister_event exlibSNTP_SOFTSR_RECV_BIT m3) in *.
  assert (Hc4 : client m4 = client m3) by reflexivity.
  assert (Hw4 : world m4 = world m3) by reflexivity.
  pose proof (execFuntion_spec _ _ _ _ _ _ E5) as S5. cbv zeta in S5.
  destruct S5 as (Tr5 & St5 & _ & _ & _ & _ & _ & _ & _ & _ & Hcl5 & _ & _ & _ & _ & Hev5).
  rewrite Hc4 in Hcl5. destruct (Hcl5 eq_refl Hs3) as (-> & sk & Hsk & Hfd).
  cbn [is_success next_state] in St5.
  split; [rewrite (Hev5 eq_refl); reflexivity|].
  split; [rewrite (Hev5 eq_refl); reflexivity|].
  split; [rewrite (Hev5 eq_refl); apply unregister_clears_receive_bit|].
  split; [exists sk; split; assumption|].
  split; [exact St5|].
  split.
  - intros sk0 Hsk0 Hd.
    assert (T2 : tracked (fd sk0) m2).
    { right. exists sk0. split; [congruence|reflexivity]. }
    pose proof (run_fsm_tracked _ _ _ _ _ Hd Hrun T2) as T3.
    assert (T4 : tracked (fd sk0) m4) by exact T3.
    apply (execFuntion_tracked _ _ _ _ _ _ Hd E5 T4). reflexivity.
  - exists ss, (state (client m3)). split.
    + rewrite Tr5, Hw4, Ht, <- !app_assoc. reflexivity.
    + split; [exact Hp|].
      apply (error_history_shape ss _ rc SNTPEX_SUCCESS _ Hp Hn Hrc).
Qed.

Lemma export_timestamps_idem p x :
  export_timestamps p (export_timestamps p x) = export_timestamps p x.
Proof. reflexivity. Qed.

Lemma run_fsm_record fuel m rc m' :
  run_fsm net fuel m = Some (rc, m') ->
  originateTimestamp (ts m') = originateTimestamp (ts m)
  /\ (rc <> SNTPEX_SUCCESS -> decoded_fields (ts m') = decoded_fields (ts m))
  /\ (rc = SNTPEX_SUCCESS ->
      state (client m) <> UD_SNTP_CLIENT_STATE_COMPLETE ->
      ts m' = export_timestamps (payload (client m')) (ts m')).
Proof.
  intros H.
  pose (P := fun m1 : Memory =>
               originateTimestamp (ts m1) = originateTimestamp (ts m)
               /\ (state (client m1) = UD_SNTP_CLIENT_STATE_COMPLETE ->
                   state (client m) <> UD_SNTP_CLIENT_STATE_COMPLETE ->
                   ts m1 = export_timestamps (payload (client m1)) (ts m1))
               /\ (state (client m1) <> UD_SNTP_CLIENT_STATE_COMPLETE ->
                   decoded_fields (ts m1) = decoded_fields (ts m))).
  apply (run_fsm_rule net P
           (fun r m1 =>
              originateTimestamp (ts m1) = originateTimestamp (ts m)
              /\ (r <> SNTPEX_SUCCESS ->
                  decoded_fields (ts m1) = decoded_fields (ts m))
              /\ (r = SNTPEX_SUCCESS ->
                  state (client m) <> UD_SNTP_CLIENT_STATE_COMPLETE ->
                  ts m1 = export_timestamps (payload (client m1)) (ts m1))))
    with (4 := H).
  - intros m1 (P1 & P2 & P3) Hc.
    split; [exact P1|]. split; [congruence|]. intros _. apply P2, Hc.
  - intros f m1 r m2 (P1 & P2 & P3) Hn E.
    apply execFuntion_spec in E. cbv zeta in E.
    destruct E as (_ & St & _ & Ho & _ & Hd & Hx & _).
    destruct (is_success r) eqn:Er.
    + apply is_success_true in Er. subst r. unfold P.
      split; [congruence|]. split.
      * intros Hc _. rewrite St in Hc.
        assert (Hs : state (client m1) = UD_SNTP_CLIENT_STATE_HANDLING_RSP)
          by (destruct (state (client m1)); cbn in Hc; congruence).
        destruct (Hx Hs eq_refl) as (X & _). rewrite X at 2.
        rewrite export_timestamps_idem. exact X.
      * intros Hc. rewrite St in Hc.
        assert (Hs : state (client m1) <> UD_SNTP_CLIENT_STATE_HANDLING_RSP)
          by (intros X; rewrite X in Hc; cbn in Hc; congruence).
        rewrite (Hd (or_introl Hs)). apply P3, Hn.
    + apply is_success_false in Er.
      split; [congruence|]. split; [|congruence].
      intros _. rewrite (Hd (or_intror Er)). apply P3, Hn.
  - unfold P. split; [reflexivity|]. split; [congruence|reflexivity].
Qed.

(** C1, as the code has it: when a call returns an error, the six fields
    that the decoding writes (the four NTP timestamps and the receive and
    transmit epoch values) are as they were; [originate64_ts] and
    [reference64_ts] are not covered, they are written by [Sending] and
    [Receiving] before the reply is judged; with a NULL argument nothing
    at all is written.  On success the record holds the timestamps decoded
    from the reply; [originateTimestamp] is never written. *)
Theorem record_on_error fuel p x m rc m' :
  sntpex_client_timestamp_get net fuel p x m = Some (rc, m') ->
  (rc <> SNTPEX_SUCCESS -> decoded_fields (ts m') = decoded_fields (ts m))
  /\ originateTimestamp (ts m') = originateTimestamp (ts m)
  /\ (p = NULL \/ x = NULL -> rc = SNTPEX_ERR_NULL_PTR /\ m' = m)
  /\ (rc = SNTPEX_SUCCESS ->
      state (client m) <> UD_SNTP_CLIENT_STATE_COMPLETE ->
      ts m' = export_timestamps (payload (client m')) (ts m')).
Proof.
  intros H.
  destruct p, x;
    try (cbn in H; inversion H; subst;
         repeat split; try reflexivity; try discriminate;
         intros [X|X]; discriminate X).
  apply timestamp_get_inv in H.
  destruct H as (m2 & m3 & Hc2 & T2 & _ & _ & _ & Hrun & Hend).
  assert (Hs2 : state (client m2) = state (client m)) by (rewrite Hc2; reflexivity).
  destruct (run_fsm_record _ _ _ _ Hrun) as (R1 & R2 & R3).
  rewrite T2 in R1, R2. rewrite Hs2 in R3.
  destruct (is_success rc) eqn:Er.
  - apply is_success_true in Er. subst rc m'.
    cbn [set_client ts client set_state payload].
    split; [congruence|]. split; [exact R1|].
    split; [intros [X|X]; discriminate X|exact R3].
  - destruct Hend as (rc5 & E5).
    apply execFuntion_spec in E5. cbv zeta in E5.
    destruct E5 as (_ & _ & _ & Ho & _ & Hd & _).
    assert (D5 : decoded_fields (ts m') = decoded_fields (ts m3)).
    { rewrite Hd by (left; discriminate). reflexivity. }
    apply is_success_false in Er.
    split; [intros _; rewrite D5; apply R2, Er|].
    split; [rewrite Ho; exact R1|].
    split; [intros [X|X]; discriminate X|congruence].
Qed.

Lemma run_fsm_kissCode fuel m rc m' :
  run_fsm net fuel m = Some (rc, m') ->
  rc = SNTPEX_ERR_REQUEST_REJECTED
  \/ kissCode (client m') = kissCode (client m)
  \/ rc = SNTPEX_SUCCESS /\ kissCode (client m') = 0.
Proof.
  intros H.
  pose (P := fun m1 : Memory =>
               kissCode (client m1) = kissCode (client m)
               \/ state (client m1) = UD_SNTP_CLIENT_STATE_COMPLETE
                  /\ kissCode (client m1) = 0).
  apply (run_fsm_rule net P
           (fun r m1 => r = SNTPEX_ERR_REQUEST_REJECTED
                        \/ kissCode (client m1) = kissCode (client m)
                        \/ r = SNTPEX_SUCCESS /\ kissCode (client m1) = 0))
    with (4 := H); [| |left; reflexivity].
  - intros m1 [HP|(_ & HP)] _; [right; left; exact HP|].
    right; right. split; [reflexivity|exact HP].
  - intros f m1 r m2 HP Hn E.
    assert (HP' : kissCode (client m1) = kissCode (client m))
      by (destruct HP as [HP|(X & _)]; [exact HP|contradiction]).
    apply execFuntion_spec in E. cbv zeta in E.
    destruct E as (_ & St & _ & _ & _ & _ & _ & _ & _ & _ & _ & _ & _ & _ & Hk & _).
    destruct (is_success r) eqn:Er.
    + apply is_success_true in Er. subst r. unfold P.
      destruct Hk as [X|[X|(Hs & _ & X)]]; [discriminate X|left; congruence|].
      right. rewrite St, Hs. split; [reflexivity|exact X].
    + destruct Hk as [X|[X|(_ & X & _)]];
        [left; exact X|right; left; congruence|subst r; discriminate Er].
Qed.

(** C8, as the code has it: response handling clears the Kiss code only
    once a reply has passed the length, version, transmit timestamp, mode
    and originate checks; it then stores the reference identifier of a
    stratum-0 reply and returns [SNTPEX_ERR_REQUEST_REJECTED], or leaves 0
    and accepts the reply; a reply refused as
    [SNTPEX_ERR_INVALID_MESSAGE] leaves the Kiss code as it was.  Over a
    whole call the code changes only that way: it is the code at entry
    unless the call returns success, with the code 0, or
    [SNTPEX_ERR_REQUEST_REJECTED]. *)
Theorem kiss_code_lifecycle fuel p x m rc m' :
  sntpex_client_timestamp_get net fuel p x m = Some (rc, m') ->
  (rc = SNTPEX_ERR_REQUEST_REJECTED
   \/ kissCode (client m') = kissCode (client m)
   \/ rc = SNTPEX_SUCCESS /\ kissCode (client m') = 0)
  /\ (rc = SNTPEX_ERR_INVALID_MESSAGE ->
      sntpex_client_Kiss_code_get ADDR m' = sntpex_client_Kiss_code_get ADDR m)
  /\ forall m1 : Memory,
      let c := client m1 in
      let r := sFct_sntp_HandlingResponse m1 in
      (fst r = SNTPEX_ERR_INVALID_MESSAGE
       /\ kissCode (client (snd r)) = kissCode c)
      \/ (fst r = SNTPEX_ERR_REQUEST_REJECTED
          /\ Wire.stratum (payload c) = 0
          /\ kissCode (client (snd r)) = be32 (payload c) Wire.off_referenceId)
      \/ (fst r = SNTPEX_SUCCESS
          /\ Wire.stratum (payload c) <> 0
          /\ kissCode (client (snd r)) = 0).
Proof.
  intros H.
  assert (K : rc = SNTPEX_ERR_REQUEST_REJECTED
              \/ kissCode (client m') = kissCode (client m)
              \/ rc = SNTPEX_SUCCESS /\ kissCode (client m') = 0).
  { destruct p, x;
      try (cbn in H; inversion H; subst; right; left; reflexivity).
    apply timestamp_get_inv in H.
    destruct H as (m2 & m3 & Hc2 & _ & _ & _ & _ & Hrun & Hend).
    assert (Hk2 : kissCode (client m2) = kissCode (client m))
      by (rewrite Hc2; reflexivity).
    pose proof (run_fsm_kissCode _ _ _ _ Hrun) as R. rewrite Hk2 in R.
    destruct (is_success rc) eqn:Er.
    - subst m'. exact R.
    - destruct Hend as (rc5 & E5).
      apply execFuntion_spec in E5. cbv zeta in E5.
      destruct E5 as (_ & _ & _ & _ & Hk & _).
      rewrite Hk by discriminate. exact R. }
  split; [exact K|]. split; [|apply HandlingResponse_kissCode].
  intros Hr. unfold sntpex_client_Kiss_code_get.
  destruct K as [X|[X|(X & _)]]; [congruence|exact X|congruence].
Qed.

Lemma run_fsm_payloadLen fuel m rc m' :
  run_fsm net fuel m = Some (rc, m') ->
  state (client m) = UD_SNTP_CLIENT_STATE_OPEN
  \/ state (client m) = UD_SNTP_CLIENT_STATE_SENDING ->
  rc = SNTPEX_SUCCESS ->
  payloadLen (client m') = Wire.sizeof_x_sntp_request
  /\ exists k, n_recv (world m') = S k
       /\ s32 (recv_code (SlNetSock_recvFrom net k))
          = Wire.sizeof_x_sntp_request.
Proof.
  intros H H0.
  pose (R := fun m1 : Memory =>
               payloadLen (client m1) = Wire.sizeof_x_sntp_request
               /\ exists k, n_recv (world m1) = S k
                    /\ s32 (recv_code (SlNetSock_recvFrom net k))
                       = Wire.sizeof_x_sntp_request).
  pose (P := fun m1 : Memory =>
               match state (client m1) with
               | UD_SNTP_CLIENT_STATE_RECEIVING =>
                   payloadLen (client m1) = Wire.sizeof_x_sntp_request
               | UD_SNTP_CLIENT_STATE_HANDLING_RSP
               | UD_SNTP_CLIENT_STATE_COMPLETE => R m1
               | _ => True
               end).
  apply (run_fsm_rule net P (fun r m1 => r = SNTPEX_SUCCESS -> R m1))
    with (4 := H).
  - intros m1 HP Hc _. unfold P in HP. rewrite Hc in HP. exact HP.
  - intros f m1 r m2 HP Hn E.
    apply execFuntion_spec in E. cbv zeta in E.
    destruct E as (_ & St & _ & _ & _ & _ & _ & Hl & _ & _ & _ & _ & Hrx & Hh & _).
    destruct (is_success r) eqn:Er;
      [|intros X; subst r; discriminate Er].
    apply is_success_true in Er. subst r.
    unfold P in *. rewrite St.
    destruct (state (client m1)); cbn [next_state]; try exact I;
      try congruence.
    + destruct (Hrx eq_refl eq_refl) as (k & K1 & K2).
      split; [congruence|]. exists k. split; congruence.
    + destruct (Hh eq_refl) as (N1 & _). destruct HP as (L & k & K1 & K2).
      split; [congruence|]. exists k. split; congruence.
  - unfold P. destruct H0 as [-> | ->]; exact I.
Qed.

(** C4, as the code has it: the length recorded when a request is built
    is the size of the wire record, 48 bytes, less than the 68 bytes of
    the buffer; no handler changes it afterwards; [Receiving] accepts a
    reply only when the transport returned exactly that length, so a
    successful call ends with the length 48 and a last read of 48
    bytes. *)
Theorem payload_length_is_request_size fuel m m' :
  state (client m) = UD_SNTP_CLIENT_STATE_OPEN
  \/ state (client m) = UD_SNTP_CLIENT_STATE_SENDING ->
  sntpex_client_timestamp_get net fuel ADDR ADDR m
  = Some (SNTPEX_SUCCESS, m') ->
  (payloadLen (client m') = 48
   /\ exists k, n_recv (world m') = S k
        /\ s32 (recv_code (SlNetSock_recvFrom net k)) = 48)
  /\ Wire.sizeof_x_sntp_request = 48
  /\ 48 < exlibSNTP_TIME_MESSAGE_MAX_SIZE
  /\ (forall m1, payloadLen (client (snd (prv_utility_build_request m1))) = 48)
  /\ (forall s f m1 r m2,
        execFuntion net s f m1 = Some (r, m2) ->
        payloadLen (client m1) = 48 -> payloadLen (client m2) = 48)
  /\ (forall f m1 m2,
        sFct_sntp_ReceiveResponse net f m1 = Some (SNTPEX_SUCCESS, m2) ->
        exists k, n_recv (world m2) = S k
          /\ s32 (recv_code (SlNetSock_recvFrom net k))
             = payloadLen (client m1)).
Proof.
  intros H0 H.
  apply timestamp_get_inv in H.
  destruct H as (m2 & m3 & Hc2 & _ & _ & _ & _ & Hrun & Hend).
  cbn [is_success] in Hend. subst m'.
  assert (Hs2 : state (client m2) = state (client m)) by (rewrite Hc2; reflexivity).
  rewrite <- Hs2 in H0.
  destruct (run_fsm_payloadLen _ _ _ _ Hrun H0 eq_refl) as (L & k & K1 & K2).
  split; [split; [exact L|exists k; split; assumption]|].
  split; [reflexivity|]. split; [reflexivity|].
  split; [intros m1; apply build_request_payloadLen|].
  split.
  - intros s f m1 r m4 E Hl. apply execFuntion_spec in E. cbv zeta in E.
    destruct E as (_ & _ & _ & _ & _ & _ & _ & Hp & _).
    rewrite Hp. destruct s; try exact Hl. reflexivity.
  - intros f m1 m4 E. apply ReceiveResponse_spec in E. cbv zeta in E.
    destruct E as (_ & _ & _ & _ & _ & _ & Hk & _).
    apply Hk. reflexivity.
Qed.

End Calls.

(* ================================================================== *)
(** * The properties on the scenarios *)
(* ================================================================== *)

Module Runs.
Import Scenario.

(** The four calls used below, observed. *)
Lemma good_run :
  option_map (fun o => (o_code o, map fst (trace (o_world o)), o_state o,
                        option_map fd (o_sock o), closed (o_world o),
                        o_payloadLen o))
    (observe (sntpex_client_timestamp_get good_net 8 ADDR ADDR m0))
  = Some (SNTPEX_SUCCESS,
          [UD_SNTP_CLIENT_STATE_OPEN; UD_SNTP_CLIENT_STATE_SENDING;
           UD_SNTP_CLIENT_STATE_RECEIVING; UD_SNTP_CLIENT_STATE_HANDLING_RSP],
          UD_SNTP_CLIENT_STATE_SENDING, Some 3, [], 48).
Proof. vm_compute. reflexivity. Qed.

Lemma tx_run :
  option_map (fun o => (o_code o, originate64_ts (o_ts o),
                        option_map fd (o_sock o), closed (o_world o)))
    (observe (sntpex_client_timestamp_get tx_net 8 ADDR ADDR m0))
  = Some (SNTPEX_ERR_TX, 1704067200000000, Some (-1), [3]).
Proof. vm_compute. reflexivity. Qed.

Lemma kod_run :
  option_map (fun o => (o_code o, o_kissCode o))
    (observe (sntpex_client_timestamp_get kod_then_garbage_net 8 ADDR ADDR m0))
  = Some (SNTPEX_ERR_REQUEST_REJECTED, 0x52415445).
Proof. vm_compute. reflexivity. Qed.

Lemma garbage_run :
  option_map (fun o => (o_code o, o_kissCode o,
                        rev (map fst (trace (o_world o)))))
    (observe (sntpex_client_timestamp_get kod_then_garbage_net 8 ADDR ADDR
                m_kissed))
  = Some (SNTPEX_ERR_INVALID_MESSAGE, 0x52415445,
          [UD_SNTP_CLIENT_STATE_CLOSE; UD_SNTP_CLIENT_STATE_HANDLING_RSP;
           UD_SNTP_CLIENT_STATE_RECEIVING; UD_SNTP_CLIENT_STATE_SENDING;
           UD_SNTP_CLIENT_STATE_OPEN;
           UD_SNTP_CLIENT_STATE_CLOSE; UD_SNTP_CLIENT_STATE_HANDLING_RSP;
           UD_SNTP_CLIENT_STATE_RECEIVING; UD_SNTP_CLIENT_STATE_SENDING;
           UD_SNTP_CLIENT_STATE_OPEN]).
Proof. vm_compute. reflexivity. Qed.

End Runs.

(** The claim C1 as it is written fails: a call whose transmission fails
    returns [SNTPEX_ERR_TX] and has already written [originate64_ts]. *)
Lemma record_written_on_failed_send :
  ~ (forall net fuel p x m rc m',
        sntpex_client_timestamp_get net fuel p x m = Some (rc, m') ->
        rc <> SNTPEX_SUCCESS -> ts m' = ts m).
Proof.
  intros C. pose proof Runs.tx_run as R.
  destruct (sntpex_client_timestamp_get Scenario.tx_net 8 ADDR ADDR Scenario.m0)
    as [[rc m']|] eqn:E; [|discriminate R].
  cbn in R. injection R as Hrc Ho _ _.
  assert (Hts : ts m' = ts Scenario.m0).
  { apply (C _ _ _ _ _ _ _ E). rewrite Hrc. discriminate. }
  rewrite Hts in Ho. vm_compute in Ho. discriminate Ho.
Qed.

Lemma record_on_error_witness :
  exists rc m',
    sntpex_client_timestamp_get Scenario.tx_net 8 ADDR ADDR Scenario.m0
    = Some (rc, m')
    /\ rc = SNTPEX_ERR_TX
    /\ decoded_fields (ts m') = decoded_fields (ts Scenario.m0)
    /\ originate64_ts (ts m') = 1704067200000000.
Proof.
  pose proof Runs.tx_run as R.
  destruct (sntpex_client_timestamp_get Scenario.tx_net 8 ADDR ADDR Scenario.m0)
    as [[rc m']|] eqn:E; [|discriminate R].
  cbn in R. injection R as Hrc Ho _ _.
  exists rc, m'. split; [reflexivity|]. split; [exact Hrc|].
  split; [|exact Ho].
  apply (record_on_error Scenario.tx_net 8 ADDR ADDR Scenario.m0 rc m' E).
  rewrite Hrc. discriminate.
Defined.

(** The claim C3 as it is written fails: a successful call from [Open]
    runs four handlers, [Closing] is not one of them, and the descriptor
    is still open when the call returns. *)
Lemma successful_call_never_closes :
  ~ (forall net fuel m m',
        state (client m) = UD_SNTP_CLIENT_STATE_OPEN ->
        sntpex_client_timestamp_get net fuel ADDR ADDR m
        = Some (SNTPEX_SUCCESS, m') ->
        exists l, trace (world m') = trace (world m) ++ l
                  /\ In UD_SNTP_CLIENT_STATE_CLOSE (map fst l)).
Proof.
  intros C. pose proof Runs.good_run as R.
  destruct (sntpex_client_timestamp_get Scenario.good_net 8 ADDR ADDR Scenario.m0)
    as [[rc m']|] eqn:E; [|discriminate R].
  cbn in R. injection R as Hrc Htr _ _ _ _. subst rc.
  destruct (C Scenario.good_net 8%nat Scenario.m0 m' eq_refl E)
    as (l & Hl & Hin).
  change (trace (world Scenario.m0)) with (@nil (udSntpClientState * sntp_ud_t)) in Hl.
  cbn [app] in Hl. rewrite Hl in Htr. rewrite Htr in Hin.
  cbn in Hin. intuition discriminate.
Qed.

Lemma successful_call_skips_closing_witness :
  exists rc m',
    sntpex_client_timestamp_get Scenario.good_net 8 ADDR ADDR Scenario.m0
    = Some (rc, m')
    /\ rc = SNTPEX_SUCCESS
    /\ trace (world m')
       = succeeded [UD_SNTP_CLIENT_STATE_OPEN; UD_SNTP_CLIENT_STATE_SENDING;
                    UD_SNTP_CLIENT_STATE_RECEIVING;
                    UD_SNTP_CLIENT_STATE_HANDLING_RSP]
    /\ state (client m') = UD_SNTP_CLIENT_STATE_SENDING.
Proof.
  pose proof Runs.good_run as R.
  destruct (sntpex_client_timestamp_get Scenario.good_net 8 ADDR ADDR Scenario.m0)
    as [[rc m']|] eqn:E; [|discriminate R].
  cbn in R. injection R as Hrc _ _ _ _ _.
  exists rc, m'. split; [reflexivity|]. split; [exact Hrc|].
  destruct (successful_call_skips_closing Scenario.good_net 8 Scenario.m0 rc m' E)
    as (l & Hl & _ & Hok & _).
  destruct (Hok Hrc) as (Hpath & Hst & _).
  split; [|exact Hst].
  rewrite Hl, Hpath. reflexivity.
Defined.

(** The claim C7 as it is written fails: after a successful call the
    descriptor is open and the state is [Sending]; a call on that handle
    with a NULL record returns [SNTPEX_ERR_NULL_PTR] and leaves both. *)
Lemma null_record_leaves_transport_open :
  ~ (forall net fuel x m rc m',
        sock (client m) <> None ->
        sntpex_client_timestamp_get net fuel ADDR x m = Some (rc, m') ->
        rc <> SNTPEX_SUCCESS ->
        (exists sk, sock (client m') = Some sk /\ fd sk = -1)
        /\ state (client m') = UD_SNTP_CLIENT_STATE_OPEN).
Proof.
  intros C.
  assert (Hs : sock (client Scenario.m_synced) <> None)
    by (vm_compute; discriminate).
  destruct (C Scenario.good_net 8%nat NULL Scenario.m_synced
              SNTPEX_ERR_NULL_PTR Scenario.m_synced Hs eq_refl)
    as (_ & Hst); [discriminate|].
  vm_compute in Hst. discriminate Hst.
Qed.

Lemma error_path_closes_transport_witness :
  exists rc m',
    sntpex_client_timestamp_get Scenario.tx_net 8 ADDR ADDR Scenario.m0
    = Some (rc, m')
    /\ rc = SNTPEX_ERR_TX
    /\ (exists sk, sock (client m') = Some sk /\ fd sk = -1)
    /\ state (client m') = UD_SNTP_CLIENT_STATE_OPEN
    /\ timestamp (xsntpAsynchEvent m') = 0.
Proof.
  pose proof Runs.tx_run as R.
  destruct (sntpex_client_timestamp_get Scenario.tx_net 8 ADDR ADDR Scenario.m0)
    as [[rc m']|] eqn:E; [|discriminate R].
  cbn in R. injection R as Hrc _ _ _.
  exists rc, m'. split; [reflexivity|]. split; [exact Hrc|].
  assert (Hs : sock (client Scenario.m0) <> None)
    by (vm_compute; discriminate).
  assert (Hn : rc <> SNTPEX_SUCCESS) by (rewrite Hrc; discriminate).
  destruct (error_path_closes_transport Scenario.tx_net 8 Scenario.m0 rc m'
              Hs E Hn) as (Ht & _ & _ & Hfd & Hst & _).
  split; [exact Hfd|]. split; [exact Hst|exact Ht].
Defined.

(** The claim C8 as it is written fails: a first call is rejected with
    the Kiss code RATE; the next call on the same handle gets a reply
    refused as [SNTPEX_ERR_INVALID_MESSAGE], and the Kiss code is still
    RATE, not 0. *)
Lemma kiss_code_survives_invalid_message :
  ~ (forall net fuel m rc m',
        sntpex_client_timestamp_get net fuel ADDR ADDR m = Some (rc, m') ->
        rc = SNTPEX_ERR_INVALID_MESSAGE ->
        sntpex_client_Kiss_code_get ADDR m' = 0).
Proof.
  intros C. pose proof Runs.garbage_run as R.
  destruct (sntpex_client_timestamp_get Scenario.kod_then_garbage_net 8 ADDR ADDR
              Scenario.m_kissed) as [[rc m']|] eqn:E; [|discriminate R].
  cbn in R. injection R as Hrc Hk _.
  pose proof (C _ _ _ _ _ E Hrc) as H0.
  unfold sntpex_client_Kiss_code_get in H0. rewrite H0 in Hk. discriminate Hk.
Qed.

Lemma kiss_code_lifecycle_witness :
  exists rc m',
    sntpex_client_timestamp_get Scenario.kod_then_garbage_net 8 ADDR ADDR
      Scenario.m_kissed = Some (rc, m')
    /\ rc = SNTPEX_ERR_INVALID_MESSAGE
    /\ sntpex_client_Kiss_code_get ADDR m'
       = sntpex_client_Kiss_code_get ADDR Scenario.m_kissed
    /\ sntpex_client_Kiss_code_get ADDR m' = 0x52415445.
Proof.
  pose proof Runs.garbage_run as R.
  destruct (sntpex_client_timestamp_get Scenario.kod_then_garbage_net 8 ADDR ADDR
              Scenario.m_kissed) as [[rc m']|] eqn:E; [|discriminate R].
  cbn in R. injection R as Hrc Hk _.
  exists rc, m'. split; [reflexivity|]. split; [exact Hrc|].
  destruct (kiss_code_lifecycle Scenario.kod_then_garbage_net 8 ADDR ADDR
              Scenario.m_kissed rc m' E) as (_ & Hinv & _).
  split; [exact (Hinv Hrc)|exact Hk].
Defined.

Lemma payload_length_is_request_size_witness :
  exists m',
    sntpex_client_timestamp_get Scenario.good_net 8 ADDR ADDR Scenario.m0
    = Some (SNTPEX_SUCCESS, m')
    /\ payloadLen (client m') = 48
    /\ exists k, n_recv (world m') = S k
         /\ s32 (recv_code (SlNetSock_recvFrom Scenario.good_net k)) = 48.
Proof.
  pose proof Runs.good_run as R.
  destruct (sntpex_client_timestamp_get Scenario.good_net 8 ADDR ADDR Scenario.m0)
    as [[rc m']|] eqn:E; [|discriminate R].
  cbn in R. injection R as Hrc _ _ _ _ _. subst rc.
  exists m'. split; [reflexivity|].
  assert (H0 : state (client Scenario.m0) = UD_SNTP_CLIENT_STATE_OPEN
               \/ state (client Scenario.m0) = UD_SNTP_CLIENT_STATE_SENDING)
    by (left; reflexivity).
  destruct (payload_length_is_request_size Scenario.good_net 8 Scenario.m0 m'
              H0 E) as ((Hl & Hk) & _).
  split; [exact Hl|exact Hk].
Defined.

(* ================================================================== *)
(** * Accuracy of the timestamp converter *)
(* ================================================================== *)

(** One step of the conversion, as linear facts: the new accumulator is
    the old one divided by 64 and rounded to the nearest, plus the chunk
    times 15625. *)
Lemma spec_frac_step_bounds (fraction acc offset : Z) :
  0 <= acc ->
  let c := Z.land (Z.shiftr fraction offset) 63 in
  let v := spec_frac_step fraction acc offset in
  - 32 <= 64 * (v - c * 15625) - acc <= 32.
Proof.
  intros Ha c v. subst v. unfold spec_frac_step. fold c.
  rewrite Z.shiftr_div_pow2 by lia. change (2 ^ 6) with 64.
  change 63 with (Z.ones 6). rewrite (Z.land_ones acc) by lia.
  change (2 ^ 6) with 64.
  destruct (32 <=? acc mod 64) eqn:E;
    [apply Z.leb_le in E | apply Z.leb_gt in E];
    Z.div_mod_to_equations; lia.
Qed.

(** The chunks of a 32-bit fraction. *)
Lemma fraction_chunks (fraction : Z) :
  0 <= fraction < 2 ^ 32 ->
  let c k := Z.land (Z.shiftr fraction (2 + 6 * k)) 63 in
  exists low, 0 <= low < 4
    /\ fraction = low + 4 * (c 0 + 64 * (c 1 + 64 * (c 2 + 64 * (c 3 + 64 * c 4))))
    /\ 0 <= c 0 < 64 /\ 0 <= c 1 < 64 /\ 0 <= c 2 < 64 /\ 0 <= c 3 < 64
    /\ 0 <= c 4 < 64.
Proof.
  intros HF c. exists (fraction mod 4). subst c. cbv beta.
  change 63 with (Z.ones 6). rewrite !Z.land_ones by lia.
  rewrite !Z.shiftr_div_pow2 by lia.
  change (2 + 6 * 0) with 2. change (2 + 6 * 1) with 8.
  change (2 + 6 * 2) with 14. change (2 + 6 * 3) with 20.
  change (2 + 6 * 4) with 26.
  change (2 ^ 2) with 4. change (2 ^ 8) with 256. change (2 ^ 14) with 16384.
  change (2 ^ 20) with 1048576. change (2 ^ 26) with 67108864.
  change (2 ^ 6) with 64. change (2 ^ 32) with 4294967296 in HF.
  Z.div_mod_to_equations. lia.
Qed.

(** X1: for every 32-bit fraction the microseconds computed are within
    one microsecond of the exact value fraction * 10^6 / 2^32, and at most
    1000000. *)
Theorem frac_to_usecs_within_one_microsecond (fraction : Z) :
  0 <= fraction < 2 ^ 32 ->
  let v := prv_utility_frac_to_usecs fraction in
  2 ^ 32 * (v - 1) < fraction * 1000000 < 2 ^ 32 * (v + 1)
  /\ 0 <= v <= 1000000.
Proof.
  intros HF v.
  assert (Hv : v = spec_frac_to_usecs fraction).
  { subst v. rewrite frac_to_usecs_unfold.
    unfold spec_frac_to_usecs, spec_chunk_offsets. cbn [fold_left].
    assert (H0 : 0 <= 0 <= 1000001) by lia.
    destruct (frac_body_spec fraction 2 0 H0) as [E1 R1].
    destruct (frac_body_spec fraction 8 _ R1) as [E2 R2].
    destruct (frac_body_spec fraction 14 _ R2) as [E3 R3].
    destruct (frac_body_spec fraction 20 _ R3) as [E4 R4].
    destruct (frac_body_spec fraction 26 _ R4) as [E5 _].
    rewrite E5, E4, E3, E2, E1. reflexivity. }
  destruct (fraction_chunks fraction HF)
    as (low & Hlow & Hsum & C0 & C1 & C2 & C3 & C4).
  cbv beta in Hsum, C0, C1, C2, C3, C4.
  change (2 + 6 * 0) with 2 in *. change (2 + 6 * 1) with 8 in *.
  change (2 + 6 * 2) with 14 in *. change (2 + 6 * 3) with 20 in *.
  change (2 + 6 * 4) with 26 in *.
  unfold spec_frac_to_usecs, spec_chunk_offsets in Hv. cbn [fold_left] in Hv.
  set (v1 := spec_frac_step fraction 0 2) in *.
  set (v2 := spec_frac_step fraction v1 8) in *.
  set (v3 := spec_frac_step fraction v2 14) in *.
  set (v4 := spec_frac_step fraction v3 20) in *.
  pose proof (spec_frac_step_bounds fraction 0 2 ltac:(lia)) as B1.
  cbv zeta in B1. fold v1 in B1.
  assert (P1 : 0 <= v1) by lia.
  pose proof (spec_frac_step_bounds fraction v1 8 P1) as B2.
  cbv zeta in B2. fold v2 in B2.
  assert (P2 : 0 <= v2) by lia.
  pose proof (spec_frac_step_bounds fraction v2 14 P2) as B3.
  cbv zeta in B3. fold v3 in B3.
  assert (P3 : 0 <= v3) by lia.
  pose proof (spec_frac_step_bounds fraction v3 20 P3) as B4.
  cbv zeta in B4. fold v4 in B4.
  assert (P4 : 0 <= v4) by lia.
  pose proof (spec_frac_step_bounds fraction v4 26 P4) as B5.
  cbv zeta in B5. rewrite <- Hv in B5.
  change (2 ^ 32) with 4294967296.
  set (c0 := Z.land (Z.shiftr fraction 2) 63) in *.
  set (c1 := Z.land (Z.shiftr fraction 8) 63) in *.
  set (c2 := Z.land (Z.shiftr fraction 14) 63) in *.
  set (c3 := Z.land (Z.shiftr fraction 20) 63) in *.
  set (c4 := Z.land (Z.shiftr fraction 26) 63) in *.
  clearbody v v1 v2 v3 v4 c0 c1 c2 c3 c4.
  lia.
Qed.

Lemma frac_to_usecs_within_one_microsecond_witness :
  0 <= 2 ^ 32 - 1 < 2 ^ 32
  /\ prv_utility_frac_to_usecs (2 ^ 32 - 1) = 1000000
  /\ 2 ^ 32 * (1000000 - 1) < (2 ^ 32 - 1) * 1000000 < 2 ^ 32 * (1000000 + 1).
Proof.
  assert (H : 0 <= 2 ^ 32 - 1 < 2 ^ 32) by (vm_compute; split; [intro X; discriminate X|reflexivity]).
  split; [exact H|]. split; [vm_compute; reflexivity|].
  pose proof (frac_to_usecs_within_one_microsecond (2 ^ 32 - 1) H) as (B & _).
  exact B.
Defined.

(** The value of [prv_utility_ntp_to_epoch] read as a signed 64-bit
    number. *)
Lemma ntp_to_epoch_signed (ulSeconds ulFraction : Z) :
  0 <= ulSeconds < 2 ^ 32 ->
  s64 (prv_utility_ntp_to_epoch ulSeconds ulFraction)
  = (ulSeconds - 2208988800) * 1000000 + prv_utility_frac_to_usecs ulFraction
  /\ (2208988800 <= ulSeconds ->
      prv_utility_ntp_to_epoch ulSeconds ulFraction
      = (ulSeconds - 2208988800) * 1000000
        + prv_utility_frac_to_usecs ulFraction).
Proof.
  intros HS. pose proof (frac_to_usecs_range ulFraction) as HF.
  change (2 ^ 32) with 4294967296 in HS.
  set (usecs := prv_utility_frac_to_usecs ulFraction) in *.
  assert (E : prv_utility_ntp_to_epoch ulSeconds ulFraction
              = ((ulSeconds - 2208988800) * 1000000 + usecs) mod 2 ^ 64).
  { unfold prv_utility_ntp_to_epoch, exlibDIFF_SEC_1900_1970, u64.
    fold usecs. rewrite (s64_small (ulSeconds - 2208988800)) by lia.
    rewrite s64_small by lia.
    rewrite <- Z.add_mod by discriminate. reflexivity. }
  rewrite E. clearbody usecs. split.
  - unfold s64, signed. change (2 ^ (64 - 1)) with 9223372036854775808.
    change (2 ^ 64) with 18446744073709551616.
    rewrite Z.add_mod_idemp_l by discriminate.
    rewrite Z.mod_small; lia.
  - intros Hge. apply Z.mod_small.
    change (2 ^ 64) with 18446744073709551616. lia.
Qed.

(** X2: the epoch value, read as a signed number of microseconds, is
    within one microsecond of the exact time
    (seconds - 2208988800 + fraction / 2^32) * 10^6, before 1970 as well;
    from 1970 on, a later seconds field never gives an earlier epoch value,
    whatever the two fractions. *)
Theorem ntp_to_epoch_accurate_and_ordered (s1 f1 s2 f2 : Z) :
  0 <= s1 < 2 ^ 32 -> 0 <= f1 < 2 ^ 32 ->
  0 <= s2 < 2 ^ 32 -> 0 <= f2 < 2 ^ 32 ->
  let e1 := prv_utility_ntp_to_epoch s1 f1 in
  let e2 := prv_utility_ntp_to_epoch s2 f2 in
  let exact_scaled := ((s1 - 2208988800) * 2 ^ 32 + f1) * 1000000 in
  2 ^ 32 * (s64 e1 - 1) < exact_scaled < 2 ^ 32 * (s64 e1 + 1)
  /\ (2208988800 <= s1 -> s1 < s2 -> e1 <= e2).
Proof.
  intros H1 F1 H2 F2 e1 e2 exact_scaled.
  destruct (ntp_to_epoch_signed s1 f1 H1) as (S1 & G1).
  destruct (ntp_to_epoch_signed s2 f2 H2) as (_ & G2).
  destruct (frac_to_usecs_within_one_microsecond f1 F1) as (A1 & R1).
  destruct (frac_to_usecs_within_one_microsecond f2 F2) as (_ & R2).
  cbv zeta in A1, R1, R2.
  subst e1 e2 exact_scaled.
  change (2 ^ 32) with 4294967296 in *.
  split.
  - rewrite S1. lia.
  - intros Hge Hlt. rewrite G1, G2 by lia. lia.
Qed.

Lemma ntp_to_epoch_accurate_and_ordered_witness :
  prv_utility_ntp_to_epoch 3913056000 (2 ^ 32 - 1)
  <= prv_utility_ntp_to_epoch 3913056001 0
  /\ prv_utility_ntp_to_epoch 3913056000 (2 ^ 32 - 1) = 1704067201000000.
Proof.
  assert (A : 0 <= 3913056000 < 2 ^ 32)
    by (vm_compute; split; [intro X; discriminate X|reflexivity]).
  assert (B : 0 <= 2 ^ 32 - 1 < 2 ^ 32)
    by (vm_compute; split; [intro X; discriminate X|reflexivity]).
  assert (C : 0 <= 3913056001 < 2 ^ 32)
    by (vm_compute; split; [intro X; discriminate X|reflexivity]).
  assert (D : 0 <= 0 < 2 ^ 32)
    by (vm_compute; split; [intro X; discriminate X|reflexivity]).
  pose proof (ntp_to_epoch_accurate_and_ordered
                3913056000 (2 ^ 32 - 1) 3913056001 0 A B C D)
    as (_ & H).
  split; [apply H; vm_compute; [intro X; discriminate X|reflexivity]|].
  vm_compute. reflexivity.
Defined.

(* ================================================================== *)
(** * The bytes of a request and the judgement of a reply *)
(* ================================================================== *)

Lemma memset0_prefix (p : buffer) (n : nat) :
  (n <= length p)%nat -> memset0 p n = repeat 0 n ++ skipn n p.
Proof. intros H. unfold memset0. rewrite Nat.min_l by exact H. reflexivity. Qed.

Lemma byte_of_htonl (v : Z) :
  byte_of (SlNetUtil_htonl v) 0 = byte_of v 3
  /\ byte_of (SlNetUtil_htonl v) 1 = byte_of v 2
  /\ byte_of (SlNetUtil_htonl v) 2 = byte_of v 1
  /\ byte_of (SlNetUtil_htonl v) 3 = byte_of v 0.
Proof.
  unfold SlNetUtil_htonl.
  apply (byte_of_assembled (byte_of v 3) (byte_of v 2) (byte_of v 1) (byte_of v 0));
    apply byte_of_range.
Qed.

(** The buffer after [prv_utility_build_request], byte for byte. *)
Lemma build_request_bytes (m : Memory) :
  (48 <= length (payload (client m)))%nat ->
  let tick := u32 (get_os_tick (vtable_api (client m)) (n_tick (world m))) in
  payload (client (snd (prv_utility_build_request m)))
  = request_bytes tick ++ skipn 48 (payload (client m)).
Proof.
  intros Hlen tick.
  unfold prv_utility_build_request, Env.os_tick. cbn [snd].
  fold tick.
  destruct m as [c x e pg w]; destruct c as [so vt tmo itf st0 stt pl plen kc eo].
  cbn [client payload set_client set_payloadLen set_payload
       set_expected_orig_ts expected_orig_ts sock vtable_api timeout
       interface startTime state kissCode payloadLen] in *.
  change (Z.to_nat Wire.sizeof_x_sntp_request) with 48%nat.
  rewrite memset0_prefix by exact Hlen.
  set (tail := skipn 48 pl). clearbody tail tick.
  destruct (byte_of_htonl tick) as (B0 & B1 & B2 & B3).
  unfold Wire.set_mode, Wire.set_vn, store32, request_bytes, wire32,
    Wire.off_flags, Wire.off_stratum, Wire.off_poll, Wire.off_precision,
    Wire.off_transmitTimestamp, exlibSLNETUTIL_HTONL.
  cbn [repeat app store8 Nat.add].
  rewrite !u8_byte_of, B0, B1, B2, B3.
  repeat (f_equal; [vm_compute; reflexivity|]).
  reflexivity.
Qed.

(** X3: whatever the buffer held, a request is built as 48 bytes: the
    flags byte 0x23 (leap 0, version 4, client mode), stratum 2, poll 6,
    precision -20, forty zero bytes, and the nonce in network order as the
    last four; the nonce is the tick read and is what the handle then
    expects; the bytes of the buffer past the 48th are not touched. *)
Theorem request_encoding (m : Memory) :
  (48 <= length (payload (client m)))%nat ->
  let m1 := snd (prv_utility_build_request m) in
  let r := payload (client m1) in
  let nonce := expected_orig_ts (client m1) in
  nonce = u32 (get_os_tick (vtable_api (client m)) (n_tick (world m)))
  /\ r = request_bytes nonce ++ skipn 48 (payload (client m))
  /\ length r = length (payload (client m))
  /\ Wire.li r = 0 /\ Wire.vn r = specNTP_VERSION_V4
  /\ Wire.mode r = specNTP_MODE_CLIENT
  /\ Wire.stratum r = 2 /\ byte_at r 2 = 6 /\ byte_at r 3 - 256 = - 20
  /\ be32 r 44 = nonce
  /\ (forall off, In off [4; 8; 12; 16; 20; 24; 28; 32; 36; 40]%nat ->
                  be32 r off = 0).
Proof.
  intros Hlen m1 r nonce.
  assert (Hn : nonce = u32 (get_os_tick (vtable_api (client m)) (n_tick (world m)))).
  { subst nonce m1. destruct (build_request_spec m) as (_ & _ & _ & _ & _ & Hc).
    rewrite Hc. reflexivity. }
  assert (Hr : r = request_bytes nonce ++ skipn 48 (payload (client m))).
  { subst r m1. rewrite Hn. apply build_request_bytes. exact Hlen. }
  split; [exact Hn|]. split; [exact Hr|].
  set (tail := skipn 48 (payload (client m))) in *.
  assert (Hu : u32 nonce = nonce)
    by (rewrite Hn; unfold u32; apply Z.mod_mod; discriminate).
  clearbody r nonce. subst r.
  split.
  { rewrite length_app. subst tail. rewrite length_skipn.
    unfold request_bytes, wire32. cbn [length app repeat]. lia. }
  unfold request_bytes, wire32. cbn [app repeat].
  split; [vm_compute; reflexivity|]. split; [vm_compute; reflexivity|].
  split; [vm_compute; reflexivity|]. split; [vm_compute; reflexivity|].
  split; [vm_compute; reflexivity|]. split; [vm_compute; reflexivity|].
  split.
  - unfold be32, byte_at. cbn [nth Nat.add]. fold (u8 (byte_of nonce 3)).
    unfold u8 at 1 2 3 4. fold (u8 (byte_of nonce 3)) (u8 (byte_of nonce 2))
      (u8 (byte_of nonce 1)) (u8 (byte_of nonce 0)).
    rewrite !u8_byte_of. rewrite <- Hu at 5. rewrite u32_bytes. lia.
  - intros off Hin. cbn [In] in Hin.
    repeat (destruct Hin as [<-|Hin]; [vm_compute; reflexivity|]).
    contradiction.
Qed.

Lemma request_encoding_witness :
  let m1 := snd (prv_utility_build_request Scenario.m0) in
  (48 <= length (payload (client Scenario.m0)))%nat
  /\ expected_orig_ts (client m1) = 1000
  /\ firstn 48 (payload (client m1)) = request_bytes 1000
  /\ be32 (payload (client m1)) 44 = 1000.
Proof.
  assert (Hlen : (48 <= length (payload (client Scenario.m0)))%nat)
    by (apply Nat.leb_le; vm_compute; reflexivity).
  pose proof (request_encoding Scenario.m0 Hlen) as H. cbv zeta in H.
  destruct H as (Hn & Hr & _ & _ & _ & _ & _ & _ & _ & Hb & _).
  cbv zeta. split; [exact Hlen|].
  assert (E : expected_orig_ts
                (client (snd (prv_utility_build_request Scenario.m0))) = 1000)
    by (rewrite Hn; vm_compute; reflexivity).
  split; [exact E|]. split.
  - rewrite Hr, E. vm_compute. reflexivity.
  - rewrite Hb. exact E.
Defined.

Lemma load32_zero_iff (p : buffer) (off : nat) :
  load32 p off = 0 <-> be32 p off = 0.
Proof.
  unfold load32, be32.
  pose proof (byte_at_range p off). pose proof (byte_at_range p (off + 1)).
  pose proof (byte_at_range p (off + 2)). pose proof (byte_at_range p (off + 3)).
  change (2 ^ 8) with 256. change (2 ^ 16) with 65536.
  change (2 ^ 24) with 16777216. lia.
Qed.

Lemma load64_zero_iff (p : buffer) (off : nat) :
  load64 p off = 0 <-> be32 p off = 0 /\ be32 p (off + 4) = 0.
Proof.
  rewrite <- !load32_zero_iff. unfold load64.
  pose proof (load32_range p off). pose proof (load32_range p (off + 4)).
  change (2 ^ 32) with 4294967296 in *. lia.
Qed.

(** The five tests of [sFct_sntp_HandlingResponse] as one condition. *)
Lemma HandlingResponse_checks (m : Memory) :
  let c := client m in
  let failed :=
    (payloadLen c <? Wire.sizeof_x_sntp_request)
    || (Wire.vn (payload c) =? 0)
    || (Wire.val (payload c) Wire.off_transmitTimestamp =? 0)
    || (negb (Wire.mode (payload c) =? specNTP_MODE_SERVER)
        && negb (Wire.mode (payload c) =? specNTP_MODE_BROADCAST))
    || (negb (Wire.seconds (payload c) Wire.off_originateTimestamp =? 0)
        || negb (Wire.fraction (payload c) Wire.off_originateTimestamp
                 =? exlibSLNETUTIL_NTOHL (expected_orig_ts c))) in
  (failed = false <-> passes_checks c)
  /\ sFct_sntp_HandlingResponse m
     = if failed then (SNTPEX_ERR_INVALID_MESSAGE, m)
       else
         let m1 := set_client m (set_kissCode c 0) in
         if Wire.stratum (payload c) =? 0
         then (SNTPEX_ERR_REQUEST_REJECTED,
               set_client m1 (set_kissCode (client m1)
                                (exlibSLNETUTIL_NTOHL
                                   (Wire.referenceId (payload c)))))
         else
           let m2 := set_ts m1 (export_timestamps (payload c) (ts m1)) in
           (SNTPEX_SUCCESS,
            set_client m2 (set_state (client m2) UD_SNTP_CLIENT_STATE_COMPLETE)).
Proof.
  cbv zeta. split.
  - unfold passes_checks. cbv zeta.
    rewrite !orb_false_iff, andb_false_iff, !negb_false_iff.
    rewrite Z.ltb_ge, !Z.eqb_neq, !Z.eqb_eq.
    unfold Wire.val, Wire.seconds, Wire.fraction, exlibSLNETUTIL_NTOHL.
    rewrite load64_zero_iff, load32_zero_iff, raw_eq_ntohl_iff.
    tauto.
  - unfold sFct_sntp_HandlingResponse.
    destruct (payloadLen (client m) <? Wire.sizeof_x_sntp_request);
      [reflexivity|].
    destruct (Wire.vn (payload (client m)) =? 0); [reflexivity|].
    destruct (Wire.val (payload (client m)) Wire.off_transmitTimestamp =? 0);
      [reflexivity|].
    cbn [orb].
    destruct (negb (Wire.mode (payload (client m)) =? specNTP_MODE_SERVER)
              && negb (Wire.mode (payload (client m)) =? specNTP_MODE_BROADCAST));
      reflexivity.
Qed.

(** X4: response handling returns [SNTPEX_ERR_INVALID_MESSAGE] exactly
    when one of the five checks fails (length below 48, version 0, the two
    halves of the transmit timestamp both zero, a mode other than 4 and 5,
    an originate timestamp that is not zero seconds and the nonce) and then
    leaves the whole memory as it was; on a reply that passes, it returns
    [SNTPEX_ERR_REQUEST_REJECTED] for stratum 0 and [SNTPEX_SUCCESS]
    otherwise.  It never calls the transport or the time source. *)
Theorem response_validation (m : Memory) :
  let r := sFct_sntp_HandlingResponse m in
  let c := client m in
  (fst r <> SNTPEX_ERR_INVALID_MESSAGE <-> passes_checks c)
  /\ (fst r = SNTPEX_ERR_INVALID_MESSAGE -> snd r = m)
  /\ (fst r = SNTPEX_ERR_REQUEST_REJECTED <->
      passes_checks c /\ Wire.stratum (payload c) = 0)
  /\ (fst r = SNTPEX_SUCCESS <->
      passes_checks c /\ Wire.stratum (payload c) <> 0)
  /\ world (snd r) = world m
  /\ xsntpAsynchEvent (snd r) = xsntpAsynchEvent m.
Proof.
  cbv zeta. destruct (HandlingResponse_checks m) as (Hiff & ->).
  cbv zeta in Hiff.
  set (P := passes_checks (client m)) in *. clearbody P.
  match type of Hiff with (?f = false <-> _) => destruct f end.
  - assert (Hn : ~ P) by (intros X; apply Hiff in X; discriminate X).
    cbn [fst snd].
    repeat match goal with |- _ /\ _ => split end;
      try reflexivity; intuition (try discriminate; try congruence).
  - assert (Hp : P) by (apply Hiff; reflexivity).
    destruct (Wire.stratum (payload (client m)) =? 0) eqn:Es;
      [apply Z.eqb_eq in Es | apply Z.eqb_neq in Es];
      cbn [fst snd];
      repeat match goal with |- _ /\ _ => split end;
      try (destruct m; reflexivity);
      intuition (try discriminate; try congruence).
Qed.

(** X5: the request just built is never taken for a reply: with it in the
    buffer, response handling returns [SNTPEX_ERR_INVALID_MESSAGE]. *)
Theorem own_request_is_refused (m : Memory) :
  (48 <= length (payload (client m)))%nat ->
  fst (sFct_sntp_HandlingResponse (snd (prv_utility_build_request m)))
  = SNTPEX_ERR_INVALID_MESSAGE.
Proof.
  intros Hlen.
  set (m1 := snd (prv_utility_build_request m)).
  assert (Hmode : Wire.mode (payload (client m1)) = specNTP_MODE_CLIENT).
  { subst m1. rewrite build_request_bytes by exact Hlen.
    vm_compute. reflexivity. }
  destruct (HandlingResponse_checks m1) as (Hiff & ->). cbv zeta in Hiff.
  match type of Hiff with (?f = false <-> _) => destruct f end;
    [reflexivity|].
  exfalso. destruct (proj1 Hiff eq_refl) as (_ & _ & _ & [X|X] & _);
    rewrite Hmode in X; discriminate X.
Qed.

Lemma own_request_is_refused_witness :
  (48 <= length (payload (client Scenario.m0)))%nat
  /\ fst (sFct_sntp_HandlingResponse
            (snd (prv_utility_build_request Scenario.m0)))
     = SNTPEX_ERR_INVALID_MESSAGE.
Proof.
  assert (Hlen : (48 <= length (payload (client Scenario.m0)))%nat)
    by (apply Nat.leb_le; vm_compute; reflexivity).
  split; [exact Hlen|exact (own_request_is_refused Scenario.m0 Hlen)].
Defined.

Lemma export_timestamps_decoded (p : buffer) (x : xTimestampCtx_t) :
  export_timestamps p x = decoded_record p x.
Proof.
  unfold export_timestamps, decoded_record, exlibSLNETUTIL_NTOHL,
    Wire.seconds, Wire.fraction, Wire.off_referenceTimestamp,
    Wire.off_receiveTimestamp, Wire.off_transmitTimestamp.
  rewrite !ntohl_load32. reflexivity.
Qed.

(** X6: when response handling accepts a reply, the record holds the
    reference, receive and transmit timestamps of the reply read
    big-endian, the receive and transmit times converted to the epoch, and
    its former originate timestamp, T1 and T4; the handle is in
    [Complete] with the Kiss code 0 and the buffer unchanged. *)
Theorem accepted_reply_is_decoded (m : Memory) :
  let r := sFct_sntp_HandlingResponse m in
  fst r = SNTPEX_SUCCESS ->
  ts (snd r) = decoded_record (payload (client m)) (ts m)
  /\ state (client (snd r)) = UD_SNTP_CLIENT_STATE_COMPLETE
  /\ kissCode (client (snd r)) = 0
  /\ payload (client (snd r)) = payload (client m)
  /\ sock (client (snd r)) = sock (client m).
Proof.
  cbv zeta. intros Hr.
  destruct (sFct_sntp_HandlingResponse m) as [rc m'] eqn:E.
  cbn [fst snd] in *. subst rc.
  apply HandlingResponse_spec in E. cbv zeta in E.
  destruct E as (_ & _ & [(X & _)|[(X & _)|(_ & _ & T & Hc)]]);
    try discriminate X.
  rewrite T, Hc, export_timestamps_decoded. repeat split.
Qed.

Lemma accepted_reply_is_decoded_witness :
  let r := sFct_sntp_HandlingResponse MoreScenarios.m_good_reply in
  fst r = SNTPEX_SUCCESS
  /\ receiveTimestamp (ts (snd r)) = mkNtp 3913056000 (2 ^ 31)
  /\ receive64_ts (ts (snd r)) = 1704067200500000
  /\ transmit64_ts (ts (snd r)) = 1704067200750000.
Proof.
  cbv zeta.
  assert (Hr : fst (sFct_sntp_HandlingResponse MoreScenarios.m_good_reply)
               = SNTPEX_SUCCESS) by (vm_compute; reflexivity).
  pose proof (accepted_reply_is_decoded MoreScenarios.m_good_reply Hr)
    as (T & _).
  split; [exact Hr|]. rewrite T.
  repeat split; vm_compute; reflexivity.
Defined.

(* ================================================================== *)
(** * The polling loops and the deadline *)
(* ================================================================== *)

Lemma drain_event_counters v bit (m : Memory) :
  n_tick (world (drain_event v bit m)) = n_tick (world m).
Proof.
  unfold drain_event. destruct m as [c x e pg w]; simpl.
  destruct (event_cb e); reflexivity.
Qed.

Lemma isr_counters (m : Memory) :
  let m' := snd (sntpex_eventTriggingFromISR m) in
  n_tick (world m') = n_tick (world m).
Proof.
  cbv zeta. unfold sntpex_eventTriggingFromISR.
  destruct (pg_vtable_api m) as [v|]; [|reflexivity].
  destruct (SR (xsntpAsynchEvent m) =? 0); [reflexivity|].
  destruct (logical_and (SR (xsntpAsynchEvent m)) exlibSNTP_SOFTSR_RECV_BIT);
    [apply drain_event_counters|].
  destruct (logical_and (SR (xsntpAsynchEvent m)) exlibSNTP_SOFTSR_SEND_BIT);
    [apply drain_event_counters|reflexivity].
Qed.

Lemma spawn_task_counters (b : bool) (m : Memory) :
  n_tick (world (spawn_task b m)) = n_tick (world m).
Proof. destruct b; [apply isr_counters|reflexivity]. Qed.

Section Polling.

Variable net : Transport.

Lemma net_sendTo_call (m : Memory) :
  let r := net_sendTo net m in
  fst r = s32 (send_code (SlNetSock_sendTo net (n_send (world m))))
  /\ client (snd r) = client m
  /\ n_tick (world (snd r)) = n_tick (world m)
  /\ n_send (world (snd r)) = S (n_send (world m)).
Proof.
  cbv zeta. unfold net_sendTo. cbn [fst snd].
  rewrite spawn_task_counters.
  match goal with |- context [spawn_task ?b ?x] =>
    destruct (spawn_task_frame b x) as (Hc & _ & _ & (_ & _ & _ & W4)) end.
  rewrite Hc, W4. destruct m; repeat split.
Qed.

Lemma net_recvFrom_call (m : Memory) :
  let r := net_recvFrom net m in
  fst r = s32 (recv_code (SlNetSock_recvFrom net (n_recv (world m))))
  /\ vtable_api (client (snd r)) = vtable_api (client m)
  /\ timeout (client (snd r)) = timeout (client m)
  /\ n_tick (world (snd r)) = n_tick (world m)
  /\ n_recv (world (snd r)) = S (n_recv (world m)).
Proof.
  cbv zeta.
  destruct (net_recvFrom_frame net m) as (Hc & _ & _ & _ & Hn & Hr).
  unfold same_but_payload in Hc.
  split; [exact Hr|]. split; [rewrite Hc; reflexivity|].
  split; [rewrite Hc; reflexivity|]. split; [|exact Hn].
  unfold net_recvFrom. cbn [snd]. rewrite spawn_task_counters.
  destruct (0 <? _); destruct m; reflexivity.
Qed.

(** A polling loop that ends on would-block has read, last, a tick at
    which the time elapsed since the start tick has reached the timeout. *)
Lemma send_poll_deadline fuel : forall start m rc m',
  send_poll net fuel start m = Some (rc, m') ->
  rc = SLNETERR_BSD_EAGAIN ->
  exists k, n_tick (world m') = S k /\ (n_tick (world m) <= k)%nat
    /\ timeout (client m)
       <= u32 (u32 (get_os_tick (vtable_api (client m)) k) - start).
Proof.
  induction fuel as [|fuel IH]; intros start m rc m' H Hrc; [discriminate|].
  cbn [send_poll] in H.
  destruct (net_sendTo_call m) as (_ & C1 & T1 & _).
  destruct (net_sendTo net m) as [rc1 m1]. cbn [fst snd] in *.
  destruct (rc1 =? SLNETERR_BSD_EAGAIN) eqn:E1.
  - unfold Env.os_tick in H.
    match type of H with context [if ?b then _ else _] =>
      destruct b eqn:Eb end.
    + apply IH in H; [|exact Hrc]. destruct H as (k & K1 & K2 & K3).
      cbn [set_world world client Env.bump_tick n_tick] in K1, K2, K3.
      rewrite C1 in K3. rewrite T1 in K2.
      exists k. repeat split; [exact K1|lia|exact K3].
    + inversion H; subst. cbn [set_world world client Env.bump_tick n_tick] in *.
      exists (n_tick (world m1)). rewrite C1 in *. repeat split; [lia|].
      apply Z.ltb_ge in Eb. rewrite T1 in Eb. rewrite T1. exact Eb.
  - inversion H; subst. apply Z.eqb_neq in E1. contradiction.
Qed.

Lemma recv_poll_deadline fuel : forall start m rc m',
  recv_poll net fuel start m = Some (rc, m') ->
  rc = SLNETERR_BSD_EAGAIN ->
  exists k, n_tick (world m') = S k /\ (n_tick (world m) <= k)%nat
    /\ timeout (client m)
       <= u32 (u32 (get_os_tick (vtable_api (client m)) k) - start).
Proof.
  induction fuel as [|fuel IH]; intros start m rc m' H Hrc; [discriminate|].
  cbn [recv_poll] in H.
  destruct (net_recvFrom_call m) as (_ & V1 & C1 & T1 & _).
  destruct (net_recvFrom net m) as [rc1 m1]. cbn [fst snd] in *.
  destruct (rc1 =? SLNETERR_BSD_EAGAIN) eqn:E1.
  - unfold Env.os_tick in H.
    match type of H with context [if ?b then _ else _] =>
      destruct b eqn:Eb end.
    + apply IH in H; [|exact Hrc]. destruct H as (k & K1 & K2 & K3).
      cbn [set_world world client Env.bump_tick n_tick] in K1, K2, K3.
      rewrite V1, C1 in K3. rewrite T1 in K2.
      exists k. repeat split; [exact K1|lia|exact K3].
    + inversion H; subst. cbn [set_world world client Env.bump_tick n_tick] in *.
      exists (n_tick (world m1)). rewrite V1, C1 in *. repeat split; [lia|].
      apply Z.ltb_ge in Eb. rewrite T1 in Eb. rewrite T1. exact Eb.
  - inversion H; subst. apply Z.eqb_neq in E1. contradiction.
Qed.

(** X7: [Sending] never reports a timeout early: when it returns
    [SNTPEX_ERR_TIMEOUT], the last tick it read is at least the configured
    timeout past the tick it read before its first transmission, in 32-bit
    tick arithmetic. *)
Theorem sending_never_times_out_early fuel m m' :
  sFct_sntp_SendRequest net fuel m = Some (SNTPEX_ERR_TIMEOUT, m') ->
  let v := vtable_api (client m) in
  let start := u32 (get_os_tick v (S (n_tick (world m)))) in
  exists k, n_tick (world m') = S k /\ (n_tick (world m) + 2 <= k)%nat
    /\ timeout (client m) <= u32 (u32 (get_os_tick v k) - start).
Proof.
  intros H. cbv zeta. unfold sFct_sntp_SendRequest in H.
  destruct (sock (client m)) as [s|] eqn:Es; [|discriminate].
  pose proof (build_request_spec m) as B. cbv zeta in B.
  destruct (prv_utility_build_request m) as [r1 m1]. cbn [fst snd] in B.
  destruct B as (_ & B1 & B2 & B3 & B4 & B5).
  unfold Env.unix_timestamp, Env.os_tick in H.
  match type of H with context [send_poll net fuel ?st ?m4] =>
    destruct (send_poll net fuel st m4) as [[rc5 m5]|] eqn:Ep;
      [|discriminate]
  end.
  destruct (SLNETERR_BSD_EAGAIN =? rc5) eqn:E5.
  - apply Z.eqb_eq in E5. inversion H; subst m'.
    apply send_poll_deadline in Ep; [|congruence].
    destruct Ep as (k & K1 & K2 & K3).
    cbn [set_world set_ts world client Env.bump_tick Env.bump_unix n_tick]
      in K1, K2, K3.
    rewrite B4 in K2, K3. cbn [Env.bump_tick n_tick] in K2, K3.
    rewrite B5 in K3. cbn [vtable_api timeout] in K3.
    exists k. repeat split; [exact K1|lia|exact K3].
  - destruct ((rc5 <? 0) || negb (rc5 =? payloadLen (client m5)));
      inversion H.
Qed.

(** X8: [Receiving] never reports a timeout early either: when it returns
    [SNTPEX_ERR_TIMEOUT], the last tick it read is at least the configured
    timeout past the tick it read before its first read. *)
Theorem receiving_never_times_out_early fuel m m' :
  sFct_sntp_ReceiveResponse net fuel m = Some (SNTPEX_ERR_TIMEOUT, m') ->
  let v := vtable_api (client m) in
  let start := u32 (get_os_tick v (n_tick (world m))) in
  exists k, n_tick (world m') = S k /\ (n_tick (world m) + 1 <= k)%nat
    /\ timeout (client m) <= u32 (u32 (get_os_tick v k) - start).
Proof.
  intros H. cbv zeta. unfold sFct_sntp_ReceiveResponse in H.
  destruct (sock (client m)) as [s|] eqn:Es; [|discriminate].
  unfold Env.os_tick, prv_utility_register_event in H.
  match type of H with context [recv_poll net fuel ?st ?m2] =>
    destruct (recv_poll net fuel st m2) as [[rc3 m3]|] eqn:Ep;
      [|discriminate]
  end.
  destruct (SLNETERR_BSD_EAGAIN =? rc3) eqn:E3.
  - apply Z.eqb_eq in E3. inversion H; subst m'.
    apply recv_poll_deadline in Ep; [|congruence].
    destruct Ep as (k & K1 & K2 & K3).
    cbn [set_world set_event world client Env.bump_tick n_tick] in K1, K2, K3.
    exists k. repeat split; [exact K1|lia|exact K3].
  - destruct (rc3 <? 0); [inversion H|].
    destruct (negb (rc3 =? payloadLen (client m3))); [inversion H|].
    destruct (timestamp (xsntpAsynchEvent m3) =? 0); inversion H.
Qed.

(** When every call would block until the deadline, the loop ends with
    would-block once the deadline is read, given fuel for its rounds. *)
Lemma send_poll_blocks (j : nat) : forall fuel start m,
  (forall i, (i <= j)%nat ->
     s32 (send_code (SlNetSock_sendTo net (n_send (world m) + i)))
     = SLNETERR_BSD_EAGAIN) ->
  timeout (client m)
  <= u32 (u32 (get_os_tick (vtable_api (client m)) (n_tick (world m) + j))
          - start) ->
  (j < fuel)%nat ->
  exists m', send_poll net fuel start m = Some (SLNETERR_BSD_EAGAIN, m')
             /\ (n_send (world m') <= n_send (world m) + j + 1)%nat
             /\ client m' = client m.
Proof.
  induction j as [|j IH]; intros fuel start m Hb Hd Hf;
    (destruct fuel as [|fuel]; [lia|]); cbn [send_poll];
    destruct (net_sendTo_call m) as (R1 & C1 & T1 & N1);
    destruct (net_sendTo net m) as [rc1 m1]; cbn [fst snd] in *;
    pose proof (Hb 0%nat ltac:(lia)) as H0; rewrite Nat.add_0_r in H0;
    rewrite <- R1 in H0; clear R1; subst rc1; rewrite Z.eqb_refl;
    unfold Env.os_tick;
    match goal with |- context [if ?b then _ else _] =>
      destruct b eqn:Eb end.
  - exfalso. apply Z.ltb_lt in Eb.
    cbn [set_world client] in Eb. rewrite C1, T1 in Eb.
    rewrite Nat.add_0_r in Hd. lia.
  - eexists. split; [reflexivity|]. cbn [set_world world client Env.bump_tick n_send].
    split; [lia|exact C1].
  - destruct (IH fuel start (set_world m1 (Env.bump_tick (world m1))))
      as (m' & E & N & C).
    + intros i Hi. cbn [set_world world Env.bump_tick n_send].
      rewrite N1. replace (S (n_send (world m)) + i)%nat
        with (n_send (world m) + S i)%nat by lia.
      apply Hb. lia.
    + cbn [set_world world client Env.bump_tick n_tick]. rewrite C1, T1.
      replace (S (n_tick (world m)) + j)%nat
        with (n_tick (world m) + S j)%nat by lia.
      exact Hd.
    + lia.
    + exists m'. split; [exact E|].
      cbn [set_world world client Env.bump_tick n_send] in N, C.
      split; [lia|congruence].
  - eexists. split; [reflexivity|]. cbn [set_world world client Env.bump_tick n_send].
    split; [lia|exact C1].
Qed.

Lemma recv_poll_blocks (j : nat) : forall fuel start m,
  (forall i, (i <= j)%nat ->
     s32 (recv_code (SlNetSock_recvFrom net (n_recv (world m) + i)))
     = SLNETERR_BSD_EAGAIN) ->
  timeout (client m)
  <= u32 (u32 (get_os_tick (vtable_api (client m)) (n_tick (world m) + j))
          - start) ->
  (j < fuel)%nat ->
  exists m', recv_poll net fuel start m = Some (SLNETERR_BSD_EAGAIN, m')
             /\ (n_recv (world m') <= n_recv (world m) + j + 1)%nat.
Proof.
  induction j as [|j IH]; intros fuel start m Hb Hd Hf;
    (destruct fuel as [|fuel]; [lia|]); cbn [recv_poll];
    destruct (net_recvFrom_call m) as (R1 & V1 & C1 & T1 & N1);
    destruct (net_recvFrom net m) as [rc1 m1]; cbn [fst snd] in *;
    pose proof (Hb 0%nat ltac:(lia)) as H0; rewrite Nat.add_0_r in H0;
    rewrite <- R1 in H0; clear R1; subst rc1; rewrite Z.eqb_refl;
    unfold Env.os_tick;
    match goal with |- context [if ?b then _ else _] =>
      destruct b eqn:Eb end.
  - exfalso. apply Z.ltb_lt in Eb.
    cbn [set_world client] in Eb. rewrite V1, C1, T1 in Eb.
    rewrite Nat.add_0_r in Hd. lia.
  - eexists. split; [reflexivity|]. cbn [set_world world Env.bump_tick n_recv].
    lia.
  - destruct (IH fuel start (set_world m1 (Env.bump_tick (world m1))))
      as (m' & E & N).
    + intros i Hi. cbn [set_world world Env.bump_tick n_recv].
      rewrite N1. replace (S (n_recv (world m)) + i)%nat
        with (n_recv (world m) + S i)%nat by lia.
      apply Hb. lia.
    + cbn [set_world world client Env.bump_tick n_tick]. rewrite V1, C1, T1.
      replace (S (n_tick (world m)) + j)%nat
        with (n_tick (world m) + S j)%nat by lia.
      exact Hd.
    + lia.
    + exists m'. split; [exact E|].
      cbn [set_world world Env.bump_tick n_recv] in N. lia.
  - eexists. split; [reflexivity|]. cbn [set_world world Env.bump_tick n_recv].
    lia.
Qed.

(** X9: if no reply arrives, [Receiving] gives up: when the reads would
    block up to the [j]-th one after which the tick read has reached the
    timeout, the handler returns [SNTPEX_ERR_TIMEOUT] after at most
    [j + 1] reads. *)
Theorem receiving_times_out (fuel j : nat) (m : Memory) :
  sock (client m) <> None ->
  (forall i, (i <= j)%nat ->
     s32 (recv_code (SlNetSock_recvFrom net (n_recv (world m) + i)))
     = SLNETERR_BSD_EAGAIN) ->
  (let v := vtable_api (client m) in
   timeout (client m)
   <= u32 (u32 (get_os_tick v (n_tick (world m) + 1 + j))
           - u32 (get_os_tick v (n_tick (world m))))) ->
  (j < fuel)%nat ->
  exists m',
    sFct_sntp_ReceiveResponse net fuel m = Some (SNTPEX_ERR_TIMEOUT, m')
    /\ (n_recv (world m') <= n_recv (world m) + j + 1)%nat.
Proof.
  intros Hs Hb Hd Hf. cbv zeta in Hd. unfold sFct_sntp_ReceiveResponse.
  destruct (sock (client m)) as [s|]; [|congruence].
  unfold Env.os_tick, prv_utility_register_event.
  match goal with |- context [recv_poll net fuel ?st ?m2] =>
    destruct (recv_poll_blocks j fuel st m2) as (m' & E & N)
  end.
  - intros i Hi. cbn [set_world set_event world Env.bump_tick n_recv].
    apply Hb. exact Hi.
  - cbn [set_world set_event world client Env.bump_tick n_tick].
    replace (S (n_tick (world m)) + j)%nat
      with (n_tick (world m) + 1 + j)%nat by lia.
    exact Hd.
  - exact Hf.
  - rewrite E. cbn [Z.eqb Pos.eqb]. exists m'. split; [reflexivity|].
    cbn [set_world set_event world Env.bump_tick n_recv] in N. exact N.
Qed.

(** X10: if the transport never takes the request, [Sending] gives up in
    the same way and returns [SNTPEX_ERR_TIMEOUT]. *)
Theorem sending_times_out (fuel j : nat) (m : Memory) :
  sock (client m) <> None ->
  (forall i, (i <= j)%nat ->
     s32 (send_code (SlNetSock_sendTo net (n_send (world m) + i)))
     = SLNETERR_BSD_EAGAIN) ->
  (let v := vtable_api (client m) in
   timeout (client m)
   <= u32 (u32 (get_os_tick v (n_tick (world m) + 2 + j))
           - u32 (get_os_tick v (S (n_tick (world m)))))) ->
  (j < fuel)%nat ->
  exists m',
    sFct_sntp_SendRequest net fuel m = Some (SNTPEX_ERR_TIMEOUT, m')
    /\ (n_send (world m') <= n_send (world m) + j + 1)%nat.
Proof.
  intros Hs Hb Hd Hf. cbv zeta in Hd. unfold sFct_sntp_SendRequest.
  destruct (sock (client m)) as [s|]; [|congruence].
  pose proof (build_request_spec m) as B. cbv zeta in B.
  destruct (prv_utility_build_request m) as [r1 m1]. cbn [fst snd] in B.
  destruct B as (_ & B1 & B2 & B3 & B4 & B5).
  unfold Env.unix_timestamp, Env.os_tick.
  match goal with |- context [send_poll net fuel ?st ?m4] =>
    destruct (send_poll_blocks j fuel st m4) as (m' & E & N & C)
  end.
  - intros i Hi.
    cbn [set_world set_ts world Env.bump_tick Env.bump_unix n_send].
    rewrite B4. cbn [Env.bump_tick n_send]. apply Hb. exact Hi.
  - cbn [set_world set_ts world client Env.bump_tick Env.bump_unix n_tick].
    rewrite B4. cbn [Env.bump_tick n_tick]. rewrite B5.
    cbn [vtable_api timeout].
    replace (S (S (n_tick (world m))) + j)%nat
      with (n_tick (world m) + 2 + j)%nat by lia.
    exact Hd.
  - exact Hf.
  - rewrite E. cbn [Z.eqb Pos.eqb]. exists m'. split; [reflexivity|].
    cbn [set_world set_ts world Env.bump_tick Env.bump_unix n_send] in N.
    rewrite B4 in N. cbn [Env.bump_tick n_send] in N. exact N.
Qed.

(** With a tick that does not advance, a loop that is told to wait never
    reaches its deadline. *)
Lemma send_poll_spins (T : Z) (fuel : nat) : forall start m,
  (forall n, s32 (send_code (SlNetSock_sendTo net n)) = SLNETERR_BSD_EAGAIN) ->
  (forall n, u32 (get_os_tick (vtable_api (client m)) n) = T) ->
  u32 (T - start) < timeout (client m) ->
  send_poll net fuel start m = None.
Proof.
  induction fuel as [|fuel IH]; intros start m Hb Ht Hd; [reflexivity|].
  cbn [send_poll].
  destruct (net_sendTo_call m) as (R1 & C1 & _ & _).
  destruct (net_sendTo net m) as [rc1 m1]. cbn [fst snd] in *.
  rewrite R1, Hb, Z.eqb_refl. unfold Env.os_tick.
  cbn [set_world client]. rewrite C1, Ht.
  apply Z.ltb_lt in Hd. rewrite Hd.
  apply IH; [exact Hb| |apply Z.ltb_lt in Hd];
    cbn [set_world client]; rewrite C1; assumption.
Qed.

Lemma recv_poll_spins (T : Z) (fuel : nat) : forall start m,
  (forall n,
     s32 (recv_code (SlNetSock_recvFrom net n)) = SLNETERR_BSD_EAGAIN) ->
  (forall n, u32 (get_os_tick (vtable_api (client m)) n) = T) ->
  u32 (T - start) < timeout (client m) ->
  recv_poll net fuel start m = None.
Proof.
  induction fuel as [|fuel IH]; intros start m Hb Ht Hd; [reflexivity|].
  cbn [recv_poll].
  destruct (net_recvFrom_call m) as (R1 & V1 & C1 & _ & _).
  destruct (net_recvFrom net m) as [rc1 m1]. cbn [fst snd] in *.
  rewrite R1, Hb, Z.eqb_refl. unfold Env.os_tick.
  cbn [set_world client]. rewrite V1, C1, Ht.
  apply Z.ltb_lt in Hd. rewrite Hd.
  apply IH; [exact Hb| |apply Z.ltb_lt in Hd];
    cbn [set_world client]; rewrite ?V1, ?C1; assumption.
Qed.

(** X11: the timeouts rely on the tick.  With a time source whose tick
    does not advance and a timeout above zero, [Receiving] never returns
    while the reads would block, and [Sending] never returns while the
    transmissions would block: no number of rounds ends the polling. *)
Theorem stuck_tick_polls_forever (fuel : nat) (m : Memory) (T : Z) :
  sock (client m) <> None ->
  (forall n, u32 (get_os_tick (vtable_api (client m)) n) = T) ->
  0 < timeout (client m) ->
  ((forall n,
      s32 (recv_code (SlNetSock_recvFrom net n)) = SLNETERR_BSD_EAGAIN) ->
   sFct_sntp_ReceiveResponse net fuel m = None)
  /\ ((forall n,
         s32 (send_code (SlNetSock_sendTo net n)) = SLNETERR_BSD_EAGAIN) ->
      sFct_sntp_SendRequest net fuel m = None).
Proof.
  intros Hs Ht H0.
  assert (Hz : u32 (T - T) < timeout (client m)).
  { rewrite Z.sub_diag. exact H0. }
  split; intros Hb.
  - unfold sFct_sntp_ReceiveResponse.
    destruct (sock (client m)) as [s|]; [|congruence].
    unfold Env.os_tick, prv_utility_register_event.
    cbn [set_event client]. rewrite Ht.
    rewrite (recv_poll_spins T); [reflexivity|exact Hb| |];
      cbn [set_world set_event client]; assumption.
  - unfold sFct_sntp_SendRequest.
    destruct (sock (client m)) as [s|]; [|congruence].
    pose proof (build_request_spec m) as B. cbv zeta in B.
    destruct (prv_utility_build_request m) as [r1 m1]. cbn [fst snd] in B.
    destruct B as (_ & _ & _ & _ & _ & B5).
    unfold Env.unix_timestamp, Env.os_tick.
    cbn [set_world set_ts client]. rewrite B5. cbn [vtable_api].
    rewrite Ht.
    rewrite (send_poll_spins T); [reflexivity|exact Hb| |];
      cbn [set_world set_ts client]; rewrite B5; cbn [vtable_api timeout];
      assumption.
Qed.

End Polling.

Module PollRuns.
Import Scenario MoreScenarios.

Lemma silent_send :
  option_map fst (sFct_sntp_SendRequest silent_net 10 m_short)
  = Some SNTPEX_ERR_TIMEOUT.
Proof. vm_compute. reflexivity. Qed.

Lemma silent_recv :
  option_map fst (sFct_sntp_ReceiveResponse silent_net 10 m_short)
  = Some SNTPEX_ERR_TIMEOUT.
Proof. vm_compute. reflexivity. Qed.

End PollRuns.

Lemma sending_never_times_out_early_witness :
  exists m',
    sFct_sntp_SendRequest MoreScenarios.silent_net 10 MoreScenarios.m_short
    = Some (SNTPEX_ERR_TIMEOUT, m')
    /\ exists k, n_tick (world m') = S k
         /\ (n_tick (world MoreScenarios.m_short) + 2 <= k)%nat
         /\ timeout (client MoreScenarios.m_short)
            <= u32 (u32 (get_os_tick
                           (vtable_api (client MoreScenarios.m_short)) k)
                    - u32 (get_os_tick
                             (vtable_api (client MoreScenarios.m_short))
                             (S (n_tick (world MoreScenarios.m_short))))).
Proof.
  pose proof PollRuns.silent_send as R.
  destruct (sFct_sntp_SendRequest MoreScenarios.silent_net 10
              MoreScenarios.m_short) as [[rc m']|] eqn:E; [|discriminate R].
  cbn [option_map fst] in R. injection R as R. subst rc.
  exists m'. split; [reflexivity|].
  exact (sending_never_times_out_early MoreScenarios.silent_net 10
           MoreScenarios.m_short m' E).
Defined.

Lemma receiving_never_times_out_early_witness :
  exists m',
    sFct_sntp_ReceiveResponse MoreScenarios.silent_net 10 MoreScenarios.m_short
    = Some (SNTPEX_ERR_TIMEOUT, m')
    /\ exists k, n_tick (world m') = S k
         /\ (n_tick (world MoreScenarios.m_short) + 1 <= k)%nat
         /\ timeout (client MoreScenarios.m_short)
            <= u32 (u32 (get_os_tick
                           (vtable_api (client MoreScenarios.m_short)) k)
                    - u32 (get_os_tick
                             (vtable_api (client MoreScenarios.m_short))
                             (n_tick (world MoreScenarios.m_short)))).
Proof.
  pose proof PollRuns.silent_recv as R.
  destruct (sFct_sntp_ReceiveResponse MoreScenarios.silent_net 10
              MoreScenarios.m_short) as [[rc m']|] eqn:E; [|discriminate R].
  cbn [option_map fst] in R. injection R as R. subst rc.
  exists m'. split; [reflexivity|].
  exact (receiving_never_times_out_early MoreScenarios.silent_net 10
           MoreScenarios.m_short m' E).
Defined.

Lemma receiving_times_out_witness :
  exists m',
    sFct_sntp_ReceiveResponse MoreScenarios.silent_net 10 MoreScenarios.m_short
    = Some (SNTPEX_ERR_TIMEOUT, m')
    /\ (n_recv (world m')
        <= n_recv (world MoreScenarios.m_short) + 4 + 1)%nat.
Proof.
  apply (receiving_times_out MoreScenarios.silent_net 10 4
           MoreScenarios.m_short).
  - vm_compute. intro X. discriminate X.
  - intros i _. reflexivity.
  - vm_compute. intro X. discriminate X.
  - lia.
Defined.

Lemma sending_times_out_witness :
  exists m',
    sFct_sntp_SendRequest MoreScenarios.silent_net 10 MoreScenarios.m_short
    = Some (SNTPEX_ERR_TIMEOUT, m')
    /\ (n_send (world m')
        <= n_send (world MoreScenarios.m_short) + 4 + 1)%nat.
Proof.
  apply (sending_times_out MoreScenarios.silent_net 10 4
           MoreScenarios.m_short).
  - vm_compute. intro X. discriminate X.
  - intros i _. reflexivity.
  - vm_compute. intro X. discriminate X.
  - lia.
Defined.

Lemma stuck_tick_polls_forever_witness :
  sFct_sntp_ReceiveResponse MoreScenarios.silent_net 50 MoreScenarios.m_stuck
  = None
  /\ sFct_sntp_SendRequest MoreScenarios.silent_net 50 MoreScenarios.m_stuck
     = None.
Proof.
  destruct (stuck_tick_polls_forever MoreScenarios.silent_net 50
              MoreScenarios.m_stuck 0) as [Hr Hs].
  - vm_compute. intro X. discriminate X.
  - intros n. reflexivity.
  - reflexivity.
  - split; [apply Hr|apply Hs]; intros n; reflexivity.
Defined.

(* ================================================================== *)
(** * The configuration functions *)
(* ================================================================== *)

(** X12: [sntpex_SetClientTimeout] splits the milliseconds exactly: the
    seconds and microseconds stored in the socket add up to the timeout,
    the microseconds stay below one second (the normalisation of the
    source never applies), and nothing but the two timeouts changes. *)
Theorem client_timeout_split (t : Z) (m : Memory) :
  let r := sntpex_SetClientTimeout ADDR t m in
  fst r = SNTPEX_SUCCESS
  /\ timeout (client (snd r)) = u32 t
  /\ state (client (snd r)) = state (client m)
  /\ payload (client (snd r)) = payload (client m)
  /\ ts (snd r) = ts m
  /\ world (snd r) = world m
  /\ match sock (client m) with
     | None => sock (client (snd r)) = None
     | Some s =>
         exists s', sock (client (snd r)) = Some s'
           /\ tv_sec s' * 1000000 + tv_usec s' = u32 t * 1000
           /\ 0 <= tv_usec s' < 1000000
           /\ fd s' = fd s
           /\ sa_family s' = sa_family s
           /\ InAddLength s' = InAddLength s
     end.
Proof.
  cbv zeta. unfold sntpex_SetClientTimeout. cbn [sock].
  destruct (sock (client m)) as [s|] eqn:Es.
  - assert (Hd : (1000000 <=? u32 t mod 1000 * 1000) = false).
    { apply Z.leb_gt. pose proof (Z.mod_pos_bound (u32 t) 1000). lia. }
    rewrite Hd. unfold_setters. cbn. repeat split.
    eexists. split; [reflexivity|]. cbn.
    pose proof (Z.mod_pos_bound (u32 t) 1000).
    pose proof (Z.div_mod (u32 t) 1000). repeat split; lia.
  - unfold_setters. cbn. repeat split.
Qed.

Section AddressProperties.

Variable AF_INET AF_INET6 size4 size6 : Z.

(** X13: [sntpex_client_set_server_address] stores the family before it
    tests it.  With one of the two families the call succeeds, sets the
    address length and puts the state machine back to [OPEN]; with any
    other it fails with [SNTPEX_ERROR], and the socket keeps the refused
    family with the length and the state of before.  The descriptor is
    never touched. *)
Theorem server_address_outcomes (family : Z) (s : vsocket) (m : Memory) :
  sock (client m) = Some s ->
  exists rc m' s',
    sntpex_client_set_server_address AF_INET AF_INET6 size4 size6
      ADDR (Some family) m = Some (rc, m')
    /\ sock (client m') = Some s'
    /\ sa_family s' = family
    /\ fd s' = fd s
    /\ world m' = world m
    /\ (rc = SNTPEX_SUCCESS <-> family = AF_INET \/ family = AF_INET6)
    /\ (rc = SNTPEX_SUCCESS ->
        state (client m') = UD_SNTP_CLIENT_STATE_OPEN
        /\ InAddLength s' = (if family =? AF_INET then size4 else size6))
    /\ (rc <> SNTPEX_SUCCESS ->
        rc = SNTPEX_ERROR
        /\ state (client m') = state (client m)
        /\ InAddLength s' = InAddLength s).
Proof.
  intros Hs. unfold sntpex_client_set_server_address. rewrite Hs.
  destruct (family =? AF_INET) eqn:E4; [|destruct (family =? AF_INET6) eqn:E6].
  - apply Z.eqb_eq in E4.
    do 3 eexists. split; [reflexivity|]. unfold_setters. cbn.
    repeat split; auto; intros; congruence.
  - apply Z.eqb_eq in E6.
    do 3 eexists. split; [reflexivity|]. unfold_setters. cbn.
    repeat split; auto; intros; congruence.
  - apply Z.eqb_neq in E4. apply Z.eqb_neq in E6.
    do 3 eexists. split; [reflexivity|]. unfold_setters. cbn.
    repeat split; auto; try discriminate; intros; try congruence.
    destruct H; congruence.
Qed.

(** X14: [sntpex_dns_host_by_name_get] keeps only the low 16 bits of what
    the resolver returns.  For an IPv4 lookup it succeeds exactly when
    these bits are not all zero, so every negative code above -65536 is
    taken for an interface index; the address it then stores is the
    resolver's first word with its bytes reversed. *)
Theorem dns_outcomes (resolved : resolver_result) (Family : Z)
  (d : dns_output) :
  u8 Family = AF_INET ->
  exists rc d',
    sntpex_dns_host_by_name_get AF_INET AF_INET6 resolved ADDR ADDR Family d
    = Some (rc, d')
    /\ interface_index d' = resolver_code resolved mod 65536
    /\ (rc = SNTPEX_SUCCESS <-> resolver_code resolved mod 65536 <> 0)
    /\ (-65536 < resolver_code resolved < 0 -> rc = SNTPEX_SUCCESS)
    /\ (rc = SNTPEX_SUCCESS ->
        sin_family d' = AF_INET
        /\ exlibSLNETUTIL_HTONL (sin_addr d') = u32 (resolver_addr0 resolved))
    /\ (rc <> SNTPEX_SUCCESS ->
        rc = SNTPEX_ERR_DNS_RESOLVE
        /\ sin_family d' = sin_family d /\ sin_addr d' = sin_addr d).
Proof.
  intros Hf. unfold sntpex_dns_host_by_name_get. rewrite Hf, Z.eqb_refl.
  change (2 ^ 16) with 65536.
  pose proof (Z.mod_pos_bound (resolver_code resolved) 65536 ltac:(lia)) as Hb.
  destruct (0 <? resolver_code resolved mod 65536) eqn:E.
  - apply Z.ltb_lt in E. do 2 eexists. split; [reflexivity|]. cbn.
    repeat split; auto; try lia; try congruence.
    unfold exlibSLNETUTIL_HTONL. rewrite htonl_involutive.
    unfold u32. apply Z.mod_mod. discriminate.
  - apply Z.ltb_ge in E. do 2 eexists. split; [reflexivity|]. cbn.
    repeat split; auto; try discriminate; try lia.
    intros Hn. exfalso.
    assert (resolver_code resolved mod 65536 = 0) as Hz by lia.
    apply Z.mod_divide in Hz; [|lia]. destruct Hz as [q Hq]. lia.
Qed.

End AddressProperties.

(* ================================================================== *)
(** * The time of reception *)
(* ================================================================== *)

Lemma drain_event_stamp v bit m :
  timestamp (xsntpAsynchEvent (drain_event v bit m))
  = u64 (get_unix_timestamp v (n_unix (world m))).
Proof.
  unfold drain_event, Env.unix_timestamp, Env.invoke.
  destruct m as [c x e pg w]. cbn.
  destruct (event_cb e); reflexivity.
Qed.

(** With a time source that reads zero, a run of the hook, whenever it
    happens, leaves the event slot without a time. *)
Lemma isr_stamp m :
  clock_reads_zero (pg_vtable_api m) ->
  timestamp (xsntpAsynchEvent m) = 0 ->
  timestamp (xsntpAsynchEvent (snd (sntpex_eventTriggingFromISR m))) = 0.
Proof.
  intros Hz H0. unfold sntpex_eventTriggingFromISR.
  destruct (pg_vtable_api m) as [v|] eqn:Ev; [|exact H0].
  destruct (SR (xsntpAsynchEvent m) =? 0); [exact H0|].
  destruct (logical_and _ exlibSNTP_SOFTSR_RECV_BIT);
    [cbn [snd]; rewrite drain_event_stamp; apply (Hz v eq_refl)|].
  destruct (logical_and _ exlibSNTP_SOFTSR_SEND_BIT);
    [cbn [snd]; rewrite drain_event_stamp; apply (Hz v eq_refl)|].
  exact H0.
Qed.

Lemma spawn_task_stamp b m :
  clock_reads_zero (pg_vtable_api m) ->
  timestamp (xsntpAsynchEvent m) = 0 ->
  timestamp (xsntpAsynchEvent (spawn_task b m)) = 0.
Proof.
  intros Hz H0. destruct b; [|exact H0].
  unfold spawn_task. apply isr_stamp; assumption.
Qed.

Section Stamp.

Variable net : Transport.

Lemma net_sendTo_stamp m : stamp_kept m (snd (net_sendTo net m)).
Proof.
  unfold stamp_kept, net_sendTo. cbn [snd]. split.
  - match goal with |- context [spawn_task ?b ?x] =>
      destruct (spawn_task_frame b x) as (_ & _ & Hp & _) end.
    rewrite Hp. reflexivity.
  - intros Hz H0. apply spawn_task_stamp; assumption.
Qed.

Lemma net_recvFrom_stamp m : stamp_kept m (snd (net_recvFrom net m)).
Proof.
  unfold stamp_kept, net_recvFrom. cbn [snd]. split.
  - match goal with |- context [spawn_task ?b ?x] =>
      destruct (spawn_task_frame b x) as (_ & _ & Hp & _) end.
    rewrite Hp. destruct (0 <? _); reflexivity.
  - intros Hz H0. apply spawn_task_stamp; destruct (0 <? _); assumption.
Qed.

Lemma send_poll_stamp fuel : forall start m rc m',
  send_poll net fuel start m = Some (rc, m') -> stamp_kept m m'.
Proof.
  induction fuel as [|fuel IH]; intros start m rc m' H; [discriminate H|].
  cbn [send_poll] in H. pose proof (net_sendTo_stamp m) as K.
  destruct (net_sendTo net m) as [rc1 m1]. cbn [snd] in K.
  destruct K as [K1 K2].
  destruct (rc1 =? SLNETERR_BSD_EAGAIN).
  - unfold Env.os_tick in H.
    destruct (_ <? _).
    + apply IH in H. destruct H as [H1 H2].
      cbn [set_world pg_vtable_api xsntpAsynchEvent] in H1, H2.
      split; [congruence|]. intros Hn H0. apply H2; [rewrite K1; exact Hn|].
      apply K2; assumption.
    + inversion H; subst. split; [exact K1|exact K2].
  - inversion H; subst. split; [exact K1|exact K2].
Qed.

Lemma recv_poll_stamp fuel : forall start m rc m',
  recv_poll net fuel start m = Some (rc, m') -> stamp_kept m m'.
Proof.
  induction fuel as [|fuel IH]; intros start m rc m' H; [discriminate H|].
  cbn [recv_poll] in H. pose proof (net_recvFrom_stamp m) as K.
  destruct (net_recvFrom net m) as [rc1 m1]. cbn [snd] in K.
  destruct K as [K1 K2].
  destruct (rc1 =? SLNETERR_BSD_EAGAIN).
  - unfold Env.os_tick in H.
    destruct (_ <? _).
    + apply IH in H. destruct H as [H1 H2].
      cbn [set_world pg_vtable_api xsntpAsynchEvent] in H1, H2.
      split; [congruence|]. intros Hn H0. apply H2; [rewrite K1; exact Hn|].
      apply K2; assumption.
    + inversion H; subst. split; [exact K1|exact K2].
  - inversion H; subst. split; [exact K1|exact K2].
Qed.

Lemma OpenConnection_stamp m :
  stamp_kept m (snd (sFct_sntp_OpenConnection net m)).
Proof.
  unfold stamp_kept, sFct_sntp_OpenConnection, net_create, net_setOpt, Env.close.
  destruct (sock (client m)) as [s|]; [|cbn; auto].
  destruct (negb (fd s =? -1));
    cbn [fst snd]; destruct (_ <? 0); cbn [fst snd];
    try destruct (_ <? 0); cbn; auto.
Qed.

Lemma SendRequest_stamp fuel m rc m' :
  sFct_sntp_SendRequest net fuel m = Some (rc, m') -> stamp_kept m m'.
Proof.
  unfold sFct_sntp_SendRequest. intros H.
  destruct (sock (client m)) as [s|]; [|discriminate H].
  unfold prv_utility_build_request, Env.os_tick, Env.unix_timestamp in H.
  match type of H with context [send_poll net fuel ?st ?m4] =>
    destruct (send_poll net fuel st m4) as [[rc5 m5]|] eqn:E;
      [|discriminate H]
  end.
  apply send_poll_stamp in E. destruct E as [E1 E2].
  cbn [set_world set_ts set_client pg_vtable_api xsntpAsynchEvent] in E1, E2.
  destruct (SLNETERR_BSD_EAGAIN =? rc5);
    [|destruct ((rc5 <? 0) || negb (rc5 =? payloadLen (client m5)))];
    inversion H; subst; split; cbn; auto.
Qed.

(** With no time in the event slot and a time source that reads zero,
    [Receiving] refuses every datagram. *)
Lemma ReceiveResponse_stamp fuel m rc m' :
  sFct_sntp_ReceiveResponse net fuel m = Some (rc, m') ->
  clock_reads_zero (pg_vtable_api m) ->
  timestamp (xsntpAsynchEvent m) = 0 ->
  rc <> SNTPEX_SUCCESS.
Proof.
  unfold sFct_sntp_ReceiveResponse. intros H Hn H0.
  destruct (sock (client m)) as [s|]; [|discriminate H].
  unfold prv_utility_register_event, Env.os_tick in H.
  match type of H with context [recv_poll net fuel ?st ?m2] =>
    destruct (recv_poll net fuel st m2) as [[rc3 m3]|] eqn:E;
      [|discriminate H]
  end.
  apply recv_poll_stamp in E. destruct E as [E1 E2].
  cbn [set_world set_event pg_vtable_api xsntpAsynchEvent timestamp] in E1, E2.
  specialize (E2 Hn H0).
  destruct (SLNETERR_BSD_EAGAIN =? rc3); [inversion H; discriminate|].
  destruct (rc3 <? 0); [inversion H; discriminate|].
  destruct (negb (rc3 =? payloadLen (client m3))); [inversion H; discriminate|].
  rewrite E2 in H. cbn [Z.eqb] in H. inversion H; discriminate.
Qed.

(** X15: a call needs a clock that runs.  If the time source registered
    at initialisation always reads zero, as the one of the example
    application does, then a call entered with no time in the event slot
    and in state [OPEN] or [SENDING] never returns [SNTPEX_SUCCESS],
    whatever the server answers and whether or not the hook runs during
    the transport calls; and a run of the hook at any other moment leaves
    the event slot without a time as well. *)
Theorem zero_clock_never_succeeds fuel m rc m' :
  clock_reads_zero (pg_vtable_api m) ->
  timestamp (xsntpAsynchEvent m) = 0 ->
  state (client m) = UD_SNTP_CLIENT_STATE_OPEN
  \/ state (client m) = UD_SNTP_CLIENT_STATE_SENDING ->
  sntpex_client_timestamp_get net fuel ADDR ADDR m = Some (rc, m') ->
  rc <> SNTPEX_SUCCESS
  /\ forall m1,
      pg_vtable_api m1 = pg_vtable_api m ->
      timestamp (xsntpAsynchEvent m1) = 0 ->
      timestamp (xsntpAsynchEvent (snd (sntpex_eventTriggingFromISR m1))) = 0.
Proof.
  intros Hn H0 Hs H.
  split; [|intros m1 Hp H1; apply isr_stamp; [rewrite Hp; exact Hn|exact H1]].
  unfold sntpex_client_timestamp_get, Env.os_tick in H.
  match type of H with context [run_fsm net fuel ?m2] =>
    destruct (run_fsm net fuel m2) as [[rc3 m3]|] eqn:E; [|discriminate H];
    assert (R : rc3 <> SNTPEX_SUCCESS);
    [ refine (run_fsm_rule net
        (fun x => clock_reads_zero (pg_vtable_api x)
                  /\ timestamp (xsntpAsynchEvent x) = 0
                  /\ (state (client x) = UD_SNTP_CLIENT_STATE_OPEN
                      \/ state (client x) = UD_SNTP_CLIENT_STATE_SENDING
                      \/ state (client x) = UD_SNTP_CLIENT_STATE_RECEIVING))
        (fun r _ => r <> SNTPEX_SUCCESS) _ _ fuel m2 rc3 m3 _ E)
    | ]
  end.
  - intros x (_ & _ & Hx) Hc. rewrite Hc in Hx.
    destruct Hx as [Hx|[Hx|Hx]]; discriminate Hx.
  - intros f x r x' (Px1 & Px2 & Px3) _ Hx.
    destruct (is_success r) eqn:Er; [|apply is_success_false; exact Er].
    apply is_success_true in Er. subst r.
    pose proof (execFuntion_spec net _ _ _ _ _ Hx) as Sp. cbv zeta in Sp.
    destruct Sp as (_ & Sp & _). cbn [is_success] in Sp.
    unfold execFuntion in Hx.
    destruct Px3 as [Px3|[Px3|Px3]]; rewrite Px3 in Hx, Sp;
      cbn [sntp_sapi next_state] in Hx, Sp.
    + pose proof (OpenConnection_stamp x) as K.
      destruct (sFct_sntp_OpenConnection net x) as [r1 x1].
      cbn [snd] in K. destruct K as [K1 K2].
      inversion Hx; subst.
      cbn [set_world pg_vtable_api xsntpAsynchEvent]. rewrite K1.
      split; [exact Px1|]. split; [exact (K2 Px1 Px2)|]. right. left. exact Sp.
    + destruct (sFct_sntp_SendRequest net f x) as [[r1 x1]|] eqn:Es;
        [|discriminate Hx].
      apply SendRequest_stamp in Es. destruct Es as [K1 K2].
      inversion Hx; subst.
      cbn [set_world pg_vtable_api xsntpAsynchEvent]. rewrite K1.
      split; [exact Px1|]. split; [exact (K2 Px1 Px2)|]. right. right. exact Sp.
    + destruct (sFct_sntp_ReceiveResponse net f x) as [[r1 x1]|] eqn:Es;
        [|discriminate Hx].
      inversion Hx; subst.
      exfalso. exact (ReceiveResponse_stamp _ _ _ _ Es Px1 Px2 eq_refl).
  - cbn [set_client set_world pg_vtable_api xsntpAsynchEvent client state
         set_startTime].
    split; [exact Hn|]. split; [exact H0|]. tauto.
  - destruct (is_success rc3) eqn:Er.
    + apply is_success_true in Er. contradiction.
    + destruct (execFuntion net UD_SNTP_CLIENT_STATE_CLOSE fuel _)
        as [[r5 m5]|]; [|discriminate H].
      inversion H; subst. exact R.
Qed.

End Stamp.

Module StampRuns.
Import Scenario MoreScenarios.

(** The server of [good_net] answers and the hook runs, but the clock of
    the example application reads zero. *)
Lemma zero_clock_run :
  option_map fst (sntpex_client_timestamp_get good_net 8 ADDR ADDR m_stuck)
  = Some SNTPEX_ERR_INVALID_MESSAGE.
Proof. vm_compute. reflexivity. Qed.

End StampRuns.

Lemma zero_clock_never_succeeds_witness :
  exists rc m',
    sntpex_client_timestamp_get Scenario.good_net 8 ADDR ADDR
      MoreScenarios.m_stuck = Some (rc, m')
    /\ rc <> SNTPEX_SUCCESS.
Proof.
  pose proof StampRuns.zero_clock_run as R.
  destruct (sntpex_client_timestamp_get Scenario.good_net 8 ADDR ADDR
              MoreScenarios.m_stuck) as [[rc m']|] eqn:E; [|discriminate R].
  exists rc, m'. split; [reflexivity|].
  apply (zero_clock_never_succeeds Scenario.good_net 8
           MoreScenarios.m_stuck rc m').
  - intros v Hv n. cbn in Hv. injection Hv as <-. reflexivity.
  - reflexivity.
  - left. reflexivity.
  - exact E.
Defined.

(* ================================================================== *)
(** * What a successful call guarantees *)
(* ================================================================== *)

Section Success.

Variable net : Transport.

Lemma run_fsm_accepted fuel m rc m' :
  state (client m) = UD_SNTP_CLIENT_STATE_OPEN
  \/ state (client m) = UD_SNTP_CLIENT_STATE_SENDING
  \/ state (client m) = UD_SNTP_CLIENT_STATE_RECEIVING ->
  run_fsm net fuel m = Some (rc, m') ->
  rc = SNTPEX_SUCCESS -> accepted m'.
Proof.
  intros Hs E.
  refine (run_fsm_rule net
    (fun x => (state (client x) = UD_SNTP_CLIENT_STATE_OPEN
               \/ state (client x) = UD_SNTP_CLIENT_STATE_SENDING
               \/ state (client x) = UD_SNTP_CLIENT_STATE_RECEIVING)
              \/ (state (client x) = UD_SNTP_CLIENT_STATE_HANDLING_RSP
                  /\ reference64_ts (ts x) <> 0)
              \/ (state (client x) = UD_SNTP_CLIENT_STATE_COMPLETE
                  /\ accepted x))
    (fun r x => r = SNTPEX_SUCCESS -> accepted x) _ _ fuel m rc m' _ E).
  - intros x [Hx|[[Hx _]|[_ Hx]]] Hc _; [|congruence|exact Hx].
    rewrite Hc in Hx. destruct Hx as [Hx|[Hx|Hx]]; discriminate Hx.
  - intros f x r x' Px _ Hx.
    destruct (is_success r) eqn:Er;
      [|intros Hr; apply is_success_false in Er; contradiction].
    apply is_success_true in Er. subst r.
    pose proof (execFuntion_spec net _ _ _ _ _ Hx) as Sp. cbv zeta in Sp.
    destruct Sp as (_ & Sp & _). cbn [is_success] in Sp.
    unfold execFuntion in Hx.
    destruct Px as [[Px|[Px|Px]]|[[Px Hr]|[Px _]]]; rewrite Px in Hx, Sp;
      cbn [sntp_sapi next_state] in Hx, Sp.
    + left. right. left. exact Sp.
    + left. right. right. exact Sp.
    + right. left. split; [exact Sp|].
      destruct (sFct_sntp_ReceiveResponse net f x) as [[r1 x1]|] eqn:Es;
        [|discriminate Hx].
      inversion Hx; subst.
      apply ReceiveResponse_spec in Es. cbv zeta in Es.
      destruct Es as (_ & _ & _ & _ & _ & _ & Es & _).
      destruct (Es eq_refl) as [Es1 _]. exact Es1.
    + right. right. split; [exact Sp|].
      destruct (HandlingResponse_checks x) as [Hiff Heq]. cbv zeta in Heq.
      rewrite Heq in Hx. clear Heq.
      match type of Hiff with (?b = false <-> _) =>
        destruct b eqn:F end; [inversion Hx|].
      destruct (Wire.stratum (payload (client x)) =? 0) eqn:St;
        [inversion Hx|].
      apply Z.eqb_neq in St. apply proj1 in Hiff. specialize (Hiff eq_refl).
      inversion Hx; subst. unfold accepted.
      cbn [set_world set_client set_ts set_state set_kissCode client ts
           payload kissCode].
      split; [exact Hiff|]. split; [exact St|].
      rewrite !export_timestamps_decoded. repeat split. exact Hr.
    + discriminate Hx.
  - left. exact Hs.
Qed.

(** X16: what [SNTPEX_SUCCESS] means.  When a call entered in state
    [OPEN] or [SENDING] returns [SNTPEX_SUCCESS], the buffer holds a reply
    that passed the five checks against the nonce kept in the handle and
    has a stratum other than zero, the caller's record holds the times
    decoded from that very buffer with a time of reception other than
    zero, the Kiss code is zero and the handle is left in state
    [SENDING]. *)
Theorem success_means_accepted_reply fuel m m' :
  state (client m) = UD_SNTP_CLIENT_STATE_OPEN
  \/ state (client m) = UD_SNTP_CLIENT_STATE_SENDING ->
  sntpex_client_timestamp_get net fuel ADDR ADDR m
  = Some (SNTPEX_SUCCESS, m') ->
  accepted m' /\ state (client m') = UD_SNTP_CLIENT_STATE_SENDING.
Proof.
  intros Hs H. unfold sntpex_client_timestamp_get, Env.os_tick in H.
  match type of H with context [run_fsm net fuel ?m2] =>
    destruct (run_fsm net fuel m2) as [[rc3 m3]|] eqn:E; [|discriminate H]
  end.
  destruct (is_success rc3) eqn:Er.
  - apply is_success_true in Er. subst rc3.
    assert (A : accepted m3).
    { refine (run_fsm_accepted _ _ _ _ _ E eq_refl).
      cbn [set_client set_world client state set_startTime]. tauto. }
    inversion H; subst. split; [exact A|reflexivity].
  - apply is_success_false in Er.
    destruct (execFuntion net UD_SNTP_CLIENT_STATE_CLOSE fuel _)
      as [[r5 m5]|]; [|discriminate H].
    inversion H; subst. contradiction.
Qed.

End Success.

Lemma success_means_accepted_reply_witness :
  exists m',
    sntpex_client_timestamp_get Scenario.good_net 8 ADDR ADDR Scenario.m0
    = Some (SNTPEX_SUCCESS, m')
    /\ accepted m' /\ state (client m') = UD_SNTP_CLIENT_STATE_SENDING.
Proof.
  pose proof Runs.good_run as R.
  destruct (sntpex_client_timestamp_get Scenario.good_net 8 ADDR ADDR
              Scenario.m0) as [[rc m']|] eqn:E; [|discriminate R].
  assert (rc = SNTPEX_SUCCESS) as ->.
  { cbn [observe option_map o_code] in R. congruence. }
  exists m'. split; [reflexivity|].
  apply (success_means_accepted_reply Scenario.good_net 8 Scenario.m0 m').
  - left. reflexivity.
  - exact E.
Defined.

(* ================================================================== *)
(** * Descriptors *)
(* ================================================================== *)

(** X17: [Close] is idempotent.  A second [Close] returns the same code
    and changes nothing, so no descriptor is passed twice to
    [SlNetSock_close]; and after a [Close] an [Open] has nothing to
    close. *)
Theorem close_is_idempotent (m : Memory) :
  let r := sFct_sntp_CloseConnection m in
  sFct_sntp_CloseConnection (snd r) = r
  /\ pending_close (sock (client (snd r))) = []
  /\ closed (world (snd r))
     = closed (world m) ++ pending_close (sock (client m)).
Proof.
  cbv zeta. unfold sFct_sntp_CloseConnection.
  destruct m as [c x e pg w]. destruct c as [so v t i st s p l k o].
  cbn [client sock]. destruct so as [sk|].
  - destruct sk as [a1 a2 a3 a4 a5 a6 a7 d]. cbn [fd].
    destruct (d =? -1) eqn:Ed; cbn [negb].
    + apply Z.eqb_eq in Ed. subst d. unfold_setters. cbn.
      rewrite app_nil_r. repeat split.
    + unfold_setters. cbn. rewrite Ed. repeat split.
  - cbn. rewrite app_nil_r. repeat split.
Qed.

Section Descriptors.

Variable net : Transport.

(** X18: when [SlNetSock_create] fails, the call returns
    [SNTPEX_ERR_SOCKET_CREATE] without setting any option, and its error
    path hands the negative code to [SlNetSock_close] as if it were a
    descriptor, unless the code is -1. *)
Theorem failed_create_code_is_closed fuel (m : Memory) (s : vsocket) :
  sock (client m) = Some s ->
  state (client m) = UD_SNTP_CLIENT_STATE_OPEN ->
  s16 (SlNetSock_create net (n_create (world m))) < 0 ->
  exists m',
    sntpex_client_timestamp_get net (S fuel) ADDR ADDR m
    = Some (SNTPEX_ERR_SOCKET_CREATE, m')
    /\ closed (world m')
       = closed (world m) ++ pending_close (Some s)
         ++ pending_close
              (Some (set_fd s (s16 (SlNetSock_create net
                                      (n_create (world m))))))
    /\ n_setopt (world m') = n_setopt (world m)
    /\ n_send (world m') = n_send (world m)
    /\ sock (client m') = Some (set_fd s (-1))
    /\ state (client m') = UD_SNTP_CLIENT_STATE_OPEN.
Proof.
  intros Hs Hst Hd.
  destruct m as [c x e pg w]. destruct c as [so v t i st0 sta p l k o].
  cbn [client sock state world] in Hs, Hst, Hd. subst so sta.
  destruct s as [a1 a2 a3 a4 a5 a6 a7 d0].
  destruct w as [w1 w2 w3 w4 w5 w6 w7 w8 w9]. cbn [n_create] in Hd.
  cbn [world n_create n_setopt n_send closed].
  remember (s16 (SlNetSock_create net w3)) as d eqn:Ed.
  assert (Hlt : (d <? 0) = true) by (apply Z.ltb_lt; exact Hd).
  unfold sntpex_client_timestamp_get, Env.os_tick. cbn [run_fsm].
  destruct (d0 =? -1) eqn:E0;
    cbv beta iota zeta delta
      [execFuntion sFct_sntp_OpenConnection net_create Env.close
       sntp_sapi set_client set_world set_sock set_state set_fd set_startTime
       set_event client sock world fd state n_create is_complete negb
       Env.bump_create Env.log_close Env.bump_tick Env.log_trace
       xsntpAsynchEvent ts pg_vtable_api vtable_api timeout interface
       startTime payload payloadLen kissCode expected_orig_ts
       d_event d_type d_protocol tv_sec tv_usec sa_family InAddLength
       n_unix n_tick n_setopt n_send n_recv closed cb_calls trace
       timestamp event_cb SR pending_close fst snd];
    rewrite ?E0; cbv beta iota; rewrite <- ?Ed, ?Hlt; cbv beta iota;
    cbv beta iota zeta delta
      [execFuntion prv_utility_unregister_event sFct_sntp_CloseConnection
       Env.close is_success sntp_sapi set_client set_world set_sock set_state set_fd
       set_event client sock world fd state negb
       Env.log_close Env.log_trace
       xsntpAsynchEvent ts pg_vtable_api vtable_api timeout interface
       startTime payload payloadLen kissCode expected_orig_ts
       d_event d_type d_protocol tv_sec tv_usec sa_family InAddLength
       n_unix n_tick n_create n_setopt n_send n_recv closed cb_calls trace
       timestamp event_cb SR pending_close fst snd];
    destruct (d =? -1) eqn:E1; cbv beta iota;
    eexists; (split; [reflexivity|]);
    cbv beta iota zeta delta
      [client sock world fd state closed n_setopt n_send pending_close];
    rewrite ?app_nil_r, <- ?app_assoc; repeat split;
    apply Z.eqb_eq in E1; rewrite E1; reflexivity.
Qed.

End Descriptors.

(* ================================================================== *)
(** * The hook and the initialisation *)
(* ================================================================== *)

Lemma logical_and_recv (a : Z) :
  a <> 0 -> logical_and a exlibSNTP_SOFTSR_RECV_BIT = true.
Proof.
  intros H. unfold logical_and. apply Z.eqb_neq in H. rewrite H. reflexivity.
Qed.

(** X19: whatever is pending, [sntpex_eventTriggingFromISR] serves the
    receive event only.  It either refuses (no time source registered, or
    an empty status register) and changes nothing, or it clears the
    receive bit, stores the time and calls the callback with the receive
    bit; the send bit is never cleared and no callback ever gets it. *)
Theorem hook_serves_receive_only (m : Memory) :
  let r := sntpex_eventTriggingFromISR m in
  let e := xsntpAsynchEvent m in
  let e' := xsntpAsynchEvent (snd r) in
  (fst r = SNTPEX_ERR_FAULT_INIT /\ snd r = m
   /\ (pg_vtable_api m = None \/ SR e = 0))
  \/ (fst r = SNTPEX_SUCCESS
      /\ exists v, pg_vtable_api m = Some v /\ SR e <> 0
         /\ SR e' = u8 (Z.land (SR e) (Z.lnot exlibSNTP_SOFTSR_RECV_BIT))
         /\ Z.testbit (SR e') 1 = Z.testbit (SR e) 1
         /\ timestamp e' = u64 (get_unix_timestamp v (n_unix (world m)))
         /\ event_cb e' = event_cb e
         /\ cb_calls (world (snd r))
            = cb_calls (world m)
              ++ match event_cb e with
                 | Some k => [(k, exlibSNTP_SOFTSR_RECV_BIT)]
                 | None => []
                 end).
Proof.
  cbv zeta. unfold sntpex_eventTriggingFromISR.
  destruct (pg_vtable_api m) as [v|] eqn:Ev; [|left; cbn; auto].
  destruct (SR (xsntpAsynchEvent m) =? 0) eqn:E0.
  - apply Z.eqb_eq in E0. left. cbn. auto.
  - apply Z.eqb_neq in E0. rewrite (logical_and_recv _ E0).
    right. cbn [fst snd]. split; [reflexivity|]. exists v.
    split; [reflexivity|]. split; [exact E0|].
    unfold drain_event, Env.unix_timestamp, Env.invoke.
    destruct m as [c x e pg w]. destruct e as [t cb sr].
    cbn [xsntpAsynchEvent SR event_cb timestamp set_event set_world world
         fst snd] in *.
    assert (Hbit : Z.testbit
                     (u8 (Z.land sr (Z.lnot exlibSNTP_SOFTSR_RECV_BIT))) 1
                   = Z.testbit sr 1).
    { unfold u8. rewrite <- Z.land_ones by lia.
      rewrite !Z.land_spec, Z.lnot_spec by lia.
      change (Z.testbit exlibSNTP_SOFTSR_RECV_BIT 1) with false.
      change (Z.testbit (Z.ones 8) 1) with true.
      cbn [negb]. rewrite !andb_true_r. reflexivity. }
    destruct cb as [k|]; cbn; rewrite ?app_nil_r; repeat split; exact Hbit.
Qed.

(** X20: the reception event is delivered once.  After [Receiving] has
    registered its event on an idle status register, the first run of the
    hook stamps the time and empties the register, and a second run is
    refused and changes nothing. *)
Theorem receive_event_delivered_once (cb : option nat) (m : Memory)
  (v : ud_op_vtable) :
  pg_vtable_api m = Some v ->
  SR (xsntpAsynchEvent m) = 0
  \/ SR (xsntpAsynchEvent m) = exlibSNTP_SOFTSR_RECV_BIT ->
  let m1 := prv_utility_register_event exlibSNTP_SOFTSR_RECV_BIT cb m in
  let r1 := sntpex_eventTriggingFromISR m1 in
  fst r1 = SNTPEX_SUCCESS
  /\ SR (xsntpAsynchEvent (snd r1)) = 0
  /\ timestamp (xsntpAsynchEvent (snd r1))
     = u64 (get_unix_timestamp v (n_unix (world m)))
  /\ n_unix (world (snd r1)) = S (n_unix (world m))
  /\ sntpex_eventTriggingFromISR (snd r1) = (SNTPEX_ERR_FAULT_INIT, snd r1).
Proof.
  intros Hv Hsr. cbv zeta.
  destruct m as [c x e pg w]. destruct e as [t cb0 sr].
  cbn [pg_vtable_api xsntpAsynchEvent SR] in Hv, Hsr. subst pg.
  unfold prv_utility_register_event, sntpex_eventTriggingFromISR, drain_event,
    Env.unix_timestamp, Env.invoke.
  destruct Hsr as [-> | ->]; destruct cb as [k|]; cbn; repeat split.
Qed.

Lemma clear_bits_idem (x a b : Z) :
  u8 (Z.land (u8 (Z.land (u8 (Z.land (u8 (Z.land x a)) b)) a)) b)
  = u8 (Z.land (u8 (Z.land x a)) b).
Proof.
  unfold u8. rewrite <- !Z.land_ones by lia.
  apply Z.bits_inj'. intros n Hn. rewrite !Z.land_spec.
  destruct (Z.testbit x n), (Z.testbit a n), (Z.testbit b n),
    (Z.testbit (Z.ones 8) n); reflexivity.
Qed.

Lemma clear_bits_clear (x : Z) :
  let y := u8 (Z.land (u8 (Z.land x (Z.lnot exlibSNTP_SOFTSR_RECV_BIT)))
                      (Z.lnot exlibSNTP_SOFTSR_SEND_BIT)) in
  Z.testbit y 0 = false /\ Z.testbit y 1 = false.
Proof.
  cbv zeta. unfold u8. rewrite <- !Z.land_ones by lia.
  rewrite !Z.land_spec, !Z.lnot_spec by lia.
  split; [destruct (Z.testbit x 0)|destruct (Z.testbit x 1)]; reflexivity.
Qed.

(** X21: [sntpex_clientInitialization] establishes, from any memory, the
    state in which the calls above are entered: state [OPEN], no
    descriptor, the default timeout of 3000 ms held as 3 s and 0 us, a
    zeroed buffer of 68 bytes, no reception time, no callback, the two
    event bits clear, the time source registered for the hook.  It closes
    nothing, and running it twice is the same as running it once. *)
Theorem initialisation_establishes_entry_state (v : ud_op_vtable)
  (m : Memory) :
  let r := sntpex_clientInitialization v m in
  let c := client (snd r) in
  let e := xsntpAsynchEvent (snd r) in
  fst r = SNTPEX_SUCCESS
  /\ state c = UD_SNTP_CLIENT_STATE_OPEN
  /\ (exists s, sock c = Some s /\ fd s = -1 /\ tv_sec s = 3 /\ tv_usec s = 0)
  /\ pending_close (sock c) = []
  /\ timeout c = 3000
  /\ payload c = repeat 0 68%nat
  /\ payloadLen c = 0 /\ kissCode c = 0
  /\ timestamp e = 0 /\ event_cb e = None
  /\ Z.testbit (SR e) 0 = false /\ Z.testbit (SR e) 1 = false
  /\ pg_vtable_api (snd r) = Some v
  /\ vtable_api c = v
  /\ ts (snd r) = ts m
  /\ world (snd r) = world m
  /\ sntpex_clientInitialization v (snd r) = r.
Proof.
  cbv zeta. destruct m as [c x e pg w]. destruct e as [t cb sr].
  unfold sntpex_clientInitialization, prv_utility_unregister_event.
  unfold_setters.
  cbn [client ts xsntpAsynchEvent pg_vtable_api world fst snd state sock
       timeout payload payloadLen kissCode timestamp event_cb SR vtable_api].
  change exlibSNTP_CLIENT_DEFAULT_TIMEOUT with 3000.
  change (1000000 <=? 3000 mod 1000 * 1000) with false. cbv iota.
  destruct (clear_bits_clear sr) as [B0 B1]. cbv zeta in B0, B1.
  rewrite clear_bits_idem.
  repeat match goal with |- _ /\ _ => split end;
    try reflexivity; try assumption.
  eexists. split; [reflexivity|]. repeat split.
Qed.

(* ================================================================== *)
(** * A served request *)
(* ================================================================== *)

Lemma memset0_request (p : buffer) (tick : Z) :
  (48 <= length p)%nat ->
  memset0 (request_bytes tick ++ skipn 48 p) 48 = memset0 p 48.
Proof.
  intros H. rewrite !memset0_prefix.
  - rewrite (skipn_app 48). change (skipn 48 (request_bytes tick)) with (@nil Z).
    change (48 - length (request_bytes tick))%nat with 0%nat. reflexivity.
  - exact H.
  - rewrite length_app, length_skipn.
    change (length (request_bytes tick)) with 48%nat. lia.
Qed.

Lemma lor_recv_bit_nonzero (sr : Z) :
  u8 (Z.lor sr exlibSNTP_SOFTSR_RECV_BIT) <> 0.
Proof.
  intros H.
  assert (B : Z.testbit (u8 (Z.lor sr exlibSNTP_SOFTSR_RECV_BIT)) 0 = true).
  { unfold u8. rewrite <- Z.land_ones by lia.
    rewrite Z.land_spec, Z.lor_spec.
    change (Z.testbit exlibSNTP_SOFTSR_RECV_BIT 0) with true.
    rewrite orb_true_r. reflexivity. }
  rewrite H in B. discriminate B.
Qed.

Section Served.

Variable net : Transport.

Lemma Open_ok (m : Memory) (s : vsocket) :
  sock (client m) = Some s ->
  0 <= s16 (SlNetSock_create net (n_create (world m))) ->
  0 <= s32 (SlNetSock_setOpt net (n_setopt (world m))) ->
  sFct_sntp_OpenConnection net m
  = (SNTPEX_SUCCESS,
     set_world
       (set_client m
          (set_state
             (set_sock (client m)
                (Some (set_fd s (s16 (SlNetSock_create net
                                        (n_create (world m)))))))
             UD_SNTP_CLIENT_STATE_SENDING))
       (Env.bump_setopt
          (Env.bump_create
             (if fd s =? -1 then world m
              else Env.log_close (world m) (fd s))))).
Proof.
  intros Hs Hd Ho.
  destruct m as [c x e pg w]. destruct c as [so v t i st sta p l k o].
  destruct w as [w1 w2 w3 w4 w5 w6 w7 w8 w9].
  destruct s as [a1 a2 a3 a4 a5 a6 a7 d0].
  cbn [client sock world n_create n_setopt] in Hs, Hd, Ho. subst so.
  apply Z.ltb_ge in Hd. apply Z.ltb_ge in Ho.
  unfold sFct_sntp_OpenConnection, net_create, net_setOpt.
  destruct (d0 =? -1) eqn:E0; run_records; rewrite ?E0; cbv beta iota;
    rewrite Hd; cbv beta iota; rewrite Ho; reflexivity.
Qed.

Lemma Send_ok (f : nat) (m : Memory) :
  let c := client m in
  let w := world m in
  sock c <> None ->
  (48 <= length (payload c))%nat ->
  s32 (send_code (SlNetSock_sendTo net (n_send w))) = 48 ->
  send_isr (SlNetSock_sendTo net (n_send w)) = false ->
  sFct_sntp_SendRequest net (S f) m
  = Some (SNTPEX_SUCCESS,
          mkMem
            (mkHandle (sock c) (vtable_api c) (timeout c) (interface c)
                      (startTime c) UD_SNTP_CLIENT_STATE_RECEIVING
                      (memset0 (payload c) 48) 48 (kissCode c)
                      (u32 (get_os_tick (vtable_api c) (n_tick w))))
            (mkCtx (referenceTimestamp (ts m)) (originateTimestamp (ts m))
                   (receiveTimestamp (ts m)) (transmitTimestamp (ts m))
                   (u64 (get_unix_timestamp (vtable_api c) (n_unix w)))
                   (reference64_ts (ts m)) (receive64_ts (ts m))
                   (transmit64_ts (ts m)))
            (xsntpAsynchEvent m) (pg_vtable_api m)
            (Env.bump_send
               (Env.bump_tick (Env.bump_unix (Env.bump_tick w))))).
Proof.
  cbv zeta. intros Hs Hl Hc Hi.
  pose proof (build_request_spec m) as B. cbv zeta in B.
  pose proof (build_request_bytes m Hl) as Bb. cbv zeta in Bb.
  unfold sFct_sntp_SendRequest.
  destruct (sock (client m)) as [s|] eqn:Es; [clear Hs|congruence].
  destruct (prv_utility_build_request m) as [r1 m1]. cbn [fst snd] in B, Bb.
  destruct B as (_ & B1 & B2 & B3 & B4 & B5). rewrite Bb in B5.
  destruct m as [c x e pg w]. destruct m1 as [c1 x1 e1 pg1 w1].
  cbn [client ts xsntpAsynchEvent pg_vtable_api world] in *.
  subst c1 x1 e1 pg1 w1.
  destruct c as [so v t i st sta p l k o].
  destruct w as [w1 w2 w3 w4 w5 w6 w7 w8 w9].
  cbn [sock payload n_send world vtable_api timeout interface startTime state
       kissCode n_tick] in *.
  subst so. cbn [send_poll]. unfold net_sendTo. run_records.
  rewrite Hi, Hc. cbv beta iota delta [spawn_task].
  change (48 =? SLNETERR_BSD_EAGAIN) with false.
  change (SLNETERR_BSD_EAGAIN =? 48) with false.
  change ((48 <? 0) || negb (48 =? Wire.sizeof_x_sntp_request)) with false.
  cbv beta iota.
  change (Z.to_nat Wire.sizeof_x_sntp_request) with 48%nat.
  rewrite memset0_request by exact Hl. reflexivity.
Qed.

Lemma Recv_ok (f : nat) (m : Memory) (v' : ud_op_vtable) :
  let c := client m in
  let w := world m in
  let e := xsntpAsynchEvent m in
  let r := SlNetSock_recvFrom net (n_recv w) in
  let stamp := u64 (get_unix_timestamp v' (n_unix w)) in
  sock c <> None ->
  pg_vtable_api m = Some v' ->
  payloadLen c = 48 ->
  s32 (recv_code r) = 48 ->
  recv_isr r = true ->
  stamp <> 0 ->
  exists sr,
    sFct_sntp_ReceiveResponse net (S f) m
    = Some (SNTPEX_SUCCESS,
            mkMem
              (set_state (set_payload c (copy_in (payload c) (recv_data r) 48))
                         UD_SNTP_CLIENT_STATE_HANDLING_RSP)
              (mkCtx (referenceTimestamp (ts m)) (originateTimestamp (ts m))
                     (receiveTimestamp (ts m)) (transmitTimestamp (ts m))
                     (originate64_ts (ts m)) stamp (receive64_ts (ts m))
                     (transmit64_ts (ts m)))
              (mkEvent 0 None sr) (pg_vtable_api m)
              (Env.bump_unix (Env.bump_recv (Env.bump_tick w)))).
Proof.
  cbv zeta. intros Hs Hp Hl Hc Hi Ht.
  unfold sFct_sntp_ReceiveResponse.
  destruct (sock (client m)) as [s|] eqn:Es; [clear Hs|congruence].
  destruct m as [c x e pg w]. destruct c as [so v t i st sta p l k o].
  destruct w as [w1 w2 w3 w4 w5 w6 w7 w8 w9]. destruct e as [t0 cb sr].
  cbn [client sock payload payloadLen world n_recv n_unix pg_vtable_api] in *.
  subst so pg l.
  unfold prv_utility_register_event. cbn [recv_poll]. unfold net_recvFrom.
  run_records. rewrite Hi, Hc.
  change (0 <? 48) with true. cbv beta iota delta [spawn_task].
  unfold sntpex_eventTriggingFromISR. run_records.
  pose proof (lor_recv_bit_nonzero sr) as Hn. apply Z.eqb_neq in Hn.
  rewrite Hn. unfold logical_and. rewrite Hn.
  change (negb false && negb (exlibSNTP_SOFTSR_RECV_BIT =? 0)) with true.
  cbv beta iota. unfold drain_event. run_records.
  change (48 =? SLNETERR_BSD_EAGAIN) with false.
  change (SLNETERR_BSD_EAGAIN =? 48) with false.
  change (48 <? 0) with false. change (negb (48 =? 48)) with false.
  cbv beta iota.
  apply Z.eqb_neq in Ht. rewrite Ht.
  unfold prv_utility_unregister_event. run_records.
  eexists. reflexivity.
Qed.

(** When the reads block until the deadline, [Receiving] returns
    [SNTPEX_ERR_TIMEOUT]; it leaves the socket, the state and the history
    of closed descriptors as they were. *)
Lemma Recv_blocks (fuel j : nat) (m : Memory) :
  sock (client m) <> None ->
  (forall i, (i <= j)%nat ->
     s32 (recv_code (SlNetSock_recvFrom net (n_recv (world m) + i)))
     = SLNETERR_BSD_EAGAIN) ->
  timeout (client m)
  <= u32 (u32 (get_os_tick (vtable_api (client m))
                 (n_tick (world m) + 1 + j))
          - u32 (get_os_tick (vtable_api (client m)) (n_tick (world m)))) ->
  (j < fuel)%nat ->
  exists m',
    sFct_sntp_ReceiveResponse net fuel m = Some (SNTPEX_ERR_TIMEOUT, m')
    /\ (n_recv (world m') <= n_recv (world m) + j + 1)%nat
    /\ client m' = set_payload (client m) (payload (client m'))
    /\ decoded_fields (ts m') = decoded_fields (ts m)
    /\ closed (world m') = closed (world m).
Proof.
  intros Hs Hb Hd Hf.
  assert (E : exists m', sFct_sntp_ReceiveResponse net fuel m
                         = Some (SNTPEX_ERR_TIMEOUT, m')
                         /\ (n_recv (world m') <= n_recv (world m) + j + 1)%nat).
  { unfold sFct_sntp_ReceiveResponse.
    destruct (sock (client m)) as [s|]; [|congruence].
    unfold Env.os_tick, prv_utility_register_event.
    match goal with |- context [recv_poll net fuel ?st ?m2] =>
      destruct (recv_poll_blocks net j fuel st m2) as (m' & E & N)
    end.
    - intros i Hi. cbn [set_world set_event world Env.bump_tick n_recv].
      apply Hb. exact Hi.
    - cbn [set_world set_event world client Env.bump_tick n_tick].
      replace (S (n_tick (world m)) + j)%nat
        with (n_tick (world m) + 1 + j)%nat by lia.
      exact Hd.
    - exact Hf.
    - rewrite E. rewrite Z.eqb_refl. exists m'. split; [reflexivity|].
      cbn [set_world set_event world Env.bump_tick n_recv] in N. exact N. }
  destruct E as (m' & E & N). exists m'. split; [exact E|]. split; [exact N|].
  apply ReceiveResponse_spec in E. cbv zeta in E.
  destruct E as (_ & (p' & Ec) & Ed & _ & _ & Ecl & _).
  cbn [is_success] in Ec. split; [|split; [exact Ed|exact Ecl]].
  rewrite Ec. destruct (client m); reflexivity.
Qed.

Lemma run_fsm_S (f : nat) (m : Memory) :
  run_fsm net (S f) m
  = if is_complete (state (client m)) then Some (SNTPEX_SUCCESS, m)
    else match execFuntion net (state (client m)) f m with
         | None => None
         | Some (rc, m') =>
             if is_success rc then run_fsm net f m' else Some (rc, m')
         end.
Proof. reflexivity. Qed.

(** X22: a served request succeeds.  From state [OPEN], when the socket
    can be created and configured, the transport takes the 48 bytes of
    the request without running the hook, the first read returns a
    datagram of 48 bytes while the hook runs with a clock that is not
    zero, and the buffer then passes the checks against the nonce of this
    call with a stratum other than zero, the call returns
    [SNTPEX_SUCCESS] within five rounds of the state machine.  It leaves
    the decoded record with the times of sending and of reception, the
    new descriptor open and the old one, if any, closed. *)
Theorem served_request_succeeds (k : nat) (m : Memory) (s : vsocket)
  (v' : ud_op_vtable) :
  let c := client m in
  let w := world m in
  let reply := SlNetSock_recvFrom net (n_recv w) in
  let nonce := u32 (get_os_tick (vtable_api c) (S (n_tick w))) in
  let sent := u64 (get_unix_timestamp (vtable_api c) (n_unix w)) in
  let stamp := u64 (get_unix_timestamp v' (S (n_unix w))) in
  let buf := copy_in (memset0 (payload c) 48) (recv_data reply) 48 in
  let d := s16 (SlNetSock_create net (n_create w)) in
  sock c = Some s ->
  state c = UD_SNTP_CLIENT_STATE_OPEN ->
  pg_vtable_api m = Some v' ->
  (48 <= length (payload c))%nat ->
  0 <= d ->
  0 <= s32 (SlNetSock_setOpt net (n_setopt w)) ->
  s32 (send_code (SlNetSock_sendTo net (n_send w))) = 48 ->
  send_isr (SlNetSock_sendTo net (n_send w)) = false ->
  s32 (recv_code reply) = 48 ->
  recv_isr reply = true ->
  stamp <> 0 ->
  passes_checks
    (set_expected_orig_ts (set_payloadLen (set_payload c buf) 48) nonce) ->
  Wire.stratum buf <> 0 ->
  exists m',
    sntpex_client_timestamp_get net (5 + k) ADDR ADDR m
    = Some (SNTPEX_SUCCESS, m')
    /\ payload (client m') = buf
    /\ expected_orig_ts (client m') = nonce
    /\ ts m'
       = decoded_record buf
           (mkCtx (referenceTimestamp (ts m)) (originateTimestamp (ts m))
                  (receiveTimestamp (ts m)) (transmitTimestamp (ts m))
                  sent stamp (receive64_ts (ts m)) (transmit64_ts (ts m)))
    /\ sock (client m') = Some (set_fd s d)
    /\ kissCode (client m') = 0
    /\ state (client m') = UD_SNTP_CLIENT_STATE_SENDING
    /\ closed (world m') = closed w ++ pending_close (Some s).
Proof.
  cbv zeta. intros Hs Hst Hpg Hl Hd Ho Hsc Hsi Hrc Hri Hstamp Hpass Hstr.
  destruct m as [c x e pg w]. destruct c as [so v t i st sta p l kc o].
  destruct w as [w1 w2 w3 w4 w5 w6 w7 w8 w9].
  cbn [client sock state payload world pg_vtable_api vtable_api n_create
       n_setopt n_send n_recv n_unix n_tick closed ts] in *.
  subst so sta pg. destruct s as [a1 a2 a3 a4 a5 a6 a7 d0].
  change (5 + k)%nat with (S (S (S (S (S k))))).
  unfold sntpex_client_timestamp_get. run_records.
  rewrite run_fsm_S. run_records. unfold execFuntion at 1.
  cbv beta iota delta [sntp_sapi].
  rewrite (Open_ok _ (mkSock a1 a2 a3 a4 a5 a6 a7 d0));
    [|reflexivity|exact Hd|exact Ho].
  run_records.
  rewrite run_fsm_S. run_records. unfold execFuntion at 1.
  cbv beta iota delta [sntp_sapi].
  destruct (d0 =? -1) eqn:E0; cbv beta iota;
    (rewrite Send_ok; [|discriminate|exact Hl|exact Hsc|exact Hsi]);
    run_records;
    rewrite run_fsm_S; run_records; unfold execFuntion at 1;
    cbv beta iota delta [sntp_sapi];
    match goal with
    | |- context [sFct_sntp_ReceiveResponse net (S ?f) ?M] =>
        destruct (Recv_ok f M v' ltac:(discriminate) eq_refl eq_refl
                    Hrc Hri Hstamp) as [sr Er]
    end;
    rewrite Er; clear Er; run_records;
    rewrite run_fsm_S; run_records; unfold execFuntion at 1;
    cbv beta iota delta [sntp_sapi];
    match goal with |- context [sFct_sntp_HandlingResponse ?M] =>
      destruct (HandlingResponse_checks M) as [Hiff Heq] end;
    cbv zeta in Heq; rewrite Heq; clear Heq;
    rewrite (proj2 Hiff Hpass); clear Hiff;
    run_records; apply Z.eqb_neq in Hstr; rewrite Hstr; run_records;
    rewrite run_fsm_S; run_records;
    (eexists; split; [reflexivity|]); run_records;
    rewrite export_timestamps_decoded; unfold pending_close; run_records;
    rewrite E0, ?app_nil_r; repeat split.
Qed.

(** X23: a call answered by a Kiss-of-Death.  Under the same conditions
    but with a stratum of zero in the checked reply, the call returns
    [SNTPEX_ERR_REQUEST_REJECTED]; the Kiss code is the reference
    identifier of the reply, the decoded fields of the caller's record are
    untouched, and the descriptor created by the call has been closed. *)
Theorem rejected_request_call (k : nat) (m : Memory) (s : vsocket)
  (v' : ud_op_vtable) :
  let c := client m in
  let w := world m in
  let reply := SlNetSock_recvFrom net (n_recv w) in
  let nonce := u32 (get_os_tick (vtable_api c) (S (n_tick w))) in
  let stamp := u64 (get_unix_timestamp v' (S (n_unix w))) in
  let buf := copy_in (memset0 (payload c) 48) (recv_data reply) 48 in
  let d := s16 (SlNetSock_create net (n_create w)) in
  sock c = Some s ->
  state c = UD_SNTP_CLIENT_STATE_OPEN ->
  pg_vtable_api m = Some v' ->
  (48 <= length (payload c))%nat ->
  0 <= d ->
  0 <= s32 (SlNetSock_setOpt net (n_setopt w)) ->
  s32 (send_code (SlNetSock_sendTo net (n_send w))) = 48 ->
  send_isr (SlNetSock_sendTo net (n_send w)) = false ->
  s32 (recv_code reply) = 48 ->
  recv_isr reply = true ->
  stamp <> 0 ->
  passes_checks
    (set_expected_orig_ts (set_payloadLen (set_payload c buf) 48) nonce) ->
  Wire.stratum buf = 0 ->
  exists m',
    sntpex_client_timestamp_get net (4 + k) ADDR ADDR m
    = Some (SNTPEX_ERR_REQUEST_REJECTED, m')
    /\ sntpex_client_Kiss_code_get ADDR m' = be32 buf Wire.off_referenceId
    /\ decoded_fields (ts m') = decoded_fields (ts m)
    /\ reference64_ts (ts m') = stamp
    /\ sock (client m') = Some (set_fd s (-1))
    /\ state (client m') = UD_SNTP_CLIENT_STATE_OPEN
    /\ closed (world m') = closed w ++ pending_close (Some s) ++ [d].
Proof.
  cbv zeta. intros Hs Hst Hpg Hl Hd Ho Hsc Hsi Hrc Hri Hstamp Hpass Hstr.
  destruct m as [c x e pg w]. destruct c as [so v t i st sta p l kc o].
  destruct w as [w1 w2 w3 w4 w5 w6 w7 w8 w9].
  cbn [client sock state payload world pg_vtable_api vtable_api n_create
       n_setopt n_send n_recv n_unix n_tick closed ts] in *.
  subst so sta pg. destruct s as [a1 a2 a3 a4 a5 a6 a7 d0].
  change (4 + k)%nat with (S (S (S (S k)))).
  assert (Hd1 : (s16 (SlNetSock_create net w3) =? -1) = false)
    by (apply Z.eqb_neq; lia).
  unfold sntpex_client_timestamp_get. run_records.
  rewrite run_fsm_S. run_records. unfold execFuntion at 1.
  cbv beta iota delta [sntp_sapi].
  rewrite (Open_ok _ (mkSock a1 a2 a3 a4 a5 a6 a7 d0));
    [|reflexivity|exact Hd|exact Ho].
  run_records.
  rewrite run_fsm_S. run_records. unfold execFuntion at 1.
  cbv beta iota delta [sntp_sapi].
  destruct (d0 =? -1) eqn:E0; cbv beta iota;
    (rewrite Send_ok; [|discriminate|exact Hl|exact Hsc|exact Hsi]);
    run_records;
    rewrite run_fsm_S; run_records; unfold execFuntion at 1;
    cbv beta iota delta [sntp_sapi];
    match goal with
    | |- context [sFct_sntp_ReceiveResponse net (S ?f) ?M] =>
        destruct (Recv_ok f M v' ltac:(discriminate) eq_refl eq_refl
                    Hrc Hri Hstamp) as [sr Er]
    end;
    rewrite Er; clear Er; run_records;
    rewrite run_fsm_S; run_records; unfold execFuntion at 1;
    cbv beta iota delta [sntp_sapi];
    match goal with |- context [sFct_sntp_HandlingResponse ?M] =>
      destruct (HandlingResponse_checks M) as [Hiff Heq] end;
    cbv zeta in Heq; rewrite Heq; clear Heq;
    rewrite (proj2 Hiff Hpass); clear Hiff;
    run_records; apply Z.eqb_eq in Hstr; rewrite Hstr; run_records;
    unfold execFuntion, prv_utility_unregister_event;
    cbv beta iota delta [sntp_sapi]; unfold sFct_sntp_CloseConnection;
    run_records; rewrite Hd1; run_records;
    (eexists; split; [reflexivity|]);
    unfold sntpex_client_Kiss_code_get, pending_close, decoded_fields,
      exlibSLNETUTIL_NTOHL, Wire.referenceId;
    run_records; rewrite E0, ntohl_load32, <- ?app_assoc;
    repeat split.
Qed.

(** X24: an unanswered request times out.  From state [OPEN], when the
    socket can be created and configured and the transport takes the
    request, but every read would block until the tick has advanced by
    the timeout, the call returns [SNTPEX_ERR_TIMEOUT] after at most as
    many reads; it closes the descriptor it created and leaves the decoded
    fields of the caller's record untouched. *)
Theorem unanswered_request_times_out (fuel j : nat) (m : Memory)
  (s : vsocket) :
  let c := client m in
  let w := world m in
  let v := vtable_api c in
  let d := s16 (SlNetSock_create net (n_create w)) in
  sock c = Some s ->
  state c = UD_SNTP_CLIENT_STATE_OPEN ->
  (48 <= length (payload c))%nat ->
  0 <= d ->
  0 <= s32 (SlNetSock_setOpt net (n_setopt w)) ->
  s32 (send_code (SlNetSock_sendTo net (n_send w))) = 48 ->
  send_isr (SlNetSock_sendTo net (n_send w)) = false ->
  (forall i, (i <= j)%nat ->
     s32 (recv_code (SlNetSock_recvFrom net (n_recv w + i)))
     = SLNETERR_BSD_EAGAIN) ->
  timeout c <= u32 (u32 (get_os_tick v (n_tick w + 4 + j))
                    - u32 (get_os_tick v (n_tick w + 3))) ->
  (j < fuel)%nat ->
  exists m',
    sntpex_client_timestamp_get net (3 + fuel) ADDR ADDR m
    = Some (SNTPEX_ERR_TIMEOUT, m')
    /\ (n_recv (world m') <= n_recv w + j + 1)%nat
    /\ decoded_fields (ts m') = decoded_fields (ts m)
    /\ sock (client m') = Some (set_fd s (-1))
    /\ state (client m') = UD_SNTP_CLIENT_STATE_OPEN
    /\ closed (world m') = closed w ++ pending_close (Some s) ++ [d].
Proof.
  cbv zeta. intros Hs Hst Hl Hd Ho Hsc Hsi Hb Hdl Hf.
  destruct m as [c x e pg w]. destruct c as [so v t i st sta p l kc o].
  destruct w as [w1 w2 w3 w4 w5 w6 w7 w8 w9].
  cbn [client sock state payload world vtable_api timeout n_create
       n_setopt n_send n_recv n_unix n_tick closed ts] in *.
  subst so sta. destruct s as [a1 a2 a3 a4 a5 a6 a7 d0].
  change (3 + fuel)%nat with (S (S (S fuel))).
  assert (Hd1 : (s16 (SlNetSock_create net w3) =? -1) = false)
    by (apply Z.eqb_neq; lia).
  unfold sntpex_client_timestamp_get. run_records.
  rewrite run_fsm_S. run_records. unfold execFuntion at 1.
  cbv beta iota delta [sntp_sapi].
  rewrite (Open_ok _ (mkSock a1 a2 a3 a4 a5 a6 a7 d0));
    [|reflexivity|exact Hd|exact Ho].
  run_records.
  rewrite run_fsm_S. run_records. unfold execFuntion at 1.
  cbv beta iota delta [sntp_sapi].
  destruct (d0 =? -1) eqn:E0; cbv beta iota;
    (rewrite Send_ok; [|discriminate|exact Hl|exact Hsc|exact Hsi]);
    run_records;
    rewrite run_fsm_S; run_records; unfold execFuntion at 1;
    cbv beta iota delta [sntp_sapi];
    match goal with
    | |- context [sFct_sntp_ReceiveResponse net fuel ?M] =>
        destruct (Recv_blocks fuel j M) as (m3 & E3 & N3 & C3 & D3 & L3);
          [ discriminate
          | exact Hb
          | cbn [client world timeout vtable_api n_tick];
            replace (S (S (S w2)) + 1 + j)%nat with (w2 + 4 + j)%nat by lia;
            replace (S (S (S w2))) with (w2 + 3)%nat by lia;
            exact Hdl
          | exact Hf
          | ]
    end;
    rewrite E3; clear E3;
    destruct m3 as [c3 x3 e3 pg3 w'];
    destruct w' as [u1 u2 u3 u4 u5 u6 u7 u8 u9];
    cbn [client world ts n_recv closed set_payload sock vtable_api timeout
         interface startTime state payloadLen kissCode expected_orig_ts
         payload] in N3, C3, D3, L3;
    destruct c3 as [so3 v3 t3 i3 st3 sta3 p3 l3 kc3 o3];
    cbn [payload] in C3; injection C3 as -> -> -> -> -> -> -> -> ->;
    subst u7;
    run_records;
    unfold execFuntion, prv_utility_unregister_event;
    cbv beta iota delta [sntp_sapi]; unfold sFct_sntp_CloseConnection;
    run_records; rewrite Hd1; run_records;
    (eexists; split; [reflexivity|]);
    unfold pending_close; run_records; rewrite E0, <- ?app_assoc;
    (split; [exact N3|]); (split; [exact D3|]); repeat split.
Qed.

End Served.

(* ================================================================== *)
(** * Instances *)
(* ================================================================== *)

Lemma server_address_outcomes_witness :
  exists rc m',
    sntpex_client_set_server_address 2 3 16 28 ADDR (Some 7) Scenario.m0
    = Some (rc, m')
    /\ rc = SNTPEX_ERROR
    /\ state (client m') = state (client Scenario.m0)
    /\ option_map sa_family (sock (client m')) = Some 7.
Proof.
  destruct (server_address_outcomes 2 3 16 28 7 MoreScenarios.s0 Scenario.m0
              eq_refl)
    as (rc & m' & s' & E & Hs & Hf & _ & _ & Hiff & _ & Herr).
  assert (Hn : rc <> SNTPEX_SUCCESS).
  { intros H. apply Hiff in H. destruct H as [H|H]; discriminate H. }
  destruct (Herr Hn) as (H1 & H2 & _).
  exists rc, m'. split; [exact E|]. split; [exact H1|]. split; [exact H2|].
  rewrite Hs. cbn [option_map]. rewrite Hf. reflexivity.
Defined.

Lemma dns_outcomes_witness :
  exists rc d',
    sntpex_dns_host_by_name_get 2 3 (mkResolved (-1) 167772161) ADDR ADDR 2
      (mkDns 0 0 0) = Some (rc, d')
    /\ rc = SNTPEX_SUCCESS
    /\ interface_index d' = 65535.
Proof.
  destruct (dns_outcomes 2 3 (mkResolved (-1) 167772161) 2 (mkDns 0 0 0)
              eq_refl)
    as (rc & d' & E & Hi & _ & Hneg & _).
  exists rc, d'. split; [exact E|]. split; [|exact Hi].
  apply Hneg. cbn [resolver_code]. lia.
Defined.

Lemma failed_create_code_is_closed_witness :
  exists m',
    sntpex_client_timestamp_get MoreScenarios.create_fails_net 2 ADDR ADDR
      Scenario.m0 = Some (SNTPEX_ERR_SOCKET_CREATE, m')
    /\ closed (world m') = [-5].
Proof.
  destruct (failed_create_code_is_closed MoreScenarios.create_fails_net 1
              Scenario.m0 MoreScenarios.s0 eq_refl eq_refl)
    as (m' & E & Hc & _).
  - vm_compute. reflexivity.
  - exists m'. split; [exact E|]. rewrite Hc. reflexivity.
Defined.

Lemma receive_event_delivered_once_witness :
  fst (sntpex_eventTriggingFromISR
         (prv_utility_register_event exlibSNTP_SOFTSR_RECV_BIT None
            Scenario.m0)) = SNTPEX_SUCCESS.
Proof.
  exact (proj1 (receive_event_delivered_once None Scenario.m0 Scenario.clock
                  eq_refl (or_introl eq_refl))).
Defined.

Lemma served_request_succeeds_witness :
  exists m',
    sntpex_client_timestamp_get Scenario.good_net 8 ADDR ADDR Scenario.m0
    = Some (SNTPEX_SUCCESS, m')
    /\ kissCode (client m') = 0
    /\ expected_orig_ts (client m') = 1001.
Proof.
  destruct (served_request_succeeds Scenario.good_net 3 Scenario.m0
              MoreScenarios.s0 Scenario.clock)
    as (m' & E & _ & Hn & _ & _ & Hk & _).
  - reflexivity.
  - reflexivity.
  - reflexivity.
  - apply Nat.leb_le. vm_compute. reflexivity.
  - vm_compute. intro X. discriminate X.
  - vm_compute. intro X. discriminate X.
  - vm_compute. reflexivity.
  - reflexivity.
  - vm_compute. reflexivity.
  - reflexivity.
  - vm_compute. intro X. discriminate X.
  - unfold passes_checks. cbv zeta.
    repeat match goal with |- _ /\ _ => split end.
    + vm_compute. intro X. discriminate X.
    + vm_compute. intro X. discriminate X.
    + intros [X _]. vm_compute in X. discriminate X.
    + left. vm_compute. reflexivity.
    + vm_compute. reflexivity.
    + vm_compute. reflexivity.
  - vm_compute. intro X. discriminate X.
  - exists m'. split; [exact E|]. split; [exact Hk|]. rewrite Hn.
    vm_compute. reflexivity.
Defined.

Lemma rejected_request_call_witness :
  exists m',
    sntpex_client_timestamp_get Scenario.kod_then_garbage_net 7 ADDR ADDR
      Scenario.m0 = Some (SNTPEX_ERR_REQUEST_REJECTED, m')
    /\ sntpex_client_Kiss_code_get ADDR m' = 0x52415445
    /\ closed (world m') = [3].
Proof.
  destruct (rejected_request_call Scenario.kod_then_garbage_net 3 Scenario.m0
              MoreScenarios.s0 Scenario.clock)
    as (m' & E & Hk & _ & _ & _ & _ & Hc).
  - reflexivity.
  - reflexivity.
  - reflexivity.
  - apply Nat.leb_le. vm_compute. reflexivity.
  - vm_compute. intro X. discriminate X.
  - vm_compute. intro X. discriminate X.
  - vm_compute. reflexivity.
  - reflexivity.
  - vm_compute. reflexivity.
  - reflexivity.
  - vm_compute. intro X. discriminate X.
  - unfold passes_checks. cbv zeta.
    repeat match goal with |- _ /\ _ => split end.
    + vm_compute. intro X. discriminate X.
    + vm_compute. intro X. discriminate X.
    + intros [X _]. vm_compute in X. discriminate X.
    + left. vm_compute. reflexivity.
    + vm_compute. reflexivity.
    + vm_compute. reflexivity.
  - vm_compute. reflexivity.
  - exists m'. split; [exact E|]. split.
    + rewrite Hk. vm_compute. reflexivity.
    + rewrite Hc. vm_compute. reflexivity.
Defined.

Lemma unanswered_request_times_out_witness :
  exists m',
    sntpex_client_timestamp_get MoreScenarios.mute_net 13 ADDR ADDR
      MoreScenarios.m_short = Some (SNTPEX_ERR_TIMEOUT, m')
    /\ closed (world m') = [3].
Proof.
  destruct (unanswered_request_times_out MoreScenarios.mute_net 10 4
              MoreScenarios.m_short
              (mkSock exlibPOLLIN_EVENT SLNETSOCK_SOCK_DGRAM
                      SLNETSOCK_PROTO_UDP 0 5000 0 0 (-1)))
    as (m' & E & _ & _ & _ & _ & Hc).
  - reflexivity.
  - reflexivity.
  - apply Nat.leb_le. vm_compute. reflexivity.
  - vm_compute. intro X. discriminate X.
  - vm_compute. intro X. discriminate X.
  - vm_compute. reflexivity.
  - reflexivity.
  - intros i _. reflexivity.
  - vm_compute. intro X. discriminate X.
  - lia.
  - exists m'. split; [exact E|]. rewrite Hc. vm_compute. reflexivity.
Defined.
